(** * MCP chatbot: protocol client and conversation orchestrator

    A shallow embedding of [bot/chatbot.py].  The classes [MCPMessage],
    [MCPClient], [LMStudioClient] and [MCPChatBot] and the function [main]
    are translated function by function.

    - Python values that come from [json.loads] are dynamically typed, so
      they are embedded as one type [json] with Python's own rules for
      truthiness, subscripts, [.get], [in] and iteration ([None] is [JNull]).
    - The mutable objects of a session and their environment are the fields
      of one record [World], threaded through a monad of state and
      exceptions; a raised exception keeps the mutations made before it, as
      in Python.  A third outcome, [Hang], stands for a call that never
      returns.
    - Text ([str]) is kept in its UTF-8 encoding, so that bytes and text
      are both [string]; [bytes.decode] checks the encoding and the
      operations on text ([strip]) work on the code points.
    - The server process is its pipes: what has been written to its stdin,
      and the lines it will still print, each with the delay after which it
      is there.  A read with a deadline either takes the next line or raises
      [TimeoutError] and leaves the line in the pipe; a line longer than the
      limit of the stream reader makes the read raise [ValueError].
    - The order in which a [set] hands out its members is a parameter of
      the development, as it depends on the hash seed of the run.
    - The completion endpoint is a function from the requests posted so far
      to the outcome of the last one.
    - [json.loads], [json.dumps] and [repr] are parameters of the
      development.  Logging and the console formatting are left out. *)

From Stdlib Require Import Bool Arith PeanoNat NArith ZArith Lia List String Ascii.
From Stdlib Require Import Sorted Permutation Decimal DecimalNat DecimalString.
Import ListNotations.
Local Open Scope string_scope.
Local Open Scope list_scope.

(** ** JSON values as Python sees them *)

#[local] Unset Elimination Schemes.
Inductive json : Type :=
| JNull                                   (* None *)
| JBool (b : bool)
| JNum (n : Z)
| JStr (s : string)
| JArr (items : list json)
| JObj (fields : list (string * json)).   (* dict, in insertion order *)
#[local] Set Elimination Schemes.

Fixpoint dict_get (k : string) (d : list (string * json)) : option json :=
  match d with
  | [] => None
  | (k', v) :: d' => if String.eqb k k' then Some v else dict_get k d'
  end.

Definition dict_has (k : string) (d : list (string * json)) : bool :=
  match dict_get k d with Some _ => true | None => false end.

Definition is_None (v : json) : bool :=
  match v with JNull => true | _ => false end.

(** [bool(v)] *)
Definition truthy (v : json) : bool :=
  match v with
  | JNull => false
  | JBool b => b
  | JNum n => negb (Z.eqb n 0)
  | JStr s => negb (String.eqb s "")
  | JArr l => match l with [] => false | _ => true end
  | JObj d => match d with [] => false | _ => true end
  end.

(** Numbers and booleans compare by value in Python ([True == 1]). *)
Definition py_num (v : json) : option Z :=
  match v with
  | JBool b => Some (if b then 1%Z else 0%Z)
  | JNum n => Some n
  | _ => None
  end.

(** [a == b] on hashable values, the only ones a [set] can hold. *)
Definition py_eqb (a b : json) : bool :=
  match a, b with
  | JNull, JNull => true
  | JStr s, JStr t => String.eqb s t
  | _, _ => match py_num a, py_num b with
            | Some x, Some y => Z.eqb x y
            | _, _ => false
            end
  end.

Definition py_hashable (v : json) : bool :=
  match v with JArr _ | JObj _ => false | _ => true end.

(** [x in l] for a list [l]. *)
Definition py_in (x : json) (l : list json) : bool := existsb (py_eqb x) l.

(** ** Exceptions and outcomes *)

Inductive exn : Type :=
| Exception (msg : string)     (* raise Exception(msg) *)
| OSError                      (* create_subprocess_exec could not launch *)
| BrokenPipeError              (* stdin.write / drain on a closed pipe *)
| TimeoutError                 (* asyncio.TimeoutError *)
| JSONDecodeError
| AttributeError
| KeyError
| IndexError
| TypeError
| ValueError                   (* StreamReader.readline: line over the limit *)
| UnicodeDecodeError           (* bytes.decode on ill-formed UTF-8 *)
| ProcessLookupError           (* terminate() on a child that has exited *)
| EOFError
| KeyboardInterrupt
| SystemExit (code : nat).

(** [isinstance(e, Exception)]: what [except Exception] catches. *)
Definition is_Exception (e : exn) : bool :=
  match e with
  | KeyboardInterrupt | SystemExit _ => false
  | _ => true
  end.

Inductive outcome (A : Type) : Type :=
| Return (a : A)
| Raise (e : exn)
| Hang.                        (* the call never returns *)
Arguments Return {A} a.
Arguments Raise {A} e.
Arguments Hang {A}.

Definition obind {A B} (o : outcome A) (f : A -> outcome B) : outcome B :=
  match o with
  | Return a => f a
  | Raise e => Raise e
  | Hang => Hang
  end.

(** ** Dynamic operations on JSON values *)

(** [v.get(k)]: only a dict has [get]. *)
Definition py_get (v : json) (k : string) : outcome json :=
  match v with
  | JObj d => Return (match dict_get k d with Some x => x | None => JNull end)
  | _ => Raise AttributeError
  end.

(** [v.get(k, default)] *)
Definition py_get_default (v : json) (k : string) (default : json) : outcome json :=
  match v with
  | JObj d => Return (match dict_get k d with Some x => x | None => default end)
  | _ => Raise AttributeError
  end.

(** [v[k]] with a string key. *)
Definition py_item (v : json) (k : string) : outcome json :=
  match v with
  | JObj d => match dict_get k d with Some x => Return x | None => Raise KeyError end
  | _ => Raise TypeError
  end.

(** [v[0]] *)
Definition py_index0 (v : json) : outcome json :=
  match v with
  | JArr (x :: _) => Return x
  | JArr [] => Raise IndexError
  | JStr (String c _) => Return (JStr (String c ""))
  | JStr EmptyString => Raise IndexError
  | JObj _ => Raise KeyError
  | _ => Raise TypeError
  end.

Fixpoint chars (s : string) : list json :=
  match s with
  | EmptyString => []
  | String c s' => JStr (String c "") :: chars s'
  end.

(** The items a [for] loop over [v] visits. *)
Definition py_iter (v : json) : outcome (list json) :=
  match v with
  | JArr l => Return l
  | JObj d => Return (map (fun kv => JStr (fst kv)) d)
  | JStr s => Return (chars s)
  | _ => Raise TypeError
  end.

(** [k in v] for a string [k]. *)
Definition py_contains (k : string) (v : json) : outcome bool :=
  match v with
  | JObj d => Return (dict_has k d)
  | JArr l => Return (py_in (JStr k) l)
  | JStr s => Return (match index 0 k s with Some _ => true | None => false end)
  | _ => Raise TypeError
  end.

(** [len(v)] succeeds on sized values only; the length itself is only logged. *)
Definition py_has_len (v : json) : bool :=
  match v with JStr _ | JArr _ | JObj _ => true | _ => false end.

(** [str(n)] for the message counter. *)
Definition str_of_nat (n : nat) : string :=
  NilZero.string_of_uint (Nat.to_uint n).

(** [int(s)] on decimal text. *)
Definition int_of_str (s : string) : option nat :=
  option_map Nat.of_uint (NilZero.uint_of_string s).

Definition newline : string := String (ascii_of_nat 10) "".

(** ** Bytes and text *)

Fixpoint bytes_of (s : string) : list N :=
  match s with
  | EmptyString => []
  | String c s' => N_of_ascii c :: bytes_of s'
  end.

Fixpoint string_of (bs : list N) : string :=
  match bs with
  | [] => EmptyString
  | b :: bs' => String (ascii_of_N b) (string_of bs')
  end.

Definition continuation (b : N) : bool := ((128 <=? b) && (b <? 192))%N.

(** The code points of a byte sequence that is well-formed UTF-8: shortest
    forms only, no surrogates, nothing above U+10FFFF. *)
Fixpoint utf8_decode (bs : list N) : option (list N) :=
  match bs with
  | [] => Some []
  | b0 :: r0 =>
      if (b0 <? 128)%N then option_map (cons b0) (utf8_decode r0)
      else if ((194 <=? b0) && (b0 <? 224))%N then
        match r0 with
        | b1 :: r1 =>
            if continuation b1
            then option_map (cons ((b0 - 192) * 64 + (b1 - 128))%N) (utf8_decode r1)
            else None
        | _ => None
        end
      else if ((224 <=? b0) && (b0 <? 240))%N then
        match r0 with
        | b1 :: b2 :: r2 =>
            let cp := ((b0 - 224) * 4096 + (b1 - 128) * 64 + (b2 - 128))%N in
            if continuation b1 && continuation b2 && (2048 <=? cp)%N
               && negb ((55296 <=? cp) && (cp <? 57344))%N
            then option_map (cons cp) (utf8_decode r2)
            else None
        | _ => None
        end
      else if ((240 <=? b0) && (b0 <? 245))%N then
        match r0 with
        | b1 :: b2 :: b3 :: r3 =>
            let cp := ((b0 - 240) * 262144 + (b1 - 128) * 4096
                       + (b2 - 128) * 64 + (b3 - 128))%N in
            if continuation b1 && continuation b2 && continuation b3
               && (65536 <=? cp)%N && (cp <? 1114112)%N
            then option_map (cons cp) (utf8_decode r3)
            else None
        | _ => None
        end
      else None
  end.

Definition utf8_encode_point (cp : N) : list N :=
  (if cp <? 128 then [cp]
   else if cp <? 2048 then [192 + cp / 64; 128 + cp mod 64]
   else if cp <? 65536 then
     [224 + cp / 4096; 128 + (cp / 64) mod 64; 128 + cp mod 64]
   else
     [240 + cp / 262144; 128 + (cp / 4096) mod 64; 128 + (cp / 64) mod 64;
      128 + cp mod 64])%N.

(** The code points of a text, [None] for bytes that are no text. *)
Definition code_points (s : string) : option (list N) := utf8_decode (bytes_of s).

Definition text_of (cps : list N) : string :=
  string_of (flat_map utf8_encode_point cps).

Definition is_text (s : string) : bool :=
  match code_points s with Some _ => true | None => false end.

(** [c.isspace()] *)
Definition is_space (cp : N) : bool :=
  (((9 <=? cp) && (cp <=? 13)) || ((28 <=? cp) && (cp <=? 32))
   || (cp =? 133) || (cp =? 160) || (cp =? 5760)
   || ((8192 <=? cp) && (cp <=? 8202)) || (cp =? 8232) || (cp =? 8233)
   || (cp =? 8239) || (cp =? 8287) || (cp =? 12288))%N.

Fixpoint lstrip (cps : list N) : list N :=
  match cps with
  | c :: cps' => if is_space c then lstrip cps' else cps
  | [] => []
  end.

Definition rstrip (cps : list N) : list N := List.rev (lstrip (List.rev cps)).

(** [s.strip()]: both ends lose their white space, Unicode's included.
    Bytes that are no text are left as they are; the program never strips
    such bytes. *)
Definition strip (s : string) : string :=
  match code_points s with
  | Some cps => text_of (rstrip (lstrip cps))
  | None => s
  end.

Fixpoint join (sep : string) (l : list string) : string :=
  match l with
  | [] => ""
  | [x] => x
  | x :: l' => (x ++ sep ++ join sep l')%string
  end.

(** ** MCPMessage *)

Record MCPMessage : Type := mkMCPMessage {
  jsonrpc : json;
  id : json;
  method : json;
  params : json;
  result : json;
  error : json
}.

(** [MCPMessage(method=m, params=p)] with the dataclass defaults. *)
Definition new_message (m : string) (p : json) : MCPMessage :=
  mkMCPMessage (JStr "2.0") JNull (JStr m) p JNull JNull.

Definition with_id (m : MCPMessage) (i : json) : MCPMessage :=
  mkMCPMessage (jsonrpc m) i (method m) (params m) (result m) (error m).

(** [message.__dict__.items()], in field order. *)
Definition message_items (m : MCPMessage) : list (string * json) :=
  [("jsonrpc", jsonrpc m); ("id", id m); ("method", method m);
   ("params", params m); ("result", result m); ("error", error m)].

(** [{k: v for k, v in message.__dict__.items() if v is not None}] *)
Definition message_dict (m : MCPMessage) : list (string * json) :=
  filter (fun kv => negb (is_None (snd kv))) (message_items m).

(** ** The child process *)

(** The server's side of the pipes.  [stdout_lines] are the lines the server
    will still print, each with the delay in milliseconds after which it is
    available to the next read; [stdout_eof] says whether the stream is at
    end of file once they are consumed (otherwise the server stays silent).
    [stdin_budget] is the number of writes the pipe still accepts
    ([None]: it never closes).  [exited] says whether the child is gone when
    the client comes to stop it: it has exited by itself and the event loop
    has seen its pipes close, or it has been terminated and waited for. *)
Record Process : Type := mkProcess {
  stdin_written : list string;
  stdin_budget : option nat;
  stdout_lines : list (N * string);
  stdout_eof : bool;
  terminate_calls : nat;
  wait_calls : nat;
  exited : bool
}.

(** ** The completion endpoint *)

(** What one POST to [/v1/chat/completions] does. *)
Inductive http_outcome : Type :=
| Http200 (body : json)
| HttpStatus (status : nat)
| HttpFailure (reason : string).

(** The payload fields that vary: [messages] and the optional [tools]. *)
Record payload : Type := mkPayload {
  messages : list json;
  tools : option (list json)
}.

(** One object printed on standard output in stdio mode. *)
Inductive stdout_record : Type :=
| StdioResponse (response : json) (tools_available tools_used : list json)
| StdioError (e : exn) (tools_available : list json).

(** What the terminal delivers to one read: a line of text, or Ctrl-C.  An
    interrupt is taken to raise [KeyboardInterrupt] in the read, as it does up
    to Python 3.10; from 3.11 on [asyncio.run] cancels the running task
    instead, which is not modelled. *)
Inductive stdin_event : Type :=
| Line (text : string)
| Interrupt.

(** [--mode] *)
Inductive run_mode : Type := interactive | stdio.

(** ** The world: the objects of one session and their environment *)

Record World : Type := mkWorld {
  (* MCPClient *)
  process : option Process;
  message_id : nat;
  (* MCPChatBot *)
  available_tools : json;
  conversation_history : list json;
  tools_used_in_conversation : list json;
  _previous_tools : option (list json);
  (* environment *)
  os_spawn : option Process;
  gateway : list payload -> http_outcome;
  gateway_log : list payload;
  stdout : list stdout_record
}.

Definition set_process (p : option Process) (w : World) : World :=
  mkWorld p (message_id w) (available_tools w) (conversation_history w)
    (tools_used_in_conversation w) (_previous_tools w) (os_spawn w)
    (gateway w) (gateway_log w) (stdout w).

Definition set_message_id (n : nat) (w : World) : World :=
  mkWorld (process w) n (available_tools w) (conversation_history w)
    (tools_used_in_conversation w) (_previous_tools w) (os_spawn w)
    (gateway w) (gateway_log w) (stdout w).

Definition set_available_tools (t : json) (w : World) : World :=
  mkWorld (process w) (message_id w) t (conversation_history w)
    (tools_used_in_conversation w) (_previous_tools w) (os_spawn w)
    (gateway w) (gateway_log w) (stdout w).

Definition set_conversation_history (h : list json) (w : World) : World :=
  mkWorld (process w) (message_id w) (available_tools w) h
    (tools_used_in_conversation w) (_previous_tools w) (os_spawn w)
    (gateway w) (gateway_log w) (stdout w).

Definition set_tools_used_in_conversation (t : list json) (w : World) : World :=
  mkWorld (process w) (message_id w) (available_tools w) (conversation_history w)
    t (_previous_tools w) (os_spawn w)
    (gateway w) (gateway_log w) (stdout w).

Definition set_previous_tools (t : option (list json)) (w : World) : World :=
  mkWorld (process w) (message_id w) (available_tools w) (conversation_history w)
    (tools_used_in_conversation w) t (os_spawn w)
    (gateway w) (gateway_log w) (stdout w).

Definition set_gateway (g : list payload -> http_outcome) (l : list payload) (w : World) : World :=
  mkWorld (process w) (message_id w) (available_tools w) (conversation_history w)
    (tools_used_in_conversation w) (_previous_tools w) (os_spawn w)
    g l (stdout w).

Definition set_stdout (o : list stdout_record) (w : World) : World :=
  mkWorld (process w) (message_id w) (available_tools w) (conversation_history w)
    (tools_used_in_conversation w) (_previous_tools w) (os_spawn w)
    (gateway w) (gateway_log w) o.

(** ** The monad *)

Definition M (A : Type) : Type := World -> outcome A * World.

Definition ret {A} (a : A) : M A := fun w => (Return a, w).

Definition raise {A} (e : exn) : M A := fun w => (Raise e, w).

Definition bind {A B} (m : M A) (f : A -> M B) : M B :=
  fun w =>
    match m w with
    | (Return a, w') => f a w'
    | (Raise e, w') => (Raise e, w')
    | (Hang, w') => (Hang, w')
    end.

Definition lift {A} (o : outcome A) : M A := fun w => (o, w).

Definition gets {A} (f : World -> A) : M A := fun w => (Return (f w), w).

Definition modify (f : World -> World) : M unit := fun w => (Return tt, f w).

(** [try: m  except <those e with h e = Some k>: k] *)
Definition try_except {A} (m : M A) (h : exn -> option (M A)) : M A :=
  fun w =>
    match m w with
    | (Raise e, w') => match h e with
                       | Some k => k w'
                       | None => (Raise e, w')
                       end
    | r => r
    end.

(** [try: m  finally: f] *)
Definition try_finally {A} (m : M A) (f : M unit) : M A :=
  fun w =>
    match m w with
    | (Hang, w') => (Hang, w')
    | (r, w') => match f w' with
                 | (Return _, w'') => (r, w'')
                 | (Raise e, w'') => (Raise e, w'')
                 | (Hang, w'') => (Hang, w'')
                 end
    end.

Declare Scope py_scope.
Delimit Scope py_scope with py.
Notation "x <- m ;; k" := (bind m (fun x => k))
  (at level 100, m at next level, right associativity) : py_scope.
Notation "m ;;; k" := (bind m (fun _ => k))
  (at level 100, right associativity) : py_scope.
Local Open Scope py_scope.

(** [MCPChatBot(...)] before [start], in an environment where launching the
    server command yields [spawn] and the completion endpoint behaves as [g]. *)
Definition new_session (spawn : option Process) (g : list payload -> http_outcome)
    : World :=
  mkWorld None 0 (JArr []) [] [] None spawn g [] [].

(** ** Pipes of the child process *)

Definition READ_TIMEOUT_MS : N := 10000.   (* timeout=10.0 *)

(** The pipe after one more successful write. *)
Definition push_stdin (data : string) (p : Process) : Process :=
  mkProcess (stdin_written p ++ [data]) (option_map pred (stdin_budget p))
    (stdout_lines p) (stdout_eof p) (terminate_calls p) (wait_calls p) (exited p).

Definition set_stdout_lines (l : list (N * string)) (p : Process) : Process :=
  mkProcess (stdin_written p) (stdin_budget p) l (stdout_eof p)
    (terminate_calls p) (wait_calls p) (exited p).

(** [self.process.stdin.write(data); await self.process.stdin.drain()] *)
Definition stdin_write (data : string) : M unit :=
  fun w =>
    match process w with
    | None => (Raise AttributeError, w)
    | Some p =>
        match stdin_budget p with
        | Some 0 => (Raise BrokenPipeError, w)
        | _ => (Return tt, set_process (Some (push_stdin data p)) w)
        end
    end.

(** The limit of the stream reader that [create_subprocess_exec] makes
    ([limit=2**16]), and the place of the separator in a line. *)
Definition STREAM_LIMIT : N := 65536.

Definition separator_at (line : string) : N :=
  match index 0 newline line with
  | Some i => N.of_nat i
  | None => N.of_nat (String.length line)
  end.

(** [readuntil] finds the separator beyond the limit. *)
Definition overruns (line : string) : bool := (STREAM_LIMIT <? separator_at line)%N.

(** [await asyncio.wait_for(self.process.stdout.readline(), timeout)].  A line
    that is not there in time stays in the pipe for a later read.  On a line
    that overruns the limit the read raises [ValueError]; the reader then
    discards what it holds of the line, here the whole of it. *)
Definition readline_within (timeout : N) : M string :=
  fun w =>
    match process w with
    | None => (Raise AttributeError, w)
    | Some p =>
        match stdout_lines p with
        | (delay, line) :: rest =>
            if (delay <=? timeout)%N
            then (if overruns line then Raise ValueError else Return line,
                  set_process (Some (set_stdout_lines rest p)) w)
            else (Raise TimeoutError,
                  set_process
                    (Some (set_stdout_lines (((delay - timeout)%N, line) :: rest) p)) w)
        | [] => if stdout_eof p then (Return "", w) else (Raise TimeoutError, w)
        end
    end.

(** [self.process.terminate(); await self.process.wait()] on a child that
    is still there. *)
Definition terminate_and_wait (p : Process) : Process :=
  mkProcess (stdin_written p) (stdin_budget p) (stdout_lines p) (stdout_eof p)
    (S (terminate_calls p)) (S (wait_calls p)) true.

(** [self.process.terminate()] on a child that is gone: the call raises
    [ProcessLookupError] and [wait] is not reached. *)
Definition terminate_refused (p : Process) : Process :=
  mkProcess (stdin_written p) (stdin_budget p) (stdout_lines p) (stdout_eof p)
    (S (terminate_calls p)) (wait_calls p) (exited p).

(** ** A sample runtime and sample sessions

    Stand-ins for [json.loads], [json.dumps], [repr] and the order of a
    [set], used by the closed examples at the end of the file.
    [sample_loads] knows the documents of [sample_documents] and rejects
    every other text; the examples only feed it those documents and texts
    that are not JSON at all.  The printers handle values whose strings need
    no escaping; [sample_dumps] lays a value out as [json.dumps] does, on one
    line without [indent] and on indented lines with it. *)

Definition dq : string := String (ascii_of_nat 34) "".

Definition quoted (s : string) : string := (dq ++ s ++ dq)%string.

Definition str_of_Z (n : Z) : string := NilEmpty.string_of_int (Z.to_int n).

Fixpoint sample_show (v : json) : string :=
  match v with
  | JNull => "null"
  | JBool b => if b then "true" else "false"
  | JNum n => str_of_Z n
  | JStr s => quoted s
  | JArr l => ("[" ++ join ", " (map sample_show l) ++ "]")%string
  | JObj d =>
      ("{" ++ join ", " (map (fun kv => (quoted (fst kv) ++ ": " ++ sample_show (snd kv))%string) d)
           ++ "}")%string
  end.

Fixpoint spaces (n : nat) : string :=
  match n with
  | 0 => ""
  | S n' => String " " (spaces n')
  end.

(** [json.dumps(v, indent=step)] at nesting depth [level]. *)
Fixpoint sample_pretty (step level : nat) (v : json) : string :=
  let inner := spaces (step * S level) in
  match v with
  | JArr [] => "[]"
  | JObj [] => "{}"
  | JArr l =>
      ("[" ++ newline ++ inner
           ++ join ("," ++ newline ++ inner) (map (sample_pretty step (S level)) l)
           ++ newline ++ spaces (step * level) ++ "]")%string
  | JObj d =>
      ("{" ++ newline ++ inner
           ++ join ("," ++ newline ++ inner)
                (map (fun kv => (quoted (fst kv) ++ ": "
                                 ++ sample_pretty step (S level) (snd kv))%string) d)
           ++ newline ++ spaces (step * level) ++ "}")%string
  | _ => sample_show v
  end.

Definition sample_dumps (indent : option nat) (v : json) : string :=
  match indent with
  | None => sample_show v
  | Some step => sample_pretty step 0 v
  end.

(** A run in which a set hands out its members in the order they went in. *)
Definition sample_order (l : list json) : list json := l.

Fixpoint sample_repr (v : json) : string :=
  match v with
  | JNull => "None"
  | JBool b => if b then "True" else "False"
  | JNum n => str_of_Z n
  | JStr s => ("'" ++ s ++ "'")%string
  | JArr l => ("[" ++ join ", " (map sample_repr l) ++ "]")%string
  | JObj d =>
      ("{" ++ join ", " (map (fun kv => ("'" ++ fst kv ++ "': " ++ sample_repr (snd kv))%string) d)
           ++ "}")%string
  end.

(** [{"jsonrpc": "2.0", "id": i, "result": r}] *)
Definition result_response (i : string) (r : json) : json :=
  JObj [("jsonrpc", JStr "2.0"); ("id", JStr i); ("result", r)].

(** [{"jsonrpc": "2.0", "id": i, "error": {"code": c, "message": m}}] *)
Definition error_response (i : string) (c : Z) (m : string) : json :=
  JObj [("jsonrpc", JStr "2.0"); ("id", JStr i);
        ("error", JObj [("code", JNum c); ("message", JStr m)])].

Definition echo_tool : json :=
  JObj [("name", JStr "echo"); ("description", JStr "Echoes input");
        ("inputSchema",
         JObj [("properties", JObj [("text", JObj [("type", JStr "string")])])])].

Definition sample_documents : list json :=
  [ result_response "0" (JObj []);
    error_response "0" (-32600) "unsupported protocol version";
    result_response "2" (JObj [("tools", JArr [echo_tool])]);
    result_response "3" (JObj [("content", JStr "hi")]);
    error_response "3" (-32000) "tool crashed";
    JObj [("text", JStr "hi")];
    result_response "4" (JObj [("content", JStr "hi")]) ].

Definition sample_loads (s : string) : option json :=
  find (fun d => String.eqb (sample_show d) s) sample_documents.

(** The line the server prints for [d]. *)
Definition line_of (d : json) : string := (sample_show d ++ newline)%string.

(** A server that answers [initialize] and [tools/list] at once and the first
    [tools/call] only after twenty seconds. *)
Definition sample_server : Process :=
  mkProcess [] None
    [(5%N, line_of (result_response "0" (JObj [])));
     (5%N, line_of (result_response "2" (JObj [("tools", JArr [echo_tool])])));
     (20000%N, line_of (result_response "3" (JObj [("content", JStr "hi")])))]
    false 0 0 false.

(** [{"function": {"name": name, "arguments": arguments}}] *)
Definition tool_call (name arguments : string) : json :=
  JObj [("function", JObj [("name", JStr name); ("arguments", JStr arguments)])].

(** A 200 answer of the endpoint with one choice. *)
Definition completion (message : json) : http_outcome :=
  Http200 (JObj [("choices", JArr [JObj [("message", message)]])]).

Definition assistant (content : json) (calls : list json) : json :=
  JObj [("role", JStr "assistant"); ("content", content); ("tool_calls", JArr calls)].

(** An endpoint that asks for [echo] in its first answer and again in its
    second one, and is unreachable afterwards. *)
Definition sample_gateway (requests : list payload) : http_outcome :=
  match List.length requests with
  | 1 => completion (assistant JNull
                       [tool_call "echo" (sample_show (JObj [("text", JStr "hi")]))])
  | 2 => completion (assistant (JStr "done")
                       [tool_call "echo" (sample_show (JObj [("text", JStr "hi")]))])
  | _ => HttpFailure "connection refused"
  end.

Definition sample_inputs : list stdin_event :=
  [Line ("hello" ++ newline)%string; Line ("again" ++ newline)%string].

(** The session right after the server process [p] has been spawned. *)
Definition spawned (p : Process) (g : list payload -> http_outcome) : World :=
  set_process (Some p) (new_session (Some p) g).

(** A server that prints nothing. *)
Definition silent_server : Process := mkProcess [] None [] false 0 0 false.

(** A server that accepts [initialize] and then closes its input. *)
Definition closing_server : Process :=
  mkProcess [] (Some 1) [(5%N, line_of (result_response "0" (JObj [])))] false 0 0 false.

(** A server that refuses [initialize]. *)
Definition refusing_server : Process :=
  mkProcess [] None
    [(5%N, line_of (error_response "0" (-32600) "unsupported protocol version"))]
    false 0 0 false.

(** An endpoint whose first answer asks for [echo] with an argument text
    that is not JSON. *)
Definition garbling_gateway (requests : list payload) : http_outcome :=
  match List.length requests with
  | 1 => completion (assistant JNull [tool_call "echo" "not json"])
  | _ => completion (assistant (JStr "done") [])
  end.

(** A session in which [start] has run against a server that offers [echo]:
    [initialize] and [tools/list] have used the ids 0 and 2. *)
Definition ready (server : Process) (g : list payload -> http_outcome) : World :=
  mkWorld (Some server) 2 (JArr [echo_tool])
    [JObj [("role", JStr "system"); ("content", JStr "You are an AI assistant.")]]
    [] None (Some server) g [] [].

(** A server that answers the next request at once. *)
Definition echo_server : Process :=
  mkProcess [] None
    [(5%N, line_of (result_response "3" (JObj [("content", JStr "hi")])))] false 0 0 false.

(** A server that answers the next request after twenty seconds. *)
Definition late_server : Process :=
  mkProcess [] None
    [(20000%N, line_of (result_response "3" (JObj [("content", JStr "hi")])))] false 0 0 false.

(** The schema the tool bridge makes of [echo_tool]. *)
Definition echo_schema : json :=
  JObj [("type", JStr "function");
        ("function",
         JObj [("name", JStr "echo"); ("description", JStr "Echoes input");
               ("parameters",
                JObj [("properties", JObj [("text", JObj [("type", JStr "string")])])])])].

(** A server whose output has reached its end: the process has exited. *)
Definition exited_server : Process := mkProcess [] None [] true 0 0 true.

(** A server whose next line holds white space only: a no-break space
    (U+00A0) and a blank. *)
Definition blank_line : string :=
  String (ascii_of_nat 194) (String (ascii_of_nat 160) (" " ++ newline)).

Definition blank_server : Process :=
  mkProcess [] None [(5%N, blank_line)] false 0 0 false.

(** A server that answers the next request with the bare number 42, and a
    decoder that knows this document besides the sample ones. *)
Definition number_server : Process :=
  mkProcess [] None [(5%N, ("42" ++ newline)%string)] false 0 0 false.

Definition number_loads (s : string) : option json :=
  if String.eqb s "42" then Some (JNum 42) else sample_loads s.

(** A server that answers the next request with its list of tools. *)
Definition listing_server : Process :=
  mkProcess [] None
    [(5%N, line_of (result_response "2" (JObj [("tools", JArr [echo_tool])])))]
    false 0 0 false.

(** A server that answers the next two requests at once. *)
Definition prompt_server : Process :=
  mkProcess [] None
    [(5%N, line_of (result_response "3" (JObj [("content", JStr "hi")])));
     (5%N, line_of (result_response "4" (JObj [("content", JStr "hi")])))]
    false 0 0 false.

(** A server that answers [initialize], [tools/list] and two calls at once. *)
Definition busy_server : Process :=
  mkProcess [] None
    [(5%N, line_of (result_response "0" (JObj [])));
     (5%N, line_of (result_response "2" (JObj [("tools", JArr [echo_tool])])));
     (5%N, line_of (result_response "3" (JObj [("content", JStr "hi")])));
     (5%N, line_of (result_response "4" (JObj [("content", JStr "hi")])))]
    false 0 0 false.


(** A server whose next line is longer than the stream reader accepts:
    65537 characters before the line feed. *)
Definition overlong_line : string := N.iter 65537 (String "x") newline.

Definition overlong_server : Process :=
  mkProcess [] None [(5%N, overlong_line)] false 0 0 false.


(** An endpoint that asks for [echo] in each turn; the follow-up request of
    the first turn meets an overloaded endpoint, that of the second one is
    answered. *)
Definition retry_gateway (requests : list payload) : http_outcome :=
  match List.length requests with
  | 1 | 3 => completion (assistant JNull
                           [tool_call "echo" (sample_show (JObj [("text", JStr "hi")]))])
  | 2 => HttpStatus 503
  | _ => completion (assistant (JStr "done") [])
  end.

(** An endpoint that asks for [echo] in the first turn, answers the
    follow-up request with a message that has no [content], and answers in
    plain text afterwards. *)
Definition terse_gateway (requests : list payload) : http_outcome :=
  match List.length requests with
  | 1 => completion (assistant JNull
                       [tool_call "echo" (sample_show (JObj [("text", JStr "hi")]))])
  | 2 => completion (JObj [("role", JStr "assistant")])
  | _ => completion (assistant (JStr "hello yourself") [])
  end.

(** An endpoint that asks for [echo] in each turn and answers each follow-up
    request. *)
Definition eager_gateway (requests : list payload) : http_outcome :=
  match List.length requests with
  | 1 | 3 => completion (assistant JNull
                           [tool_call "echo" (sample_show (JObj [("text", JStr "hi")]))])
  | _ => completion (assistant (JStr "done") [])
  end.

(** An endpoint that cannot be reached. *)
Definition unreachable_gateway (requests : list payload) : http_outcome :=
  HttpFailure "connection refused".

(** An endpoint that answers in plain text, without tool calls. *)
Definition plain_gateway (requests : list payload) : http_outcome :=
  completion (assistant (JStr "hello yourself") []).

(** An endpoint that asks for [echo] in its first answer and is overloaded
    afterwards. *)
Definition flaky_gateway (requests : list payload) : http_outcome :=
  match List.length requests with
  | 1 => completion (assistant JNull
                       [tool_call "echo" (sample_show (JObj [("text", JStr "hi")]))])
  | _ => HttpStatus 503
  end.

Section Runtime.

(** Library functions the program calls, taken as they are:
    [json.loads] ([None] when it raises [JSONDecodeError]), [json.dumps]
    with its [indent] argument, and [repr] of a value that is not a string. *)
Variable json_loads : string -> option json.
Variable json_dumps : option nat -> json -> string.
Variable py_repr : json -> string.

(** The order in which [set(l)] hands out its members, for a list [l]
    without repetition; it is fixed within a run and is some arrangement of
    the members. *)
Variable set_order : list json -> list json.
Hypothesis set_order_permutes : forall l, Permutation (set_order l) l.

(** [str(v)], also what an f-string does with [{v}]. *)
Definition py_str (v : json) : string :=
  match v with
  | JStr s => s
  | _ => py_repr v
  end.

(** ** MCPClient *)

(** The text written for the dict [d]: [json.dumps(d) + '\n']. *)
Definition wire_line (d : list (string * json)) : string :=
  (json_dumps None (JObj d) ++ newline)%string.

(** [response_line.decode()] *)
Definition decode (data : string) : outcome string :=
  if is_text data then Return data else Raise UnicodeDecodeError.

(** [MCPMessage(jsonrpc=response_data.get("jsonrpc", "2.0"), ...)] *)
Definition parse_message (response_data : json) : outcome MCPMessage :=
  obind (py_get_default response_data "jsonrpc" (JStr "2.0")) (fun v =>
  obind (py_get response_data "id") (fun i =>
  obind (py_get response_data "method") (fun m =>
  obind (py_get response_data "params") (fun p =>
  obind (py_get response_data "result") (fun r =>
  obind (py_get response_data "error") (fun e =>
  Return (mkMCPMessage v i m p r e))))))).

(** The second half of [send_request]: read the response with a timeout. *)
Definition read_response : M (option MCPMessage) :=
  try_except
    (response_line <- readline_within READ_TIMEOUT_MS ;;
     if negb (String.eqb response_line "") then
       text <- lift (decode response_line) ;;
       let response_text := strip text in
       if negb (String.eqb response_text "") then
         match json_loads response_text with
         | None => ret None                      (* except json.JSONDecodeError *)
         | Some response_data =>
             response <- lift (parse_message response_data) ;;
             ret (Some response)
         end
       else ret None
     else ret None)
    (fun e => match e with
              | TimeoutError => Some (ret None)
              | _ => None
              end).

Definition send_request (message : MCPMessage) : M (option MCPMessage) :=
  p <- gets process ;;
  match p with
  | None => raise (Exception "MCP server not started")
  | Some _ =>
      modify (fun w => set_message_id (message_id w + 1) w) ;;;
      n <- gets message_id ;;
      let message :=
        if is_None (id message) then with_id message (JStr (str_of_nat n))
        else message in
      stdin_write (wire_line (message_dict message)) ;;;
      read_response
  end.

Definition send_notification (message : MCPMessage) : M unit :=
  p <- gets process ;;
  match p with
  | None => raise (Exception "MCP server not started")
  | Some _ =>
      stdin_write (wire_line (message_dict message))
  end.

Definition init_params : json :=
  JObj [("protocolVersion", JStr "2024-11-05");
        ("capabilities", JObj [("tools", JObj [])]);
        ("clientInfo", JObj [("name", JStr "mcp-chatbot");
                             ("version", JStr "1.0.0")])].

(** [MCPMessage(id=str(self.message_id), method="initialize", params=...)] *)
Definition init_request (n : nat) : MCPMessage :=
  with_id (new_message "initialize" init_params) (JStr (str_of_nat n)).

Definition initialize : M unit :=
  n <- gets message_id ;;
  response <- send_request (init_request n) ;;
  match response with
  | Some r =>
      if negb (truthy (error r)) then
        try_except
          (send_notification (new_message "notifications/initialized" (JObj [])))
          (fun e => if is_Exception e then Some (ret tt) else None)
      else
        raise (Exception ("Failed to initialize MCP server: " ++ py_str (error r))%string)
  | None =>
      raise (Exception "Failed to initialize MCP server: No response")
  end.

(** [MCPClient.start]; its [except Exception] only logs and re-raises. *)
Definition client_start : M unit :=
  s <- gets os_spawn ;;
  match s with
  | None => raise OSError
  | Some p => modify (set_process (Some p)) ;;; initialize
  end.

Definition list_tools : M json :=
  response <- send_request (new_message "tools/list" (JObj [])) ;;
  match response with
  | Some r =>
      if negb (truthy (error r)) then
        tools <- (if truthy (result r)
                  then lift (py_get_default (result r) "tools" (JArr []))
                  else ret (JArr [])) ;;
        if py_has_len tools then ret tools else raise TypeError
      else ret (JArr [])
  | None => ret (JArr [])
  end.

Definition call_tool (tool_name : json) (arguments : json) : M json :=
  response <- send_request
                (new_message "tools/call"
                   (JObj [("name", tool_name); ("arguments", arguments)])) ;;
  match response with
  | Some r =>
      if negb (truthy (error r)) then ret (result r)
      else ret (JObj [("error", JStr (py_str (error r)))])
  | None => ret (JObj [("error", JStr (py_str (JStr "No response")))])
  end.

(** [MCPClient.stop].  The process is not forgotten afterwards. *)
Definition client_stop : M unit :=
  p <- gets process ;;
  match p with
  | Some p =>
      if exited p then
        modify (set_process (Some (terminate_refused p))) ;;;
        raise ProcessLookupError
      else modify (set_process (Some (terminate_and_wait p)))
  | None => ret tt
  end.

(** ** LMStudioClient *)

(** [chat_completion]: every failure of the POST is turned into an
    [{"error": ...}] dict; nothing is raised. *)
Definition chat_completion (msgs : list json) (tls : option (list json)) : M json :=
  let sent := mkPayload msgs (match tls with
                              | Some [] | None => None      (* if tools: *)
                              | Some l => Some l
                              end) in
  g <- gets gateway ;;
  l <- gets gateway_log ;;
  modify (set_gateway g (l ++ [sent])) ;;;
  match g (l ++ [sent]) with
  | Http200 body => ret body
  | HttpStatus status =>
      ret (JObj [("error", JStr ("API error: " ++ str_of_nat status)%string)])
  | HttpFailure reason =>
      ret (JObj [("error", JStr ("Connection failed: " ++ reason)%string)])
  end.

(** ** MCPChatBot *)

Fixpoint omap {A B} (f : A -> outcome B) (l : list A) : outcome (list B) :=
  match l with
  | [] => Return []
  | x :: l' => obind (f x) (fun y => obind (omap f l') (fun ys => Return (y :: ys)))
  end.

(** [[tool['name'] for tool in self.available_tools]] *)
Definition tool_names (available : json) : outcome (list json) :=
  obind (py_iter available) (omap (fun tool => py_item tool "name")).

(** One round of the loop of [create_system_message]. *)
Definition describe_tool (tool : json) : outcome string :=
  obind (py_item tool "name") (fun name =>
  obind (py_get_default tool "description" (JStr "No description available")) (fun d =>
  let desc := ("- " ++ py_str name ++ ": " ++ py_str d)%string in
  obind (py_contains "inputSchema" tool) (fun has =>
  if has : bool then
    obind (py_item tool "inputSchema") (fun schema =>
    obind (py_get_default schema "properties" (JObj [])) (fun properties =>
    if truthy properties then
      match properties with
      | JObj ps => Return (desc ++ " (Parameters: " ++ join ", " (map fst ps) ++ ")")%string
      | _ => Raise AttributeError          (* properties.keys() *)
      end
    else Return desc))
  else Return desc))).

Definition system_prompt (tools_text : string) : string :=
  ("You are an AI assistant with access to MCP (Model Context Protocol) tools. "
  ++ newline ++
  "You can use these tools to help answer q`uestions and perform tasks."
  ++ newline ++ newline ++
  "Available tools:" ++ newline ++ tools_text ++ newline ++ newline ++
  "When you need to use a tool, respond with a function call. The user will execute the tool and provide you with the results."
  ++ newline ++
  "Be helpful, accurate, and use the appropriate tools when needed to provide comprehensive answers.")%string.

Definition create_system_message (available : json) : outcome json :=
  obind (py_iter available) (fun ts =>
  obind (omap describe_tool ts) (fun tool_descriptions =>
  let tools_text := match tool_descriptions with
                    | [] => "No tools available"
                    | _ => join newline tool_descriptions
                    end in
  Return (JObj [("role", JStr "system"); ("content", JStr (system_prompt tools_text))]))).

(** [MCPChatBot.start].  When no tool came back the source also reads the
    server's stderr for the log; that read changes nothing here. *)
Definition start : M unit :=
  client_start ;;;
  ts <- list_tools ;;
  modify (set_available_tools ts) ;;;
  _ <- lift (tool_names ts) ;;                        (* logged *)
  system_message <- lift (create_system_message ts) ;;
  modify (fun w => set_conversation_history (conversation_history w ++ [system_message]) w).

(** One round of the loop of [convert_tools_for_openai]. *)
Definition convert_tool (tool : json) : outcome json :=
  obind (py_item tool "name") (fun name =>
  obind (py_get_default tool "description" (JStr "")) (fun description =>
  let function := [("name", name); ("description", description)] in
  obind (py_contains "inputSchema" tool) (fun has =>
  if has : bool then
    obind (py_item tool "inputSchema") (fun schema =>
    Return (JObj [("type", JStr "function");
                  ("function", JObj (function ++ [("parameters", schema)]))]))
  else
    Return (JObj [("type", JStr "function"); ("function", JObj function)])))).

Definition convert_tools_for_openai (available : json) : outcome (list json) :=
  obind (py_iter available) (omap convert_tool).

(** [json.loads(x)]: [x] has to be text. *)
Definition loads (x : json) : outcome json :=
  match x with
  | JStr s => match json_loads s with
              | Some v => Return v
              | None => Raise JSONDecodeError
              end
  | _ => Raise TypeError
  end.

Definition tool_result_line (function_name result : json) : string :=
  ("Tool " ++ py_str function_name ++ " result: " ++ json_dumps (Some 2) result)%string.

(** The [for tool_call in assistant_message["tool_calls"]] loop, with its two
    accumulators. *)
Fixpoint for_tool_calls (calls : list json)
    (tools_used_this_turn : list json) (tool_results : list string)
    : M (list json * list string) :=
  match calls with
  | [] => ret (tools_used_this_turn, tool_results)
  | tool_call :: rest =>
      f <- lift (py_item tool_call "function") ;;
      function_name <- lift (py_item f "name") ;;
      a <- lift (py_item f "arguments") ;;
      arguments <- lift (loads a) ;;
      let tools_used_this_turn := tools_used_this_turn ++ [function_name] in
      result <- call_tool function_name arguments ;;
      for_tool_calls rest tools_used_this_turn
        (tool_results ++ [tool_result_line function_name result])
  end.

Definition append_history (m : json) : M unit :=
  modify (fun w => set_conversation_history (conversation_history w ++ [m]) w).

(** [response["choices"][0]["message"]] *)
Definition first_message (response : json) : outcome json :=
  obind (py_item response "choices") (fun choices =>
  obind (py_index0 choices) (fun c => py_item c "message")).

(** The branch of [process_message] taken when the assistant asks for tools:
    run the calls, record them, ask once more without tools. *)
Definition tool_round (assistant_message : json) : M json :=
  tool_calls <- lift (py_item assistant_message "tool_calls") ;;
  calls <- lift (py_iter tool_calls) ;;
  r <- for_tool_calls calls [] [] ;;
  let tools_used_this_turn := fst r in
  let tool_results := snd r in
  append_history assistant_message ;;;
  append_history
    (JObj [("role", JStr "user");
           ("content", JStr ("Tool results:" ++ newline ++ join newline tool_results)%string)]) ;;;
  history <- gets conversation_history ;;
  final_response <- chat_completion history None ;;
  failed <- lift (py_contains "error" final_response) ;;
  if failed : bool then
    e <- lift (py_item final_response "error") ;;
    ret (JStr ("Error in final response: " ++ py_str e)%string)
  else
    final_message <- lift (first_message final_response) ;;
    append_history final_message ;;;
    modify (fun w => set_tools_used_in_conversation
                       (tools_used_in_conversation w ++ tools_used_this_turn) w) ;;;
    lift (py_item final_message "content").

Definition process_message (user_input : string) : M json :=
  append_history (JObj [("role", JStr "user"); ("content", JStr user_input)]) ;;;
  available <- gets available_tools ;;
  openai_tools <- lift (convert_tools_for_openai available) ;;
  history <- gets conversation_history ;;
  response <- chat_completion history
                (match openai_tools with [] => None | _ => Some openai_tools end) ;;
  failed <- lift (py_contains "error" response) ;;
  if failed : bool then
    e <- lift (py_item response "error") ;;
    ret (JStr ("Error: " ++ py_str e)%string)
  else
    assistant_message <- lift (first_message response) ;;
    requested <- lift (py_get assistant_message "tool_calls") ;;
    if truthy requested then tool_round assistant_message
    else
      append_history assistant_message ;;;
      lift (py_item assistant_message "content").

(** [MCPChatBot.stop] *)
Definition stop : M unit := client_stop.

(** [list(set(l))]: the members of [l] without repetition (of equal members
    the first one stays), in the order the set hands them out. *)
Definition set_add (x : json) (s : list json) : list json :=
  if py_in x s then s else s ++ [x].

Definition py_set (l : list json) : outcome (list json) :=
  if forallb py_hashable l
  then Return (set_order (fold_left (fun s x => set_add x s) l []))
  else Raise TypeError.

Definition print (r : stdout_record) : M unit :=
  modify (fun w => set_stdout (stdout w ++ [r]) w).

(** The inner [try] block of [run_stdio] for one input line. *)
Definition stdio_turn (user_input : string) : M unit :=
  response <- process_message user_input ;;
  used <- gets tools_used_in_conversation ;;
  current_tools <- lift (py_set used) ;;
  previous <- gets _previous_tools ;;
  let tools_in_last_turn :=
    filter (fun tool => negb (py_in tool (match previous with
                                         | Some l => l
                                         | None => []
                                         end))) current_tools in
  available <- gets available_tools ;;
  names <- lift (tool_names available) ;;
  print (StdioResponse response names tools_in_last_turn) ;;;
  modify (set_previous_tools (Some current_tools)).

(** Its [except Exception as e] handler. *)
Definition stdio_turn_failed (e : exn) : M unit :=
  available <- gets available_tools ;;
  names <- lift (tool_names available) ;;
  print (StdioError e names).

Fixpoint stdio_loop (inputs : list stdin_event) : M unit :=
  match inputs with
  | [] => ret tt                                        (* EOF *)
  | Interrupt :: _ => raise KeyboardInterrupt
  | Line line :: rest =>
      if String.eqb line "" then ret tt
      else
        let user_input := strip line in
        if String.eqb user_input "" then stdio_loop rest
        else
          try_except (stdio_turn user_input)
            (fun e => if is_Exception e then Some (stdio_turn_failed e) else None) ;;;
          stdio_loop rest
  end.

Definition run_stdio (inputs : list stdin_event) : M unit :=
  available <- gets available_tools ;;
  _ <- lift (tool_names available) ;;                   (* logged *)
  try_finally
    (try_except (stdio_loop inputs)
       (fun e => if is_Exception e then Some (ret tt) else None))
    stop.

(** [s.lower()] as far as the comparison with [quit], [exit] and [bye] needs
    it: the capitals of ASCII are mapped, every other byte stays.  (No text
    with a character outside ASCII lower-cases to one of these words.) *)
Definition lower_char (c : ascii) : ascii :=
  let n := nat_of_ascii c in
  if ((65 <=? n) && (n <=? 90))%nat then ascii_of_nat (n + 32) else c.

Fixpoint lower (s : string) : string :=
  match s with
  | EmptyString => EmptyString
  | String c s' => String (lower_char c) (lower s')
  end.

Definition is_quit (s : string) : bool :=
  String.eqb s "quit" || String.eqb s "exit" || String.eqb s "bye".

(** The loop of [run_interactive].  At end of input [input()] raises
    [EOFError], the handler for [Exception] reports it and the loop asks
    again: the call never returns. *)
Fixpoint interactive_loop (inputs : list stdin_event) : M unit :=
  match inputs with
  | [] => fun w => (Hang, w)
  | Interrupt :: _ => ret tt
  | Line line :: rest =>
      let user_input := strip line in
      if is_quit (lower user_input) then ret tt
      else if String.eqb user_input "" then interactive_loop rest
      else
        again <- try_except (process_message user_input ;;; ret true)
                   (fun e => match e with
                             | KeyboardInterrupt => Some (ret false)
                             | _ => if is_Exception e then Some (ret true) else None
                             end) ;;
        if again : bool then interactive_loop rest else ret tt
  end.

Definition all_text (l : list json) : bool :=
  forallb (fun v => match v with JStr _ => true | _ => false end) l.

Definition run_interactive (inputs : list stdin_event) : M unit :=
  available <- gets available_tools ;;
  (if truthy available then
     names <- lift (tool_names available) ;;            (* ', '.join(names) *)
     if all_text names then ret tt else raise TypeError
   else ret tt) ;;;
  try_finally (interactive_loop inputs) stop.

(** ** main *)

Definition main (mode : run_mode) (inputs : list stdin_event) : M unit :=
  try_except
    (start ;;;
     match mode with
     | interactive => run_interactive inputs
     | stdio => run_stdio inputs
     end)
    (fun e => match e with
              | KeyboardInterrupt => Some (ret tt)
              | _ => if is_Exception e then Some (raise (SystemExit 1)) else None
              end).

(** ** Vocabulary of the statements *)

(** A tool descriptor as [tools/list] delivers it: a dict with a [name]. *)
Definition is_descriptor (tool : json) : bool :=
  match tool with
  | JObj d => dict_has "name" d
  | _ => false
  end.

(** [I] holds after [m] whenever it held before, however [m] ends. *)
Definition preserves {A} (I : World -> Prop) (m : M A) : Prop :=
  forall w, I w -> I (snd (m w)).

(** The dicts [ds] are what the session has written to the server so far. *)
Definition written (w : World) (ds : list (list (string * json))) : Prop :=
  match process w with
  | Some p => stdin_written p = map wire_line ds
  | None => ds = []
  end.

(** A written dict with an [id] is a Request; the others are Notifications. *)
Definition is_request (d : list (string * json)) : bool := dict_has "id" d.

(** The [id] of a written dict, read as an integer. *)
Definition id_number (d : list (string * json)) : option nat :=
  match dict_get "id" d with
  | Some (JStr s) => int_of_str s
  | _ => None
  end.

(** The shape of a Request or Notification on the wire. *)
Definition well_formed_line (d : list (string * json)) : Prop :=
  dict_get "jsonrpc" d = Some (JStr "2.0") /\
  (exists m, dict_get "method" d = Some (JStr m)) /\
  dict_get "result" d = None /\
  dict_get "error" d = None /\
  Forall (fun kv => snd kv <> JNull) d.

(** The ids of the Requests among [ds] are the numbers [ns]. *)
Definition request_ids (ds : list (list (string * json))) (ns : list nat) : Prop :=
  map id_number (filter is_request ds) = map Some ns.

Definition starts_with_initialize (ds : list (list (string * json))) : Prop :=
  exists rest, ds = message_dict (init_request 0) :: rest.

(** What holds of the wire once [initialize] has been sent. *)
Definition wire_inv (w : World) : Prop :=
  exists ds ns,
    written w ds /\ Forall well_formed_line ds /\
    request_ids ds ns /\ StronglySorted lt ns /\ Forall (fun k => k <= message_id w) ns /\
    starts_with_initialize ds.

(** A server process nothing has been written to and nobody has stopped. *)
Definition fresh (p : Process) : Prop :=
  stdin_written p = [] /\ terminate_calls p = 0 /\ wait_calls p = 0.

(** How a session stands once [start] has been attempted: either the
    [initialize] Request is on the wire and [wire_inv] holds, or the attempt
    raised before anything was written. *)
Definition started_or_failed {A} (r : outcome A * World) : Prop :=
  wire_inv (snd r) \/ ((exists e, fst r = Raise e) /\ written (snd r) []).

(** No line of the server is there within [d] milliseconds. *)
Definition silent_for (d : N) (p : Process) : Prop :=
  match stdout_lines p with
  | [] => stdout_eof p = false
  | (delay, _) :: _ => (d < delay)%N
  end.

(** The line can be read and decoded: it stays within the limit of the
    stream reader and is well-formed UTF-8. *)
Definition readable (line : string) : Prop :=
  overruns line = false /\ is_text line = true.

(** What a request is handed when the text of [line] amounts to [r]: the
    line has to be read and decoded first. *)
Definition handed (line : string) (r : option MCPMessage)
    : outcome (option MCPMessage) :=
  if overruns line then Raise ValueError
  else if is_text line then Return r
  else Raise UnicodeDecodeError.

(** The next line of the server is there in time, can be read and decoded,
    and [json.loads] reads it as [data]. *)
Definition answers (p : Process) (data : json) : Prop :=
  exists delay line rest,
    stdout_lines p = (delay, line) :: rest /\ (delay <= READ_TIMEOUT_MS)%N /\
    line <> "" /\ strip line <> "" /\ json_loads (strip line) = Some data /\
    readable line.


(** The message as [send_request] writes it when the counter has reached [n]. *)
Definition stamped (message : MCPMessage) (n : nat) : MCPMessage :=
  if is_None (id message) then with_id message (JStr (str_of_nat n)) else message.

(** The world once [send_request] has written [message] to the process [p]. *)
Definition after_send (message : MCPMessage) (p : Process) (w : World) : World :=
  set_process
    (Some (push_stdin (wire_line (message_dict (stamped message (message_id w + 1)))) p))
    (set_message_id (message_id w + 1) w).

(** The [MCPMessage] built from the response dict [d]. *)
Definition parsed (d : list (string * json)) : MCPMessage :=
  let get k := match dict_get k d with Some x => x | None => JNull end in
  mkMCPMessage (match dict_get "jsonrpc" d with Some x => x | None => JStr "2.0" end)
    (get "id") (get "method") (get "params") (get "result") (get "error").

(** The child process has been stopped [n] times: [terminate] and [wait] have
    each been called [n] times on it. *)
Definition stopped_times (n : nat) (w : World) : Prop :=
  exists p, process w = Some p /\ terminate_calls p = n /\ wait_calls p = n.

(** The child process has seen [terminate] called [t] times and [wait]
    called [wt] times, and is gone or not. *)
Definition child_is (t wt : nat) (gone : bool) (w : World) : Prop :=
  exists p,
    process w = Some p /\ terminate_calls p = t /\ wait_calls p = wt /\
    exited p = gone.

(** The child process, if there is one, is gone. *)
Definition child_gone (w : World) : bool :=
  match process w with
  | Some p => exited p
  | None => false
  end.


(** The part of the world the protocol client never touches. *)
Definition orchestrator_state (w : World) :=
  (available_tools w, conversation_history w, tools_used_in_conversation w,
   _previous_tools w, os_spawn w, gateway w, gateway_log w, stdout w).

Definition user_turn (user_input : string) : json :=
  JObj [("role", JStr "user"); ("content", JStr user_input)].

(** The first request of a turn to the completion endpoint. *)
Definition first_request (user_input : string) (openai_tools : list json) (w : World)
    : payload :=
  mkPayload (conversation_history w ++ [user_turn user_input])
    (match openai_tools with [] => None | _ => Some openai_tools end).

(** The world once that request has been answered. *)
Definition asked (user_input : string) (openai_tools : list json) (w : World) : World :=
  set_gateway (gateway w) (gateway_log w ++ [first_request user_input openai_tools w])
    (set_conversation_history (conversation_history w ++ [user_turn user_input]) w).

(** In world [w] the endpoint answers the user's message with the assistant
    message [msg], which asks for the tool calls [calls]. *)
Definition requests_tools (user_input : string) (w : World)
    (openai_tools : list json) (msg : json) (calls : list json) : Prop :=
  convert_tools_for_openai (available_tools w) = Return openai_tools /\
  exists response tool_calls,
    gateway w (gateway_log w ++ [first_request user_input openai_tools w]) =
      Http200 response /\
    py_contains "error" response = Return false /\
    first_message response = Return msg /\
    py_get msg "tool_calls" = Return tool_calls /\
    truthy tool_calls = true /\
    py_iter tool_calls = Return calls.

(** The tool-result turn recorded for the lines [tool_results]. *)
Definition tool_results_turn (tool_results : list string) : json :=
  JObj [("role", JStr "user");
        ("content", JStr ("Tool results:" ++ newline ++ join newline tool_results)%string)].

(** The follow-up request made after the tool calls. *)
Definition follow_up_request (msg : json) (tool_results : list string) (w : World)
    : payload :=
  mkPayload (conversation_history w ++ [msg; tool_results_turn tool_results]) None.

(** In world [w] the endpoint answers the follow-up request with the message
    [final_message], whose content is [content]. *)
Definition follow_up (w : World) (msg : json) (tool_results : list string)
    (final_message content : json) : Prop :=
  exists response,
    gateway w (gateway_log w ++ [follow_up_request msg tool_results w]) = Http200 response /\
    py_contains "error" response = Return false /\
    first_message response = Return final_message /\
    py_item final_message "content" = Return content.

(** The world at the end of a turn with tool calls. *)
Definition finished (w : World) (msg : json) (tools_used : list json)
    (tool_results : list string) (final_message : json) : World :=
  set_tools_used_in_conversation (tools_used_in_conversation w ++ tools_used)
    (set_conversation_history
       (conversation_history w ++ [msg; tool_results_turn tool_results; final_message])
       (set_gateway (gateway w)
          (gateway_log w ++ [follow_up_request msg tool_results w]) w)).

(** [tool_call] names the tool [name] and carries the argument text [a]. *)
Definition names_tool (tool_call name a : json) : Prop :=
  exists f,
    py_item tool_call "function" = Return f /\
    py_item f "name" = Return name /\
    py_item f "arguments" = Return a.



(** Since world [w0] at most [k] requests went to the completion endpoint. *)
Definition gateway_calls_within (k : nat) (w0 w : World) : Prop :=
  exists extra, gateway_log w = gateway_log w0 ++ extra /\ List.length extra <= k.

(** [getattr(self, '_previous_tools', [])] *)
Definition previous_tools (w : World) : list json :=
  match _previous_tools w with
  | Some l => l
  | None => []
  end.

(** The [tools_used] lists of the responses printed so far, one after the
    other. *)
Fixpoint reported (out : list stdout_record) : list json :=
  match out with
  | [] => []
  | StdioResponse _ _ used :: out' => used ++ reported out'
  | StdioError _ _ :: out' => reported out'
  end.

(** No two members of [l] are equal in Python's sense. *)
Fixpoint py_distinct (l : list json) : bool :=
  match l with
  | [] => true
  | x :: l' => negb (py_in x l') && py_distinct l'
  end.

(** Every member of [a] is a member of [b]. *)
Definition py_incl (a b : list json) : Prop :=
  forall t, py_in t a = true -> py_in t b = true.

(** What holds of the tools-used bookkeeping between two turns. *)
Definition reports_inv (w : World) : Prop :=
  py_incl (reported (stdout w)) (previous_tools w) /\
  py_incl (previous_tools w) (tools_used_in_conversation w) /\
  py_distinct (reported (stdout w)) = true.


(** The dict [chat_completion] returns for an outcome of the POST. *)
Definition gateway_answer (o : http_outcome) : json :=
  match o with
  | Http200 body => body
  | HttpStatus status => JObj [("error", JStr ("API error: " ++ str_of_nat status)%string)]
  | HttpFailure reason => JObj [("error", JStr ("Connection failed: " ++ reason)%string)]
  end.

(** The world once the assistant message [msg] has been appended to the
    conversation of [w]. *)
Definition appended (msg : json) (w : World) : World :=
  set_conversation_history (conversation_history w ++ [msg]) w.

(** Since the conversation was [h0], the user turn for [u] and at most [k]
    further turns have been appended to it. *)
Definition history_grown (k : nat) (h0 : list json) (u : string) (w : World) : Prop :=
  exists extra,
    conversation_history w = h0 ++ user_turn u :: extra /\ List.length extra <= k.

(** [MCPMessage(method="tools/call", params={"name": ..., "arguments": ...})] *)
Definition call_request (name args : json) : MCPMessage :=
  new_message "tools/call" (JObj [("name", name); ("arguments", args)]).

(** The lines that calls of the tools [calls] (name and arguments) put on
    the wire when the counter stands at [n] before the first of them. *)
Fixpoint call_lines (n : nat) (calls : list (json * json)) : list string :=
  match calls with
  | [] => []
  | (name, args) :: rest =>
      wire_line (message_dict (stamped (call_request name args) (n + 1)))
      :: call_lines (n + 1) rest
  end.

(** [tool_call] asks for the tool [fst na] with the arguments [snd na]. *)
Definition asks_for (tool_call : json) (na : json * json) : Prop :=
  exists a, names_tool tool_call (fst na) a /\ loads a = Return (snd na).

(** The schema [schema] is what the tool bridge makes of the tool [tool]. *)
Definition bridges (tool schema : json) : Prop :=
  exists d f,
    tool = JObj d /\
    schema = JObj [("type", JStr "function"); ("function", JObj f)] /\
    dict_get "name" f = dict_get "name" d /\
    dict_get "description" f =
      Some (match dict_get "description" d with Some x => x | None => JStr "" end) /\
    dict_get "parameters" f = dict_get "inputSchema" d.





(** The world once the tool calls of a turn have been recorded in the
    conversation and the follow-up request has been made. *)
Definition followed_up (w : World) (msg : json) (tool_results : list string) : World :=
  set_gateway (gateway w) (gateway_log w ++ [follow_up_request msg tool_results w])
    (set_conversation_history
       (conversation_history w ++ [msg; tool_results_turn tool_results]) w).

(** The name a schema of the tool bridge carries: [schema["function"]["name"]]. *)
Definition schema_name (schema : json) : outcome json :=
  obind (py_item schema "function") (fun f => py_item f "name").

(** The session knows the tools [ts] and its conversation opens with the
    system message [sm]. *)
Definition opens_with (sm ts : json) (w : World) : Prop :=
  available_tools w = ts /\ exists extra, conversation_history w = sm :: extra.


(** The request [q] carries the messages of [p] and possibly more. *)
Definition extends (p q : payload) : Prop :=
  exists more, messages q = messages p ++ more.

(** What the completion endpoint has been sent so far: every request
    carries what the earlier ones carried, and the conversation still begins
    with what each of them carried. *)
Definition endpoint_inv (w : World) : Prop :=
  StronglySorted extends (gateway_log w) /\
  Forall (fun p => exists more, conversation_history w = messages p ++ more)
    (gateway_log w).

(** A tool descriptor [create_system_message] can describe: a dict with a
    [name] whose [inputSchema], when there is one, is a dict whose
    [properties], when there are any, form a dict. *)
Definition describable (tool : json) : bool :=
  match tool with
  | JObj d =>
      dict_has "name" d &&
      match dict_get "inputSchema" d with
      | None => true
      | Some (JObj s) =>
          match dict_get "properties" s with
          | None => true
          | Some ps => negb (truthy ps) || match ps with JObj _ => true | _ => false end
          end
      | Some _ => false
      end
  | _ => false
  end.

(** * Properties *)

(** ** The monad *)

Lemma bind_Return {A B} (m : M A) (f : A -> M B) w a w' :
  m w = (Return a, w') -> bind m f w = f a w'.
Proof. intros H. unfold bind. rewrite H. reflexivity. Qed.

Lemma bind_Raise {A B} (m : M A) (f : A -> M B) w e w' :
  m w = (Raise e, w') -> bind m f w = (Raise e, w').
Proof. intros H. unfold bind. rewrite H. reflexivity. Qed.

Lemma preserves_ret {A} I (a : A) : preserves I (ret a).
Proof. intros w H. exact H. Qed.

Lemma preserves_raise {A} I e : preserves I (@raise A e).
Proof. intros w H. exact H. Qed.

Lemma preserves_lift {A} I (o : outcome A) : preserves I (lift o).
Proof. intros w H. exact H. Qed.

Lemma preserves_gets {A} I (f : World -> A) : preserves I (gets f).
Proof. intros w H. exact H. Qed.

Lemma preserves_modify I (f : World -> World) :
  (forall w, I w -> I (f w)) -> preserves I (modify f).
Proof. intros Hf w H. apply Hf, H. Qed.

Lemma preserves_bind {A B} I (m : M A) (f : A -> M B) :
  preserves I m -> (forall a, preserves I (f a)) -> preserves I (bind m f).
Proof.
  intros Hm Hf w H. unfold bind.
  specialize (Hm w H). destruct (m w) as [[a | e |] w1]; simpl in *; auto.
  apply Hf, Hm.
Qed.

Lemma preserves_try_except {A} I (m : M A) h :
  preserves I m -> (forall e k, h e = Some k -> preserves I k) ->
  preserves I (try_except m h).
Proof.
  intros Hm Hh w H. unfold try_except.
  specialize (Hm w H). destruct (m w) as [[a | e |] w1]; simpl in *; auto.
  destruct (h e) as [k |] eqn:E; simpl; auto.
  eapply Hh; eauto.
Qed.

Lemma preserves_try_finally {A} I (m : M A) f :
  preserves I m -> preserves I f -> preserves I (try_finally m f).
Proof.
  intros Hm Hf w H. unfold try_finally.
  specialize (Hm w H). destruct (m w) as [[a | e |] w1]; simpl in *; auto.
  - specialize (Hf w1 Hm). destruct (f w1) as [[[] | e' |] w2]; simpl in *; auto.
  - specialize (Hf w1 Hm). destruct (f w1) as [[[] | e' |] w2]; simpl in *; auto.
Qed.

(** Takes a goal [preserves I m] apart along the structure of [m]. *)
Ltac pres_handler :=
  let e := fresh "e" in
  let k := fresh "k" in
  let Hk := fresh "Hk" in
  intros e k Hk; destruct e; simpl in Hk; try discriminate Hk;
  injection Hk as <-.

Ltac pres_step :=
  match goal with
  | |- preserves _ (bind _ _) => apply preserves_bind; [| intro]
  | |- preserves _ (ret _) => apply preserves_ret
  | |- preserves _ (raise _) => apply preserves_raise
  | |- preserves _ (lift _) => apply preserves_lift
  | |- preserves _ (gets _) => apply preserves_gets
  | |- preserves _ (try_except _ _) => apply preserves_try_except; [| pres_handler]
  | |- preserves _ (try_finally _ _) => apply preserves_try_finally
  | |- preserves _ (match ?x with _ => _ end) => destruct x
  | |- preserves _ (let _ := _ in _) => cbv zeta
  end.

Ltac pres := repeat pres_step.

(** ** The tool bridge *)

Lemma omap_length {A B} (f : A -> outcome B) l out :
  omap f l = Return out -> List.length out = List.length l.
Proof.
  revert out. induction l as [| x l IH]; simpl; intros out H.
  - injection H as <-. reflexivity.
  - destruct (f x) as [y | |]; simpl in H; try discriminate.
    destruct (omap f l) as [ys | |]; simpl in H; try discriminate.
    injection H as <-. simpl. f_equal. apply IH. reflexivity.
Qed.

Lemma omap_nth_error {A B} (f : A -> outcome B) l out i x :
  omap f l = Return out -> nth_error l i = Some x ->
  exists y, f x = Return y /\ nth_error out i = Some y.
Proof.
  revert out i. induction l as [| a l IH]; simpl; intros out i H Hi.
  - destruct i; discriminate.
  - destruct (f a) as [y | |] eqn:Ea; simpl in H; try discriminate.
    destruct (omap f l) as [ys | |]; simpl in H; try discriminate.
    injection H as <-. destruct i as [| i]; simpl in *.
    + injection Hi as <-. exists y. auto.
    + eapply IH; eauto.
Qed.

Lemma omap_total {A B} (f : A -> outcome B) (ok : A -> bool) l :
  (forall x, ok x = true -> exists y, f x = Return y) ->
  forallb ok l = true -> exists out, omap f l = Return out.
Proof.
  intros Hf. induction l as [| a l IH]; simpl; intros H.
  - eauto.
  - apply andb_prop in H as [Ha Hl].
    destruct (Hf a Ha) as [y ->]. destruct (IH Hl) as [ys ->]. simpl. eauto.
Qed.

Lemma convert_tool_without_schema d name :
  dict_get "name" d = Some name -> dict_get "inputSchema" d = None ->
  convert_tool (JObj d) =
  Return (JObj [("type", JStr "function");
                ("function",
                 JObj [("name", name);
                       ("description", match dict_get "description" d with
                                       | Some x => x
                                       | None => JStr ""
                                       end)])]).
Proof.
  intros Hn Hs. unfold convert_tool, py_item, py_get_default, py_contains, dict_has.
  rewrite Hn, Hs. reflexivity.
Qed.

Lemma convert_tool_with_schema d name schema :
  dict_get "name" d = Some name -> dict_get "inputSchema" d = Some schema ->
  convert_tool (JObj d) =
  Return (JObj [("type", JStr "function");
                ("function",
                 JObj [("name", name);
                       ("description", match dict_get "description" d with
                                       | Some x => x
                                       | None => JStr ""
                                       end);
                       ("parameters", schema)])]).
Proof.
  intros Hn Hs. unfold convert_tool, py_item, py_get_default, py_contains, dict_has.
  rewrite Hn, Hs. reflexivity.
Qed.

Lemma convert_tool_total tool :
  is_descriptor tool = true -> exists y, convert_tool tool = Return y.
Proof.
  destruct tool as [| | | | | d]; simpl; try discriminate.
  unfold dict_has. destruct (dict_get "name" d) as [name |] eqn:Hn; try discriminate.
  intros _. destruct (dict_get "inputSchema" d) as [schema |] eqn:Hs.
  - erewrite convert_tool_with_schema; eauto.
  - erewrite convert_tool_without_schema; eauto.
Qed.

(** C1, as the code has it: a tool descriptor without [inputSchema] is turned
    into a schema whose function object holds the name and the description
    (the empty string when the descriptor has none) and no [parameters] field
    at all; the output list has one schema per descriptor, in order. *)
Theorem convert_tools_without_inputSchema (ts : list json) :
  forallb is_descriptor ts = true ->
  exists out,
    convert_tools_for_openai (JArr ts) = Return out /\
    List.length out = List.length ts /\
    forall i d, nth_error ts i = Some (JObj d) -> dict_get "inputSchema" d = None ->
      exists name f,
        dict_get "name" d = Some name /\
        f = [("name", name);
             ("description", match dict_get "description" d with
                             | Some x => x
                             | None => JStr ""
                             end)] /\
        dict_get "parameters" f = None /\
        nth_error out i = Some (JObj [("type", JStr "function"); ("function", JObj f)]).
Proof.
  intros Hts. unfold convert_tools_for_openai. simpl.
  destruct (omap_total convert_tool is_descriptor ts convert_tool_total Hts) as [out Hout].
  exists out. split; [exact Hout |]. split; [eapply omap_length; eauto |].
  intros i d Hi Hs.
  destruct (omap_nth_error _ _ _ _ _ Hout Hi) as [y [Hy Hnth]].
  assert (Hd : is_descriptor (JObj d) = true).
  { rewrite forallb_forall in Hts. apply Hts. eapply nth_error_In; eauto. }
  simpl in Hd. unfold dict_has in Hd.
  destruct (dict_get "name" d) as [name |] eqn:Hn; try discriminate.
  rewrite (convert_tool_without_schema d name Hn Hs) in Hy. injection Hy as <-.
  eexists; eexists. split; [reflexivity |]. split; [reflexivity |].
  split; [reflexivity | exact Hnth].
Qed.

(** ** The wire *)

Lemma int_of_str_of_nat n : int_of_str (str_of_nat n) = Some n.
Proof.
  unfold int_of_str, str_of_nat.
  assert (H := DecimalNat.Unsigned.of_to n).
  destruct (Nat.to_uint n) eqn:E.
  1: { simpl in *. now rewrite <- H. }
  all: rewrite NilZero.usu by discriminate; simpl option_map; now rewrite H.
Qed.

Lemma message_dict_no_null m :
  Forall (fun kv => snd kv <> JNull) (message_dict m).
Proof.
  apply Forall_forall. intros kv H. unfold message_dict in H.
  apply filter_In in H as [_ H]. intros E. rewrite E in H. discriminate.
Qed.

Lemma message_dict_request m p s :
  message_dict (with_id (new_message m p) (JStr s)) =
  ("jsonrpc", JStr "2.0") :: ("id", JStr s) :: ("method", JStr m)
    :: (if is_None p then [] else [("params", p)]).
Proof. destruct p; reflexivity. Qed.

Lemma message_dict_notification m p :
  message_dict (new_message m p) =
  ("jsonrpc", JStr "2.0") :: ("method", JStr m)
    :: (if is_None p then [] else [("params", p)]).
Proof. destruct p; reflexivity. Qed.

Lemma well_formed_request m p s :
  well_formed_line (message_dict (with_id (new_message m p) (JStr s))).
Proof.
  unfold well_formed_line. split; [| split; [| split; [| split]]].
  5: apply message_dict_no_null.
  all: rewrite message_dict_request; destruct p; simpl; eauto.
Qed.

Lemma well_formed_notification m p :
  well_formed_line (message_dict (new_message m p)).
Proof.
  unfold well_formed_line. split; [| split; [| split; [| split]]].
  5: apply message_dict_no_null.
  all: rewrite message_dict_notification; destruct p; simpl; eauto.
Qed.

Lemma request_has_id m p s :
  is_request (message_dict (with_id (new_message m p) (JStr s))) = true /\
  id_number (message_dict (with_id (new_message m p) (JStr s))) = int_of_str s.
Proof. rewrite message_dict_request. split; reflexivity. Qed.

Lemma notification_has_no_id m p :
  is_request (message_dict (new_message m p)) = false.
Proof. rewrite message_dict_notification. destruct p; reflexivity. Qed.

Lemma wire_inv_frame w w' :
  option_map stdin_written (process w') = option_map stdin_written (process w) ->
  message_id w' = message_id w ->
  wire_inv w -> wire_inv w'.
Proof.
  intros Hp Hm (ds & ns & Hw & H). exists ds, ns. rewrite Hm. split; [| exact H].
  unfold written in *.
  destruct (process w) as [p |], (process w') as [p' |]; simpl in Hp;
    try discriminate; auto.
  injection Hp as Hp. rewrite Hp. exact Hw.
Qed.

Ltac frame_modify L :=
  apply preserves_modify; intros ? ?; eapply L; [.. | eassumption]; reflexivity.

Lemma StronglySorted_snoc (ns : list nat) n :
  StronglySorted lt ns -> Forall (fun k => k < n) ns -> StronglySorted lt (ns ++ [n]).
Proof.
  induction 1 as [| a l Hl IH Ha]; intros Hn; simpl.
  - repeat constructor.
  - inversion Hn; subst. constructor; [apply IH; assumption |].
    apply Forall_app. split; [assumption | constructor; [assumption | constructor]].
Qed.

Lemma request_ids_snoc_request ds ns d n :
  request_ids ds ns -> is_request d = true -> id_number d = Some n ->
  request_ids (ds ++ [d]) (ns ++ [n]).
Proof.
  unfold request_ids. intros H Hd Hn.
  rewrite filter_app, !map_app, H. simpl. rewrite Hd. simpl. rewrite Hn. reflexivity.
Qed.

Lemma request_ids_snoc_other ds ns d :
  request_ids ds ns -> is_request d = false -> request_ids (ds ++ [d]) ns.
Proof.
  unfold request_ids. intros H Hd.
  rewrite filter_app, map_app, H. simpl. rewrite Hd. simpl. apply app_nil_r.
Qed.

(** Writing one more Request whose id is the new value of the counter. *)
Lemma wire_inv_write_request w p0 m pa :
  process w = Some p0 ->
  wire_inv w ->
  wire_inv
    (set_process
       (Some (push_stdin
                (wire_line (message_dict
                              (with_id (new_message m pa)
                                 (JStr (str_of_nat (message_id w + 1)))))) p0))
       (set_message_id (message_id w + 1) w)).
Proof.
  intros Hp (ds & ns & Hw & Hwf & Hids & Hs & Hle & rest & ->).
  unfold written in Hw. rewrite Hp in Hw.
  destruct (request_has_id m pa (str_of_nat (message_id w + 1))) as [Hreq Hid].
  rewrite int_of_str_of_nat in Hid.
  eexists (_ ++ [_]), (ns ++ [message_id w + 1]).
  split; [| split; [| split; [| split; [| split]]]].
  - unfold written. simpl. rewrite Hw, map_app. reflexivity.
  - apply Forall_app. split; [exact Hwf |].
    constructor; [apply well_formed_request | constructor].
  - apply request_ids_snoc_request; assumption.
  - apply StronglySorted_snoc; [exact Hs |].
    eapply Forall_impl; [| exact Hle]. simpl. intros; lia.
  - simpl. apply Forall_app. split.
    + eapply Forall_impl; [| exact Hle]. simpl. intros; lia.
    + constructor; [lia | constructor].
  - eexists. simpl. reflexivity.
Qed.

Lemma wire_inv_write_notification w p0 m pa :
  process w = Some p0 ->
  wire_inv w ->
  wire_inv
    (set_process
       (Some (push_stdin (wire_line (message_dict (new_message m pa))) p0)) w).
Proof.
  intros Hp (ds & ns & Hw & Hwf & Hids & Hs & Hle & rest & ->).
  unfold written in Hw. rewrite Hp in Hw.
  eexists (_ ++ [_]), ns.
  split; [| split; [| split; [| split; [| split]]]].
  - unfold written. simpl. rewrite Hw, map_app. reflexivity.
  - apply Forall_app. split; [exact Hwf |].
    constructor; [apply well_formed_notification | constructor].
  - apply request_ids_snoc_other; [assumption | apply notification_has_no_id].
  - exact Hs.
  - exact Hle.
  - eexists. simpl. reflexivity.
Qed.

Lemma readline_within_wire t : preserves wire_inv (readline_within t).
Proof.
  intros w H. unfold readline_within.
  destruct (process w) as [p |] eqn:Hp; [| exact H].
  destruct (stdout_lines p) as [| [d l] r].
  - destruct (stdout_eof p); exact H.
  - destruct (d <=? t)%N; simpl; (eapply wire_inv_frame; [| | exact H]);
      simpl; rewrite ?Hp; reflexivity.
Qed.

Lemma read_response_wire : preserves wire_inv read_response.
Proof.
  unfold read_response. pres; try apply readline_within_wire.
Qed.

Lemma send_request_wire m pa :
  preserves wire_inv (send_request (new_message m pa)).
Proof.
  intros w H. unfold send_request.
  destruct (process w) as [p0 |] eqn:Hp.
  2: { unfold bind, gets. rewrite Hp. exact H. }
  unfold bind at 1. unfold gets at 1. rewrite Hp.
  unfold bind at 1. unfold modify at 1.
  unfold bind at 1. unfold gets at 1.
  unfold bind, stdin_write.
  change (process (set_message_id (message_id w + 1) w)) with (process w).
  change (message_id (set_message_id (message_id w + 1) w)) with (message_id w + 1).
  rewrite Hp. simpl is_None. cbv iota.
  destruct (stdin_budget p0) as [[| b] |] eqn:Hb.
  - simpl. destruct H as (ds & ns & Hw & Hwf & Hids & Hs & Hle & Hi).
    exists ds, ns. split; [exact Hw |]. repeat (split; [assumption |]).
    split; [| exact Hi].
    eapply Forall_impl; [| exact Hle]. simpl. intros; lia.
  - apply read_response_wire, wire_inv_write_request; assumption.
  - apply read_response_wire, wire_inv_write_request; assumption.
Qed.

(** ** Invariants that the protocol client keeps *)

Section Client.

Variable I : World -> Prop.
Hypothesis I_message_id : forall n w, I w -> I (set_message_id n w).
Hypothesis I_push_stdin : forall data w p,
  process w = Some p -> I w -> I (set_process (Some (push_stdin data p)) w).
Hypothesis I_set_stdout_lines : forall l w p,
  process w = Some p -> I w -> I (set_process (Some (set_stdout_lines l p)) w).

Lemma stdin_write_preserves data : preserves I (stdin_write data).
Proof.
  intros w H. unfold stdin_write.
  destruct (process w) as [p |] eqn:Hp; [| exact H].
  destruct (stdin_budget p) as [[| b] |]; simpl; auto.
Qed.

Lemma readline_within_preserves t : preserves I (readline_within t).
Proof.
  intros w H. unfold readline_within.
  destruct (process w) as [p |] eqn:Hp; [| exact H].
  destruct (stdout_lines p) as [| [d l] r].
  - destruct (stdout_eof p); exact H.
  - destruct (d <=? t)%N; simpl; auto.
Qed.

Lemma read_response_preserves : preserves I read_response.
Proof. unfold read_response. pres; apply readline_within_preserves. Qed.

Lemma send_request_preserves message : preserves I (send_request message).
Proof.
  unfold send_request. pres;
    auto using stdin_write_preserves, read_response_preserves, preserves_modify.
Qed.

Lemma send_notification_preserves message : preserves I (send_notification message).
Proof. unfold send_notification. pres; auto using stdin_write_preserves. Qed.

Lemma call_tool_preserves name arguments : preserves I (call_tool name arguments).
Proof. unfold call_tool. pres; auto using send_request_preserves. Qed.

Lemma list_tools_preserves : preserves I list_tools.
Proof. unfold list_tools. pres; auto using send_request_preserves. Qed.

Lemma initialize_preserves : preserves I initialize.
Proof.
  unfold initialize. pres;
    auto using send_request_preserves, send_notification_preserves.
Qed.

End Client.

(** ** Invariants carried through the orchestrator and the run loops *)

Section Orchestrator.

Variable I : World -> Prop.
Hypothesis I_call_tool : forall name arguments, preserves I (call_tool name arguments).
Hypothesis I_append_history : forall m, preserves I (append_history m).
Hypothesis I_chat_completion : forall h t, preserves I (chat_completion h t).
Hypothesis I_tools_used : forall more,
  preserves I (modify (fun w => set_tools_used_in_conversation
                                  (tools_used_in_conversation w ++ more) w)).

Lemma for_tool_calls_preserves calls used results :
  preserves I (for_tool_calls calls used results).
Proof.
  revert used results. induction calls as [| c calls IH]; intros used results; simpl.
  - apply preserves_ret.
  - pres; auto.
Qed.

Lemma tool_round_preserves assistant_message :
  preserves I (tool_round assistant_message).
Proof.
  unfold tool_round. pres; auto using for_tool_calls_preserves.
Qed.

Lemma process_message_preserves user_input :
  preserves I (process_message user_input).
Proof.
  unfold process_message. pres; auto using tool_round_preserves.
Qed.

End Orchestrator.

Section Loops.

Variable I : World -> Prop.
Hypothesis I_process_message : forall u, preserves I (process_message u).
Hypothesis I_stdio_turn : forall u, preserves I (stdio_turn u).
Hypothesis I_stdio_turn_failed : forall e, preserves I (stdio_turn_failed e).

Lemma stdio_loop_preserves inputs : preserves I (stdio_loop inputs).
Proof.
  induction inputs as [| ev inputs IH]; simpl.
  - apply preserves_ret.
  - destruct ev as [line |]; [| apply preserves_raise].
    destruct (String.eqb line ""); [apply preserves_ret |].
    destruct (String.eqb (strip line) ""); [exact IH |].
    apply preserves_bind; [| intros _; exact IH].
    apply preserves_try_except; [apply I_stdio_turn |].
    intros e k Hk. destruct (is_Exception e); [| discriminate].
    injection Hk as <-. apply I_stdio_turn_failed.
Qed.

Lemma interactive_loop_preserves inputs : preserves I (interactive_loop inputs).
Proof.
  induction inputs as [| ev inputs IH]; simpl.
  - intros w H. exact H.
  - destruct ev as [line |]; [| apply preserves_ret].
    destruct (is_quit (lower (strip line))); [apply preserves_ret |].
    destruct (String.eqb (strip line) ""); [exact IH |].
    apply preserves_bind.
    + apply preserves_try_except.
      * apply preserves_bind; [apply I_process_message | intros; apply preserves_ret].
      * intros e k Hk. destruct e; simpl in Hk; try discriminate;
          injection Hk as <-; apply preserves_ret.
    + intros [|]; [exact IH | apply preserves_ret].
Qed.

Hypothesis I_stop : preserves I stop.

Lemma run_stdio_preserves inputs : preserves I (run_stdio inputs).
Proof.
  unfold run_stdio. pres; auto using stdio_loop_preserves.
Qed.

Lemma run_interactive_preserves inputs : preserves I (run_interactive inputs).
Proof.
  unfold run_interactive. pres; auto using interactive_loop_preserves.
Qed.

End Loops.

Lemma call_tool_wire name arguments : preserves wire_inv (call_tool name arguments).
Proof. unfold call_tool. pres. apply send_request_wire. Qed.

Lemma list_tools_wire : preserves wire_inv list_tools.
Proof. unfold list_tools. pres. apply send_request_wire. Qed.

Lemma append_history_wire m : preserves wire_inv (append_history m).
Proof. unfold append_history. frame_modify wire_inv_frame. Qed.

Lemma chat_completion_wire h t : preserves wire_inv (chat_completion h t).
Proof. unfold chat_completion. pres; frame_modify wire_inv_frame. Qed.

Lemma tools_used_wire more :
  preserves wire_inv
    (modify (fun w => set_tools_used_in_conversation
                        (tools_used_in_conversation w ++ more) w)).
Proof. frame_modify wire_inv_frame. Qed.

Lemma print_wire r : preserves wire_inv (print r).
Proof. unfold print. frame_modify wire_inv_frame. Qed.

Lemma stop_wire : preserves wire_inv stop.
Proof.
  intros w H. unfold stop, client_stop, bind, gets, modify, ret, raise.
  destruct (process w) as [p |] eqn:Hp; simpl; [| exact H].
  destruct (exited p); simpl;
    (eapply wire_inv_frame; [| | exact H]; simpl; rewrite ?Hp; reflexivity).
Qed.

Lemma process_message_wire u : preserves wire_inv (process_message u).
Proof.
  apply process_message_preserves;
    auto using call_tool_wire, append_history_wire, chat_completion_wire, tools_used_wire.
Qed.

Lemma stdio_turn_wire u : preserves wire_inv (stdio_turn u).
Proof.
  unfold stdio_turn. pres; auto using process_message_wire, print_wire.
  frame_modify wire_inv_frame.
Qed.

Lemma stdio_turn_failed_wire e : preserves wire_inv (stdio_turn_failed e).
Proof. unfold stdio_turn_failed. pres; auto using print_wire. Qed.

Lemma run_stdio_wire inputs : preserves wire_inv (run_stdio inputs).
Proof.
  apply run_stdio_preserves;
    auto using stdio_turn_wire, stdio_turn_failed_wire, stop_wire.
Qed.

Lemma run_interactive_wire inputs : preserves wire_inv (run_interactive inputs).
Proof.
  apply run_interactive_preserves; auto using process_message_wire, stop_wire.
Qed.

Lemma send_notification_wire m pa :
  preserves wire_inv (send_notification (new_message m pa)).
Proof.
  intros w H. unfold send_notification, bind, gets, raise, stdin_write.
  destruct (process w) as [p0 |] eqn:Hp; [| exact H].
  rewrite Hp. pose proof (wire_inv_write_notification w p0 m pa Hp H) as H'.
  destruct (stdin_budget p0) as [[| b] |]; simpl; auto.
Qed.

Lemma started_or_failed_bind {A B} (m : M A) (f : A -> M B) w :
  started_or_failed (m w) -> (forall a, preserves wire_inv (f a)) ->
  started_or_failed (bind m f w).
Proof.
  intros H Hf. unfold started_or_failed, bind in *.
  destruct (m w) as [[a | e |] w1]; simpl in *.
  - destruct H as [H | [[e He] _]]; [| discriminate]. left. apply Hf, H.
  - destruct H as [H | [_ H]]; eauto.
  - destruct H as [H | [[e He] _]]; [auto | discriminate].
Qed.

Lemma send_init_request_wire w p :
  process w = Some p -> stdin_written p = [] -> message_id w = 0 ->
  started_or_failed (send_request (init_request 0) w).
Proof.
  intros Hp Hw Hm. unfold send_request.
  unfold bind at 1. unfold gets at 1. rewrite Hp.
  unfold bind at 1. unfold modify at 1.
  unfold bind at 1. unfold gets at 1.
  unfold bind, stdin_write.
  change (process (set_message_id (message_id w + 1) w)) with (process w).
  rewrite Hp. simpl is_None. cbv iota.
  assert (Hinv :
    wire_inv (set_process
                (Some (push_stdin (wire_line (message_dict (init_request 0))) p))
                (set_message_id (message_id w + 1) w))).
  { exists [message_dict (init_request 0)], [0].
    split; [| split; [| split; [| split; [| split]]]].
    - unfold written. simpl. rewrite Hw. reflexivity.
    - constructor; [apply well_formed_request | constructor].
    - reflexivity.
    - repeat constructor.
    - simpl. rewrite Hm. repeat constructor.
    - exists []. reflexivity. }
  destruct (stdin_budget p) as [[| b] |] eqn:Hb.
  - right. simpl. split; [eauto |]. unfold written. simpl. rewrite Hp. exact Hw.
  - left. apply read_response_wire, Hinv.
  - left. apply read_response_wire, Hinv.
Qed.

Lemma client_start_wire w :
  process w = None -> message_id w = 0 ->
  (forall p, os_spawn w = Some p -> stdin_written p = []) ->
  started_or_failed (client_start w).
Proof.
  intros Hp Hm Hs. unfold client_start.
  unfold bind at 1. unfold gets at 1.
  destruct (os_spawn w) as [p |] eqn:Hsp.
  2: { right. simpl. split; [eauto |]. unfold written. rewrite Hp. reflexivity. }
  unfold bind at 1. unfold modify at 1. unfold initialize.
  unfold bind at 1. unfold gets at 1.
  change (message_id (set_process (Some p) w)) with (message_id w). rewrite Hm.
  apply started_or_failed_bind.
  - eapply send_init_request_wire; simpl; eauto.
  - intros r. pres; try apply send_notification_wire.
Qed.

Lemma start_wire w :
  process w = None -> message_id w = 0 ->
  (forall p, os_spawn w = Some p -> stdin_written p = []) ->
  started_or_failed (start w).
Proof.
  intros Hp Hm Hs. unfold start.
  apply started_or_failed_bind; [apply client_start_wire; assumption |].
  intros _. pres; try apply list_tools_wire; frame_modify wire_inv_frame.
Qed.

Lemma main_wire mode inputs w :
  process w = None -> message_id w = 0 ->
  (forall p, os_spawn w = Some p -> stdin_written p = []) ->
  wire_inv (snd (main mode inputs w)) \/ written (snd (main mode inputs w)) [].
Proof.
  intros Hp Hm Hs. unfold main.
  assert (H : started_or_failed
                ((start ;;;
                  match mode with
                  | interactive => run_interactive inputs
                  | stdio => run_stdio inputs
                  end) w)).
  { apply started_or_failed_bind; [apply start_wire; assumption |].
    intros _. destruct mode; [apply run_interactive_wire | apply run_stdio_wire]. }
  unfold try_except.
  destruct ((start ;;; _) w) as [[a | e |] w1]; simpl in *.
  - destruct H as [H | [_ H]]; auto.
  - assert (H' : wire_inv w1 \/ written w1 []) by (destruct H as [H | [_ H]]; auto).
    destruct e; simpl; exact H'.
  - destruct H as [H | [_ H]]; auto.
Qed.

Lemma new_session_wire mode inputs spawn g :
  (forall p, spawn = Some p -> stdin_written p = []) ->
  wire_inv (snd (main mode inputs (new_session spawn g))) \/
  written (snd (main mode inputs (new_session spawn g))) [].
Proof. intros H. apply main_wire; auto. Qed.


(** C9: every line a session writes to the server is the dump of a dict with
    [jsonrpc] equal to "2.0" and a [method] that is a string, without
    [result] and without [error], and no field of it is null; in general the
    dict serialized for a message has exactly the fields of the message that
    are not [None]. *)
Theorem requests_omit_absent_fields mode inputs spawn g :
  (forall p, spawn = Some p -> stdin_written p = []) ->
  (exists ds,
     written (snd (main mode inputs (new_session spawn g))) ds /\
     Forall well_formed_line ds) /\
  (forall m k v,
     In (k, v) (message_dict m) <-> In (k, v) (message_items m) /\ v <> JNull).
Proof.
  intros H. split.
  - destruct (new_session_wire mode inputs spawn g H) as [Hi | Hw].
    + destruct Hi as (ds & ns & Hw & Hwf & _). eauto.
    + exists []. split; [exact Hw | constructor].
  - intros m k v. unfold message_dict. rewrite filter_In. simpl snd.
    destruct v; simpl; intuition (discriminate || congruence).
Qed.

(** ** The protocol client, step by step *)

Lemma send_request_eq message w p :
  process w = Some p -> stdin_budget p <> Some 0 ->
  send_request message w = read_response (after_send message p w).
Proof.
  intros Hp Hb. unfold send_request.
  unfold bind at 1. unfold gets at 1. rewrite Hp.
  unfold bind at 1. unfold modify at 1.
  unfold bind at 1. unfold gets at 1.
  unfold bind, stdin_write.
  change (process (set_message_id (message_id w + 1) w)) with (process w).
  rewrite Hp. destruct (stdin_budget p) as [[| b] |]; [congruence | reflexivity ..].
Qed.

Lemma send_request_broken_pipe message w p :
  process w = Some p -> stdin_budget p = Some 0 ->
  send_request message w = (Raise BrokenPipeError, set_message_id (message_id w + 1) w).
Proof.
  intros Hp Hb. unfold send_request.
  unfold bind at 1. unfold gets at 1. rewrite Hp.
  unfold bind at 1. unfold modify at 1.
  unfold bind at 1. unfold gets at 1.
  unfold bind, stdin_write.
  change (process (set_message_id (message_id w + 1) w)) with (process w).
  rewrite Hp, Hb. reflexivity.
Qed.

Lemma read_response_timeout w p :
  process w = Some p -> silent_for READ_TIMEOUT_MS p ->
  exists p',
    read_response w = (Return None, set_process (Some p') w) /\
    stdin_written p' = stdin_written p /\ stdin_budget p' = stdin_budget p /\
    terminate_calls p' = terminate_calls p /\ wait_calls p' = wait_calls p.
Proof.
  intros Hp Hs. unfold read_response, try_except, bind, readline_within.
  rewrite Hp. unfold silent_for in Hs.
  destruct (stdout_lines p) as [| [delay line] rest] eqn:Hl.
  - rewrite Hs. exists p. split; [| auto].
    destruct w; simpl in *. rewrite Hp. reflexivity.
  - apply N.leb_gt in Hs. rewrite Hs. eexists. split; [reflexivity |]. auto.
Qed.

Lemma read_response_answer w p delay line rest d :
  process w = Some p -> stdout_lines p = (delay, line) :: rest ->
  (delay <= READ_TIMEOUT_MS)%N -> line <> "" -> strip line <> "" ->
  json_loads (strip line) = Some (JObj d) -> readable line ->
  read_response w =
  (Return (Some (parsed d)), set_process (Some (set_stdout_lines rest p)) w).
Proof.
  intros Hp Hl Hd Hn Hs Hj [Ho Ht].
  unfold read_response, try_except, bind, readline_within, lift, decode.
  rewrite Hp, Hl. apply N.leb_le in Hd. rewrite Hd, Ho.
  apply String.eqb_neq in Hn, Hs. rewrite Hn. simpl. rewrite Ht, Hs. simpl.
  rewrite Hj. reflexivity.
Qed.


Lemma send_request_silent w p message :
  process w = Some p -> stdin_budget p <> Some 0 -> silent_for READ_TIMEOUT_MS p ->
  exists p',
    send_request message w = (Return None, set_process (Some p') (after_send message p w)) /\
    stdin_written p' =
      stdin_written p ++ [wire_line (message_dict (stamped message (message_id w + 1)))] /\
    terminate_calls p' = terminate_calls p /\ wait_calls p' = wait_calls p.
Proof.
  intros Hp Hb Hs. rewrite (send_request_eq message w p Hp Hb).
  destruct (read_response_timeout (after_send message p w) _ eq_refl Hs)
    as (p' & Hr & Hw & _ & Ht & Hwt).
  exists p'. split; [exact Hr |]. split; [exact Hw |]. split; assumption.
Qed.




Lemma initialize_eq w :
  initialize w =
  bind (send_request (init_request (message_id w)))
    (fun response =>
       match response with
       | Some r =>
           if negb (truthy (error r)) then
             try_except
               (send_notification (new_message "notifications/initialized" (JObj [])))
               (fun e => if is_Exception e then Some (ret tt) else None)
           else
             raise (Exception ("Failed to initialize MCP server: " ++ py_str (error r))%string)
       | None => raise (Exception "Failed to initialize MCP server: No response")
       end) w.
Proof. reflexivity. Qed.

Lemma initialized_notification_never_raises w :
  exists w',
    try_except (send_notification (new_message "notifications/initialized" (JObj [])))
      (fun e => if is_Exception e then Some (ret tt) else None) w = (Return tt, w').
Proof.
  unfold try_except, send_notification, bind, gets, raise, stdin_write, ret.
  destruct (process w) as [p |] eqn:Hp.
  - rewrite Hp. destruct (stdin_budget p) as [[| b] |]; simpl; eauto.
  - simpl. eauto.
Qed.

Lemma initialize_no_response w w1 :
  send_request (init_request (message_id w)) w = (Return None, w1) ->
  initialize w = (Raise (Exception "Failed to initialize MCP server: No response"), w1).
Proof.
  intros H. rewrite initialize_eq. rewrite (bind_Return _ _ _ _ _ H). reflexivity.
Qed.

Lemma send_init_answered w p d :
  process w = Some p -> stdin_budget p <> Some 0 -> answers p (JObj d) ->
  exists w1, send_request (init_request (message_id w)) w = (Return (Some (parsed d)), w1).
Proof.
  intros Hp Hb (delay & line & rest & Hl & Hd & Hn & Hs & Hj & Hrd).
  pose proof (read_response_answer (after_send (init_request (message_id w)) p w)
                _ delay line rest d eq_refl Hl Hd Hn Hs Hj Hrd) as Hr.
  rewrite <- (send_request_eq _ w p Hp Hb) in Hr. eauto.
Qed.

Lemma initialize_refused w p d e :
  process w = Some p -> stdin_budget p <> Some 0 ->
  answers p (JObj d) -> dict_get "error" d = Some e -> truthy e = true ->
  exists w1,
    initialize w =
    (Raise (Exception ("Failed to initialize MCP server: " ++ py_str e)%string), w1).
Proof.
  intros Hp Hb Ha He Ht. destruct (send_init_answered w p d Hp Hb Ha) as [w1 Hr].
  rewrite initialize_eq, (bind_Return _ _ _ _ _ Hr).
  cbv beta iota. replace (error (parsed d))
    with (match dict_get "error" d with Some e => e | None => JNull end) by reflexivity.
  rewrite He, Ht. cbn [negb]. eexists. reflexivity.
Qed.

(** C4: [initialize] raises when no Response arrives and when the Response
    carries a populated [error]; when the Response carries no populated
    [error] it returns normally, also when the write of the [initialized]
    Notification raises (here: the pipe closes right after the Request). *)
Theorem initialize_outcome w p :
  process w = Some p -> stdin_budget p <> Some 0 ->
  (forall w1,
     send_request (init_request (message_id w)) w = (Return None, w1) ->
     initialize w = (Raise (Exception "Failed to initialize MCP server: No response"), w1)) /\
  (silent_for 10000 p ->
     exists w1, send_request (init_request (message_id w)) w = (Return None, w1)) /\
  (forall d e,
     answers p (JObj d) -> dict_get "error" d = Some e -> truthy e = true ->
     exists w1,
       initialize w =
       (Raise (Exception ("Failed to initialize MCP server: " ++ py_str e)%string), w1)) /\
  (forall d,
     answers p (JObj d) ->
     truthy (match dict_get "error" d with Some e => e | None => JNull end) = false ->
     exists w1 w',
       send_request (init_request (message_id w)) w = (Return (Some (parsed d)), w1) /\
       initialize w = (Return tt, w') /\
       (stdin_budget p = Some 1 ->
        send_notification (new_message "notifications/initialized" (JObj [])) w1 =
          (Raise BrokenPipeError, w1) /\ w' = w1)).
Proof.
  intros Hp Hb. split; [| split; [| split]].
  - apply initialize_no_response.
  - intros Hs.
    destruct (send_request_silent w p (init_request (message_id w)) Hp Hb Hs)
      as (p' & H & _). eauto.
  - intros d e. apply initialize_refused; assumption.
  - intros d (delay & line & rest & Hl & Hd & Hn & Hs & Hj & Hrd) Ht.
    pose proof (read_response_answer (after_send (init_request (message_id w)) p w)
                  _ delay line rest d eq_refl Hl Hd Hn Hs Hj Hrd) as Hr.
    rewrite <- (send_request_eq _ w p Hp Hb) in Hr.
    rewrite initialize_eq, (bind_Return _ _ _ _ _ Hr).
    cbv beta iota. replace (error (parsed d))
      with (match dict_get "error" d with Some e => e | None => JNull end) by reflexivity.
    rewrite Ht. cbn [negb].
    match goal with
    | |- context [try_except _ _ ?w1] =>
        destruct (initialized_notification_never_raises w1) as [w' Hw']
    end.
    eexists; exists w'. split; [exact Hr |]. split; [exact Hw' |].
    intros H1. unfold try_except, send_notification, bind, gets, stdin_write in *.
    simpl in *. rewrite H1 in *. simpl in *. split; [reflexivity |].
    injection Hw' as <-. reflexivity.
Qed.

(** ** The orchestrator, step by step *)

Lemma chat_completion_200 h t w body :
  gateway w (gateway_log w ++
             [mkPayload h (match t with Some [] | None => None | Some l => Some l end)])
    = Http200 body ->
  chat_completion h t w =
  (Return body,
   set_gateway (gateway w)
     (gateway_log w ++
      [mkPayload h (match t with Some [] | None => None | Some l => Some l end)]) w).
Proof.
  intros H. unfold chat_completion.
  unfold bind at 1. unfold gets at 1.
  unfold bind at 1. unfold gets at 1.
  unfold bind at 1. unfold modify at 1.
  rewrite H. reflexivity.
Qed.

Lemma process_message_asks u w otools msg calls :
  requests_tools u w otools msg calls ->
  process_message u w = tool_round msg (asked u otools w).
Proof.
  intros (Hc & resp & tc & Hg & He & Hm & Ht & Htr & _).
  unfold process_message.
  unfold bind at 1. unfold append_history at 1. unfold modify at 1.
  unfold bind at 1. unfold gets at 1.
  cbn [available_tools set_conversation_history].
  unfold bind at 1. unfold lift at 1. rewrite Hc.
  unfold bind at 1. unfold gets at 1.
  cbn [conversation_history set_conversation_history].
  erewrite bind_Return.
  2: { apply chat_completion_200. cbn [gateway gateway_log set_conversation_history].
       replace (match match otools with [] => None | _ :: _ => Some otools end with
                | Some [] | None => None
                | Some l => Some l
                end)
         with (match otools with [] => None | _ :: _ => Some otools end)
         by (destruct otools; reflexivity).
       exact Hg. }
  unfold bind at 1. unfold lift at 1. rewrite He.
  unfold bind at 1. unfold lift at 1. rewrite Hm.
  unfold bind at 1. unfold lift at 1. rewrite Ht. rewrite Htr.
  f_equal. unfold asked, first_request, user_turn.
  cbn [gateway gateway_log set_conversation_history].
  destruct otools; reflexivity.
Qed.

Lemma tool_calls_item msg tc :
  py_get msg "tool_calls" = Return tc -> truthy tc = true ->
  py_item msg "tool_calls" = Return tc.
Proof.
  destruct msg as [| | | | | d]; simpl; try discriminate.
  destruct (dict_get "tool_calls" d) as [x |]; intros E H.
  - exact E.
  - injection E as <-. discriminate.
Qed.

Lemma tool_round_finishes msg tc calls w used results w2 fm c :
  py_get msg "tool_calls" = Return tc -> truthy tc = true ->
  py_iter tc = Return calls ->
  for_tool_calls calls [] [] w = (Return (used, results), w2) ->
  follow_up w2 msg results fm c ->
  tool_round msg w = (Return c, finished w2 msg used results fm).
Proof.
  intros Ht Htr Hi Hf (resp & Hg & He & Hm & Hc).
  unfold tool_round.
  unfold bind at 1. unfold lift at 1. rewrite (tool_calls_item _ _ Ht Htr).
  unfold bind at 1. unfold lift at 1. rewrite Hi.
  rewrite (bind_Return _ _ _ _ _ Hf). cbn [fst snd].
  unfold bind at 1. unfold append_history at 1. unfold modify at 1.
  unfold bind at 1. unfold append_history at 1. unfold modify at 1.
  unfold bind at 1. unfold gets at 1.
  cbn [conversation_history set_conversation_history].
  erewrite bind_Return.
  2: { apply chat_completion_200. cbn [gateway gateway_log set_conversation_history].
       rewrite <- app_assoc. exact Hg. }
  unfold bind at 1. unfold lift at 1. rewrite He.
  unfold bind at 1. unfold lift at 1. rewrite Hm.
  unfold bind at 1. unfold append_history at 1. unfold modify at 1.
  unfold bind at 1. unfold modify at 1.
  unfold lift. rewrite Hc. f_equal.
  unfold finished, follow_up_request.
  cbn [gateway gateway_log conversation_history tools_used_in_conversation
         set_conversation_history set_gateway set_tools_used_in_conversation].
  rewrite <- !app_assoc. reflexivity.
Qed.


Lemma for_tool_calls_unparsable tool_call rest name s used results w :
  names_tool tool_call name (JStr s) -> json_loads s = None ->
  for_tool_calls (tool_call :: rest) used results w = (Raise JSONDecodeError, w).
Proof.
  intros (f & Hf & Hn & Ha) Hl. cbn [for_tool_calls].
  unfold bind at 1. unfold lift at 1. rewrite Hf.
  unfold bind at 1. unfold lift at 1. rewrite Hn.
  unfold bind at 1. unfold lift at 1. rewrite Ha.
  unfold bind at 1. unfold lift at 1. unfold loads. rewrite Hl. reflexivity.
Qed.

Lemma for_tool_calls_app pre post used results w used1 results1 w1 :
  for_tool_calls pre used results w = (Return (used1, results1), w1) ->
  for_tool_calls (pre ++ post) used results w = for_tool_calls post used1 results1 w1.
Proof.
  revert used results w. induction pre as [| c pre IH]; intros used results w H.
  - simpl in H. injection H as <- <- <-. reflexivity.
  - change ((c :: pre) ++ post) with (c :: (pre ++ post)).
    cbn [for_tool_calls] in *. unfold bind in *.
    destruct (lift (py_item c "function") w) as [[f | e |] wa]; try discriminate.
    destruct (lift (py_item f "name") wa) as [[n | e |] wb]; try discriminate.
    destruct (lift (py_item f "arguments") wb) as [[a | e |] wc]; try discriminate.
    destruct (lift (loads a) wc) as [[args | e |] wd]; try discriminate.
    destruct (call_tool n args wd) as [[r | e |] we]; try discriminate.
    apply IH. exact H.
Qed.


(** The client leaves the orchestrator's state alone. *)
Lemma call_tool_orchestrator name args w :
  orchestrator_state (snd (call_tool name args w)) = orchestrator_state w.
Proof.
  apply (call_tool_preserves (fun w' => orchestrator_state w' = orchestrator_state w));
    auto.
Qed.

Lemma for_tool_calls_orchestrator calls used results w :
  orchestrator_state (snd (for_tool_calls calls used results w)) = orchestrator_state w.
Proof.
  apply (for_tool_calls_preserves (fun w' => orchestrator_state w' = orchestrator_state w));
    [| reflexivity].
  intros name args w' H. rewrite call_tool_orchestrator. exact H.
Qed.

(** Nothing but [stop] terminates the child process. *)
Lemma stopped_times_frame n w w' :
  option_map terminate_calls (process w') = option_map terminate_calls (process w) ->
  option_map wait_calls (process w') = option_map wait_calls (process w) ->
  stopped_times n w -> stopped_times n w'.
Proof.
  intros Ht Hw (p & Hp & H1 & H2). rewrite Hp in Ht, Hw. simpl in *.
  destruct (process w') as [p' |] eqn:Hp'; simpl in *; [| discriminate].
  exists p'. split; [exact Hp' |]. split; congruence.
Qed.


Lemma child_is_stopped n gone w : child_is n n gone w -> stopped_times n w.
Proof. intros (p & Hp & H1 & H2 & _). exists p. auto. Qed.


Lemma call_tool_running n name args : preserves (stopped_times n) (call_tool name args).
Proof.
  apply call_tool_preserves.
  - intros k w H. eapply stopped_times_frame; [| | exact H]; reflexivity.
  - intros d w p Hp H. eapply stopped_times_frame; [| | exact H];
      simpl; rewrite Hp; reflexivity.
  - intros l w p Hp H. eapply stopped_times_frame; [| | exact H];
      simpl; rewrite Hp; reflexivity.
Qed.

Lemma for_tool_calls_running n calls used results :
  preserves (stopped_times n) (for_tool_calls calls used results).
Proof. apply for_tool_calls_preserves, call_tool_running. Qed.


Lemma for_tool_calls_frame calls used results w o w' :
  for_tool_calls calls used results w = (o, w') ->
  orchestrator_state w' = orchestrator_state w.
Proof.
  intros H. pose proof (for_tool_calls_orchestrator calls used results w) as Ho.
  rewrite H in Ho. exact Ho.
Qed.

(** ** Counting the requests to the completion endpoint *)

Lemma within_bind {A B} (P Q R : World -> Prop) (m : M A) (f : A -> M B) :
  (forall w, P w -> Q (snd (m w))) ->
  (forall w, Q w -> R w) ->
  (forall a w, Q w -> R (snd (f a w))) ->
  forall w, P w -> R (snd (bind m f w)).
Proof.
  intros Hm Hmono Hf w H. unfold bind. specialize (Hm w H).
  destruct (m w) as [[a | e |] w1]; simpl in *; auto.
Qed.

Lemma gateway_calls_within_frame k w0 w w' :
  gateway_log w' = gateway_log w ->
  gateway_calls_within k w0 w -> gateway_calls_within k w0 w'.
Proof. intros E (extra & H & Hk). exists extra. rewrite E. auto. Qed.

Lemma gateway_calls_within_mono k w0 w :
  gateway_calls_within k w0 w -> gateway_calls_within (S k) w0 w.
Proof. intros (extra & H & Hk). exists extra. auto. Qed.

Lemma chat_completion_counts k w0 h t w :
  gateway_calls_within k w0 w ->
  gateway_calls_within (S k) w0 (snd (chat_completion h t w)).
Proof.
  intros (extra & H & Hk). unfold chat_completion, bind, gets, modify, ret.
  match goal with
  | |- context [gateway w ?l] => destruct (gateway w l)
  end; simpl; rewrite H, <- app_assoc; eexists; (split; [reflexivity |]);
    rewrite length_app; simpl; lia.
Qed.

Lemma for_tool_calls_within k w0 calls used results :
  preserves (gateway_calls_within k w0) (for_tool_calls calls used results).
Proof.
  intros w H. eapply gateway_calls_within_frame; [| exact H].
  pose proof (for_tool_calls_orchestrator calls used results w) as Ho.
  unfold orchestrator_state in Ho. congruence.
Qed.

Lemma append_history_within k w0 m :
  preserves (gateway_calls_within k w0) (append_history m).
Proof.
  unfold append_history. apply preserves_modify. intros w H.
  eapply gateway_calls_within_frame; [| exact H]. reflexivity.
Qed.

Lemma tool_round_counts k w0 msg w :
  gateway_calls_within k w0 w ->
  gateway_calls_within (S k) w0 (snd (tool_round msg w)).
Proof.
  revert w. unfold tool_round.
  apply within_bind with (Q := gateway_calls_within k w0);
    [apply preserves_lift | apply gateway_calls_within_mono | intros tc].
  apply within_bind with (Q := gateway_calls_within k w0);
    [apply preserves_lift | apply gateway_calls_within_mono | intros calls].
  apply within_bind with (Q := gateway_calls_within k w0);
    [apply for_tool_calls_within | apply gateway_calls_within_mono | intros r].
  apply within_bind with (Q := gateway_calls_within k w0);
    [apply append_history_within | apply gateway_calls_within_mono | intros _].
  apply within_bind with (Q := gateway_calls_within k w0);
    [apply append_history_within | apply gateway_calls_within_mono | intros _].
  apply within_bind with (Q := gateway_calls_within k w0);
    [apply preserves_gets | apply gateway_calls_within_mono | intros h].
  apply within_bind with (Q := gateway_calls_within (S k) w0);
    [apply chat_completion_counts | auto | intros resp].
  change (preserves (gateway_calls_within (S k) w0)
            (failed <- lift (py_contains "error" resp) ;;
             if failed : bool then
               e <- lift (py_item resp "error") ;;
               ret (JStr ("Error in final response: " ++ py_str e)%string)
             else
               final_message <- lift (first_message resp) ;;
               append_history final_message ;;;
               modify (fun w => set_tools_used_in_conversation
                                  (tools_used_in_conversation w ++ fst r) w) ;;;
               lift (py_item final_message "content"))).
  pres; try apply append_history_within.
  apply preserves_modify. intros w H.
  eapply gateway_calls_within_frame; [| exact H]. reflexivity.
Qed.

Lemma process_message_counts u w :
  gateway_calls_within 2 w (snd (process_message u w)).
Proof.
  assert (H0 : gateway_calls_within 0 w w).
  { exists []. split; [symmetry; apply app_nil_r | simpl; lia]. }
  revert H0. generalize w at 1 3. intros w0. revert w. unfold process_message.
  apply within_bind with (Q := gateway_calls_within 0 w0);
    [apply append_history_within | do 2 intro; do 2 apply gateway_calls_within_mono; assumption
    | intros _].
  apply within_bind with (Q := gateway_calls_within 0 w0);
    [apply preserves_gets | do 2 intro; do 2 apply gateway_calls_within_mono; assumption
    | intros av].
  apply within_bind with (Q := gateway_calls_within 0 w0);
    [apply preserves_lift | do 2 intro; do 2 apply gateway_calls_within_mono; assumption
    | intros ot].
  apply within_bind with (Q := gateway_calls_within 0 w0);
    [apply preserves_gets | do 2 intro; do 2 apply gateway_calls_within_mono; assumption
    | intros h].
  apply within_bind with (Q := gateway_calls_within 1 w0);
    [apply chat_completion_counts | apply gateway_calls_within_mono | intros resp].
  apply within_bind with (Q := gateway_calls_within 1 w0);
    [apply preserves_lift | apply gateway_calls_within_mono | intros failed].
  destruct failed.
  - intros w H. apply gateway_calls_within_mono. revert w H.
    change (preserves (gateway_calls_within 1 w0)
              (e <- lift (py_item resp "error") ;; ret (JStr ("Error: " ++ py_str e)%string))).
    pres.
  - apply within_bind with (Q := gateway_calls_within 1 w0);
      [apply preserves_lift | apply gateway_calls_within_mono | intros msg].
    apply within_bind with (Q := gateway_calls_within 1 w0);
      [apply preserves_lift | apply gateway_calls_within_mono | intros requested].
    destruct (truthy requested).
    + intros w H. apply tool_round_counts, H.
    + intros w H. apply gateway_calls_within_mono. revert w H.
      change (preserves (gateway_calls_within 1 w0)
                (append_history msg ;;; lift (py_item msg "content"))).
      pres. apply append_history_within.
Qed.

(** C8: when the endpoint's first answer asks for tool calls and these have
    been run, [process_message] makes exactly one more request to the
    endpoint, without tools, and returns the content of its answer; tool
    calls in that second answer are not run (nothing more is sent to the
    server).  No turn makes more than two requests to the endpoint. *)
Theorem one_tool_round_per_turn u w otools msg calls used results w2 final_message content :
  requests_tools u w otools msg calls ->
  for_tool_calls calls [] [] (asked u otools w) = (Return (used, results), w2) ->
  follow_up w2 msg results final_message content ->
  process_message u w = (Return content, finished w2 msg used results final_message) /\
  gateway_log (finished w2 msg used results final_message) =
    gateway_log w ++ [first_request u otools w; follow_up_request msg results w2] /\
  tools (follow_up_request msg results w2) = None /\
  process (finished w2 msg used results final_message) = process w2 /\
  message_id (finished w2 msg used results final_message) = message_id w2 /\
  (forall u' w', gateway_calls_within 2 w' (snd (process_message u' w'))).
Proof.
  intros Hreq Hcalls Hfollow.
  pose proof Hreq as (_ & resp & tc & _ & _ & _ & Ht & Htr & Hi).
  split; [| split; [| split; [| split; [| split]]]]; try reflexivity.
  - rewrite (process_message_asks _ _ _ _ _ Hreq).
    eapply tool_round_finishes; eauto.
  - pose proof (for_tool_calls_frame _ _ _ _ _ _ Hcalls) as Ho.
    unfold orchestrator_state in Ho.
    assert (Hl : gateway_log w2 = gateway_log (asked u otools w)) by congruence.
    unfold finished. cbn [gateway_log set_tools_used_in_conversation
                            set_conversation_history set_gateway].
    rewrite Hl. unfold asked. cbn [gateway_log set_gateway].
    rewrite <- app_assoc. reflexivity.
  - intros u' w'. apply process_message_counts.
Qed.

Lemma asked_history u otools w :
  conversation_history (asked u otools w) = conversation_history w ++ [user_turn u].
Proof. reflexivity. Qed.

Lemma asked_running n u otools w :
  stopped_times n w -> stopped_times n (asked u otools w).
Proof. intros H. eapply stopped_times_frame; [| | exact H]; reflexivity. Qed.



(** C2, as the code has it: when the argument text of a requested tool call
    is rejected by [json.loads], [process_message] raises [JSONDecodeError]
    at that call, before the tool is invoked.  The turn is cut short: only
    the user turn has been added to the conversation, no follow-up request is
    made, and the tools-used record is unchanged.  The stdio loop catches the
    exception, prints an error record and is ready for the next line. *)
Theorem unparsable_arguments_abort_the_turn
    u w otools msg pre tool_call post name s used1 results1 w1 :
  requests_tools u w otools msg (pre ++ tool_call :: post) ->
  for_tool_calls pre [] [] (asked u otools w) = (Return (used1, results1), w1) ->
  names_tool tool_call name (JStr s) -> json_loads s = None ->
  process_message u w = (Raise JSONDecodeError, w1) /\
  conversation_history w1 = conversation_history w ++ [user_turn u] /\
  gateway_log w1 = gateway_log w ++ [first_request u otools w] /\
  tools_used_in_conversation w1 = tools_used_in_conversation w /\
  forall names,
    tool_names (available_tools w) = Return names ->
    try_except (stdio_turn u)
      (fun e => if is_Exception e then Some (stdio_turn_failed e) else None) w =
    (Return tt, set_stdout (stdout w ++ [StdioError JSONDecodeError names]) w1).
Proof.
  intros Hreq Hpre Hname Hbad.
  pose proof Hreq as (_ & resp & tc & _ & _ & _ & Ht & Htr & Hi).
  assert (Hloop : for_tool_calls (pre ++ tool_call :: post) [] [] (asked u otools w) =
                  (Raise JSONDecodeError, w1)).
  { rewrite (for_tool_calls_app _ _ _ _ _ _ _ _ Hpre).
    eapply for_tool_calls_unparsable; eauto. }
  assert (Hpm : process_message u w = (Raise JSONDecodeError, w1)).
  { rewrite (process_message_asks _ _ _ _ _ Hreq). unfold tool_round.
    unfold bind at 1. unfold lift at 1. rewrite (tool_calls_item _ _ Ht Htr).
    unfold bind at 1. unfold lift at 1. rewrite Hi.
    rewrite (bind_Raise _ _ _ _ _ Hloop). reflexivity. }
  pose proof (for_tool_calls_frame _ _ _ _ _ _ Hloop) as Ho.
  unfold orchestrator_state in Ho.
  injection Ho as Hav Hh Hu _ _ _ Hl Hout.
  split; [exact Hpm |]. split; [exact Hh |]. split; [exact Hl |]. split; [exact Hu |].
  intros names Hnames. unfold try_except, stdio_turn.
  rewrite (bind_Raise _ _ _ _ _ Hpm). cbn [is_Exception].
  unfold stdio_turn_failed.
  unfold bind at 1. unfold gets at 1. rewrite Hav.
  unfold bind at 1. unfold lift at 1. rewrite Hnames.
  unfold print, modify. rewrite Hout. reflexivity.
Qed.

(** ** The tools-used bookkeeping of stdio mode *)

Lemma py_eqb_sym a b : py_eqb a b = py_eqb b a.
Proof.
  destruct a, b; simpl; try reflexivity;
    try apply Z.eqb_sym; try apply String.eqb_sym.
Qed.

Lemma py_eqb_trans a b c : py_eqb a b = true -> py_eqb b c = true -> py_eqb a c = true.
Proof.
  unfold py_eqb.
  destruct a, b; simpl; try discriminate; destruct c; simpl; try discriminate;
    intros H1 H2;
    try (apply Z.eqb_eq in H1; apply Z.eqb_eq in H2; apply Z.eqb_eq; congruence);
    try reflexivity.
  apply String.eqb_eq in H1, H2. apply String.eqb_eq. congruence.
Qed.

Lemma py_in_app t a b : py_in t (a ++ b) = py_in t a || py_in t b.
Proof. unfold py_in. apply existsb_app. Qed.

Lemma py_in_eqb t x l : py_eqb t x = true -> py_in t l = py_in x l.
Proof.
  intros H. unfold py_in. induction l as [| y l IH]; simpl; [reflexivity |].
  rewrite IH. f_equal.
  destruct (py_eqb t y) eqn:E1, (py_eqb x y) eqn:E2; try reflexivity.
  - rewrite py_eqb_sym in H. rewrite (py_eqb_trans _ _ _ H E1) in E2. discriminate.
  - rewrite (py_eqb_trans _ _ _ H E2) in E1. discriminate.
Qed.

Lemma py_in_filter t f l : py_in t (filter f l) = true -> py_in t l = true.
Proof.
  unfold py_in. rewrite !existsb_exists. intros (x & Hx & E).
  apply filter_In in Hx as [Hx _]. eauto.
Qed.

Lemma py_in_filter_not_in t prev l :
  py_in t (filter (fun x => negb (py_in x prev)) l) = true -> py_in t prev = false.
Proof.
  unfold py_in at 1. rewrite existsb_exists. intros (x & Hx & E).
  apply filter_In in Hx as [_ Hx]. apply negb_true_iff in Hx.
  rewrite (py_in_eqb t x prev E). exact Hx.
Qed.

Lemma py_distinct_filter f l : py_distinct l = true -> py_distinct (filter f l) = true.
Proof.
  induction l as [| x l IH]; simpl; [reflexivity |].
  intros H. apply andb_prop in H as [Hx Hl]. destruct (f x); simpl; auto.
  rewrite (IH Hl), andb_true_r. apply negb_true_iff.
  destruct (py_in x (filter f l)) eqn:E; [| reflexivity].
  apply py_in_filter in E. rewrite E in Hx. discriminate.
Qed.

Lemma py_distinct_app a b :
  py_distinct a = true -> py_distinct b = true ->
  (forall t, py_in t b = true -> py_in t a = false) ->
  py_distinct (a ++ b) = true.
Proof.
  intros Ha Hb Hd. induction a as [| x a IH]; simpl in *; [exact Hb |].
  apply andb_prop in Ha as [Hx Ha]. apply andb_true_intro. split.
  - apply negb_true_iff. rewrite py_in_app. apply negb_true_iff in Hx. rewrite Hx. simpl.
    destruct (py_in x b) eqn:E; [| reflexivity].
    specialize (Hd x E). simpl in Hd. apply orb_false_iff in Hd as [Hxx _].
    unfold py_in in E. apply existsb_exists in E as (y & _ & Hy).
    rewrite (py_eqb_trans x y x Hy) in Hxx; [discriminate |].
    rewrite py_eqb_sym. exact Hy.
  - apply IH; [exact Ha |]. intros t Ht. specialize (Hd t Ht). simpl in Hd.
    apply orb_false_iff in Hd as [_ Hd]. exact Hd.
Qed.

Lemma set_add_in t x s : py_in t (set_add x s) = py_eqb t x || py_in t s.
Proof.
  unfold set_add. destruct (py_in x s) eqn:E.
  - destruct (py_eqb t x) eqn:E'; [| reflexivity].
    rewrite (py_in_eqb t x s E'), E. reflexivity.
  - rewrite py_in_app. simpl. rewrite orb_false_r. apply orb_comm.
Qed.

Lemma fold_set_add_in t l s :
  py_in t (fold_left (fun s x => set_add x s) l s) = py_in t l || py_in t s.
Proof.
  revert s. induction l as [| x l IH]; intros s; simpl; [reflexivity |].
  rewrite IH, set_add_in. destruct (py_eqb t x), (py_in t l), (py_in t s); reflexivity.
Qed.

Lemma set_add_distinct x s : py_distinct s = true -> py_distinct (set_add x s) = true.
Proof.
  intros H. unfold set_add. destruct (py_in x s) eqn:E; [exact H |].
  apply py_distinct_app; [exact H | reflexivity |].
  intros t Ht. simpl in Ht. rewrite orb_false_r in Ht.
  rewrite (py_in_eqb t x s Ht). exact E.
Qed.

Lemma fold_set_add_distinct l s :
  py_distinct s = true -> py_distinct (fold_left (fun s x => set_add x s) l s) = true.
Proof.
  revert s. induction l as [| x l IH]; intros s H; simpl; [exact H |].
  apply IH, set_add_distinct, H.
Qed.

Lemma py_in_perm t a b : Permutation a b -> py_in t a = py_in t b.
Proof.
  unfold py_in. induction 1 as [| x a b _ IH | x y a | a b c _ IH1 _ IH2]; simpl.
  - reflexivity.
  - rewrite IH. reflexivity.
  - destruct (py_eqb t y), (py_eqb t x); reflexivity.
  - congruence.
Qed.

Lemma py_in_false_neq x y l : py_in x (y :: l) = false -> py_eqb y x = false.
Proof.
  simpl. intros H. apply orb_false_iff in H as [H _]. rewrite py_eqb_sym. exact H.
Qed.

Lemma py_distinct_perm a b :
  Permutation a b -> py_distinct a = true -> py_distinct b = true.
Proof.
  induction 1 as [| x a b Hp IH | x y a | a b c _ IH1 _ IH2]; cbn [py_distinct].
  - auto.
  - intros H. apply andb_prop in H as [Hx Ha].
    rewrite <- (py_in_perm x a b Hp). rewrite Hx. simpl. auto.
  - intros H. apply andb_prop in H as [Hy H]. apply andb_prop in H as [Hx Ha].
    apply negb_true_iff in Hy, Hx. unfold py_in in *. simpl in Hy |- *.
    apply orb_false_iff in Hy as [Hyx Hya].
    rewrite (py_eqb_sym x y), Hyx, Hx, Hya, Ha. reflexivity.
  - auto.
Qed.

Lemma py_in_filter_iff t prev l :
  py_in t (filter (fun x => negb (py_in x prev)) l) = true <->
  py_in t l = true /\ py_in t prev = false.
Proof.
  split.
  - intros H. split; [eapply py_in_filter, H | eapply py_in_filter_not_in, H].
  - intros [Hl Hp]. unfold py_in in Hl. apply existsb_exists in Hl as (x & Hx & E).
    unfold py_in at 1. apply existsb_exists. exists x. split; [| exact E].
    apply filter_In. split; [exact Hx |].
    rewrite <- (py_in_eqb t x prev E). rewrite Hp. reflexivity.
Qed.

(** [list(set(l))] has the members of [l], each once, in some order. *)
Lemma py_set_spec l s :
  py_set l = Return s ->
  py_distinct s = true /\ forall t, py_in t s = py_in t l.
Proof.
  unfold py_set. destruct (forallb py_hashable l); [| discriminate].
  intros H. injection H as <-.
  pose proof (set_order_permutes (fold_left (fun s x => set_add x s) l [])) as Hp.
  split.
  - eapply py_distinct_perm; [apply Permutation_sym, Hp |].
    apply fold_set_add_distinct. reflexivity.
  - intros t. rewrite (py_in_perm t _ _ Hp), fold_set_add_in. simpl. apply orb_false_r.
Qed.

Lemma reported_app a b : reported (a ++ b) = reported a ++ reported b.
Proof.
  induction a as [| [r n u | e n] a IH]; simpl; [reflexivity | |]; rewrite IH.
  - apply app_assoc.
  - reflexivity.
Qed.

Lemma reports_inv_frame w w' :
  stdout w' = stdout w -> _previous_tools w' = _previous_tools w ->
  (exists more, tools_used_in_conversation w' = tools_used_in_conversation w ++ more) ->
  reports_inv w -> reports_inv w'.
Proof.
  intros Ho Hp [more Hu] (H1 & H2 & H3). unfold reports_inv, previous_tools in *.
  rewrite Ho, Hp, Hu. split; [exact H1 |]. split; [| exact H3].
  intros t Ht. rewrite py_in_app, (H2 t Ht). reflexivity.
Qed.

Ltac reports_frame_at w H :=
  apply (reports_inv_frame w); [| | | exact H];
  [reflexivity | reflexivity | exists []; symmetry; apply app_nil_r].

Ltac reports_frame :=
  let w := fresh "w" in
  let H := fresh "H" in
  intros w H; reports_frame_at w H.

Lemma reports_inv_client :
  (forall n w, reports_inv w -> reports_inv (set_message_id n w)) /\
  (forall data w p, process w = Some p -> reports_inv w ->
                    reports_inv (set_process (Some (push_stdin data p)) w)) /\
  (forall l w p, process w = Some p -> reports_inv w ->
                 reports_inv (set_process (Some (set_stdout_lines l p)) w)).
Proof.
  split; [| split].
  - intros n w H. reports_frame_at w H.
  - intros d w p _ H. reports_frame_at w H.
  - intros l w p _ H. reports_frame_at w H.
Qed.

Lemma call_tool_reports name args : preserves reports_inv (call_tool name args).
Proof.
  intros w H. pose proof (call_tool_orchestrator name args w) as Ho.
  unfold orchestrator_state in Ho. injection Ho as _ _ Hu Hp _ _ _ Hout.
  apply (reports_inv_frame w); [exact Hout | exact Hp | | exact H].
  exists []. rewrite Hu. symmetry. apply app_nil_r.
Qed.

Lemma process_message_reports u : preserves reports_inv (process_message u).
Proof.
  apply process_message_preserves.
  - apply call_tool_reports.
  - intros m. unfold append_history. apply preserves_modify. reports_frame.
  - intros h t. unfold chat_completion. pres. apply preserves_modify. reports_frame.
  - intros more. apply preserves_modify. intros w H.
    apply (reports_inv_frame w); [reflexivity | reflexivity | | exact H].
    exists more. reflexivity.
Qed.

(** [process_message] neither prints nor touches [_previous_tools]. *)
Lemma process_message_silent u w :
  stdout (snd (process_message u w)) = stdout w /\
  _previous_tools (snd (process_message u w)) = _previous_tools w.
Proof.
  apply (process_message_preserves
           (fun w' => stdout w' = stdout w /\ _previous_tools w' = _previous_tools w));
    [| | | | auto].
  - intros name args w' H. pose proof (call_tool_orchestrator name args w') as Ho.
    unfold orchestrator_state in Ho. injection Ho as _ _ _ Hp _ _ _ Hout.
    rewrite Hout, Hp. exact H.
  - intros m. unfold append_history. apply preserves_modify. auto.
  - intros h t. unfold chat_completion. pres. apply preserves_modify. auto.
  - intros more. apply preserves_modify. auto.
Qed.

(** What a turn of the stdio loop does once [process_message] has returned. *)
Lemma stdio_turn_eq u w response w1 :
  process_message u w = (Return response, w1) ->
  stdio_turn u w =
  match py_set (tools_used_in_conversation w1) with
  | Return current =>
      match tool_names (available_tools w1) with
      | Return names =>
          (Return tt,
           set_previous_tools (Some current)
             (set_stdout
                (stdout w1 ++
                 [StdioResponse response names
                    (filter (fun tool => negb (py_in tool (previous_tools w1))) current)])
                w1))
      | Raise e => (Raise e, w1)
      | Hang => (Hang, w1)
      end
  | Raise e => (Raise e, w1)
  | Hang => (Hang, w1)
  end.
Proof.
  intros H. unfold stdio_turn. rewrite (bind_Return _ _ _ _ _ H).
  unfold bind at 1. unfold gets at 1.
  unfold bind at 1. unfold lift at 1.
  destruct (py_set (tools_used_in_conversation w1)) as [current | e |]; reflexivity.
Qed.

Lemma stdio_turn_reports u : preserves reports_inv (stdio_turn u).
Proof.
  intros w H. pose proof (process_message_reports u w H) as H1.
  destruct (process_message u w) as [[response | e |] w1] eqn:Hpm.
  - rewrite (stdio_turn_eq u w response w1 Hpm). simpl in H1.
    destruct (py_set (tools_used_in_conversation w1)) as [current | e |] eqn:Hset;
      try exact H1.
    destruct (tool_names (available_tools w1)) as [names | e |]; try exact H1.
    destruct H1 as (Hr & Hp & Hd). destruct (py_set_spec _ _ Hset) as [Hcd Hcin].
    unfold reports_inv, previous_tools. simpl.
    rewrite reported_app. simpl. rewrite app_nil_r.
    split; [| split].
    + intros t Ht. rewrite py_in_app in Ht. apply orb_true_iff in Ht as [Ht | Ht].
      * rewrite Hcin. apply Hp, Hr, Ht.
      * eapply py_in_filter, Ht.
    + intros t Ht. rewrite <- Hcin. exact Ht.
    + apply py_distinct_app; [exact Hd | apply py_distinct_filter, Hcd |].
      intros t Ht. apply py_in_filter_not_in in Ht.
      destruct (py_in t (reported (stdout w1))) eqn:E; [| reflexivity].
      pose proof (Hr t E) as Hin. unfold previous_tools in Hin. congruence.
  - unfold stdio_turn. rewrite (bind_Raise _ _ _ _ _ Hpm). exact H1.
  - unfold stdio_turn, bind. rewrite Hpm. exact H1.
Qed.

Lemma stdio_turn_failed_reports e : preserves reports_inv (stdio_turn_failed e).
Proof.
  unfold stdio_turn_failed. pres. unfold print. apply preserves_modify.
  intros w (H1 & H2 & H3). unfold reports_inv, previous_tools in *. simpl.
  rewrite reported_app. simpl. rewrite app_nil_r. auto.
Qed.

Lemma stop_reports : preserves reports_inv stop.
Proof.
  intros w H. unfold stop, client_stop, bind, gets, modify, ret, raise.
  destruct (process w) as [p |]; simpl; [| exact H].
  destruct (exited p); simpl; reports_frame_at w H.
Qed.

Lemma start_reports : preserves reports_inv start.
Proof.
  destruct reports_inv_client as (H1 & H2 & H3).
  unfold start, client_start. pres; try (apply preserves_modify; reports_frame).
  - apply initialize_preserves; assumption.
  - apply list_tools_preserves; assumption.
Qed.

Lemma main_reports mode inputs : preserves reports_inv (main mode inputs).
Proof.
  unfold main. apply preserves_try_except.
  - apply preserves_bind; [apply start_reports | intros _].
    destruct mode.
    + apply run_interactive_preserves; auto using process_message_reports, stop_reports.
    + apply run_stdio_preserves;
        auto using stdio_turn_reports, stdio_turn_failed_reports, stop_reports.
  - intros e k Hk. destruct e; simpl in Hk; try discriminate; injection Hk as <-;
      try apply preserves_ret; apply preserves_raise.
Qed.

(** C10, as the code has it: a turn of stdio mode that prints a response
    reports as [tools_used] exactly the members of the recorded list
    [tools_used_in_conversation] that are not in [_previous_tools], each once
    and in no particular order, and then stores the members of the recorded
    list in [_previous_tools]; a turn that fails leaves [_previous_tools] as
    it was.  The recorded list is not the list of the tools that were called:
    a turn adds its tools only once its follow-up answer has been obtained.
    Over a whole session no tool occurs twice in the [tools_used] lists
    printed, and every tool printed there is in the recorded list. *)
Theorem tools_used_reports_only_new_tools :
  (forall u w w',
     stdio_turn u w = (Return tt, w') ->
     exists response names used,
       stdout w' = stdout w ++ [StdioResponse response names used] /\
       py_distinct used = true /\
       (forall t, py_in t used = true <->
                  py_in t (tools_used_in_conversation w') = true /\
                  py_in t (previous_tools w) = false) /\
       (forall t, py_in t (previous_tools w') =
                  py_in t (tools_used_in_conversation w'))) /\
  (forall u w e w' e',
     stdio_turn u w = (Raise e, w') ->
     _previous_tools (snd (stdio_turn_failed e' w')) = _previous_tools w) /\
  (forall inputs spawn g,
     let w := snd (main stdio inputs (new_session spawn g)) in
     py_distinct (reported (stdout w)) = true /\
     py_incl (reported (stdout w)) (tools_used_in_conversation w)).
Proof.
  split; [| split].
  - intros u w w' H.
    destruct (process_message_silent u w) as [Hout Hprev].
    destruct (process_message u w) as [[response | e |] w1] eqn:Hpm.
    + rewrite (stdio_turn_eq u w response w1 Hpm) in H. simpl in Hout, Hprev.
      destruct (py_set (tools_used_in_conversation w1)) as [current | e |] eqn:Hset;
        try discriminate.
      destruct (tool_names (available_tools w1)) as [names | e |]; try discriminate.
      destruct (py_set_spec _ _ Hset) as [Hcd Hcin].
      injection H as <-. exists response, names. eexists.
      unfold previous_tools in *. simpl. rewrite Hout, Hprev.
      split; [reflexivity |]. split; [apply py_distinct_filter, Hcd |]. split.
      * intros t. rewrite py_in_filter_iff, Hcin. reflexivity.
      * exact Hcin.
    + unfold stdio_turn in H. rewrite (bind_Raise _ _ _ _ _ Hpm) in H. discriminate.
    + unfold stdio_turn, bind in H. rewrite Hpm in H. discriminate.
  - intros u w e w' e' H.
    assert (Hw' : _previous_tools w' = _previous_tools w).
    { destruct (process_message_silent u w) as [_ Hprev].
      destruct (process_message u w) as [[response | e0 |] w1] eqn:Hpm.
      - rewrite (stdio_turn_eq u w response w1 Hpm) in H. simpl in Hprev.
        destruct (py_set (tools_used_in_conversation w1)) as [current | e1 |].
        + destruct (tool_names (available_tools w1)) as [names | e1 |];
            try discriminate. injection H as _ <-. exact Hprev.
        + injection H as _ <-. exact Hprev.
        + discriminate.
      - unfold stdio_turn in H. rewrite (bind_Raise _ _ _ _ _ Hpm) in H.
        injection H as _ <-. exact Hprev.
      - unfold stdio_turn, bind in H. rewrite Hpm in H. discriminate. }
    rewrite <- Hw'.
    apply (preserves_bind (fun x => _previous_tools x = _previous_tools w'));
      [apply preserves_gets | | reflexivity].
    intros a. pres. unfold print. apply preserves_modify. auto.
  - intros inputs spawn g.
    destruct (main_reports stdio inputs (new_session spawn g)) as (H1 & H2 & H3).
    { split; [| split]; [intros t Ht; discriminate .. | reflexivity]. }
    split; [exact H3 |]. intros t Ht. apply H2, H1, Ht.
Qed.

(** ** Stopping the child process *)

Lemma stopped_times_client n :
  (forall k w, stopped_times n w -> stopped_times n (set_message_id k w)) /\
  (forall data w p, process w = Some p -> stopped_times n w ->
                    stopped_times n (set_process (Some (push_stdin data p)) w)) /\
  (forall l w p, process w = Some p -> stopped_times n w ->
                 stopped_times n (set_process (Some (set_stdout_lines l p)) w)).
Proof.
  split; [| split].
  - intros k w H. eapply stopped_times_frame; [| | exact H]; reflexivity.
  - intros d w p Hp H. eapply stopped_times_frame; [| | exact H];
      simpl; rewrite Hp; reflexivity.
  - intros l w p Hp H. eapply stopped_times_frame; [| | exact H];
      simpl; rewrite Hp; reflexivity.
Qed.

Lemma initialize_running n : preserves (stopped_times n) initialize.
Proof.
  destruct (stopped_times_client n) as (H1 & H2 & H3).
  apply initialize_preserves; assumption.
Qed.

Lemma initialize_fails w p :
  process w = Some p -> stdin_budget p <> Some 0 ->
  silent_for READ_TIMEOUT_MS p \/
  (exists d e, answers p (JObj d) /\ dict_get "error" d = Some e /\ truthy e = true) ->
  exists msg w1, initialize w = (Raise (Exception msg), w1).
Proof.
  intros Hp Hb [Hs | (d & e & Ha & He & Ht)].
  - destruct (send_request_silent w p (init_request (message_id w)) Hp Hb Hs)
      as (p' & H & _).
    do 2 eexists. apply initialize_no_response. exact H.
  - destruct (initialize_refused w p d e Hp Hb Ha He Ht) as [w1 H]. eauto.
Qed.

(** C3 fails on the code: when the server has been spawned and [initialize]
    raises (the server stays silent until the deadline, or refuses), [main]
    ends with exit status 1 and [stop] has not run: the child process has
    been neither terminated nor awaited. *)
Theorem startup_error_leaves_child_running mode inputs p g :
  fresh p -> stdin_budget p <> Some 0 ->
  silent_for 10000 p \/
  (exists d e, answers p (JObj d) /\ dict_get "error" d = Some e /\ truthy e = true) ->
  exists w',
    main mode inputs (new_session (Some p) g) = (Raise (SystemExit 1), w') /\
    stopped_times 0 w'.
Proof.
  intros (_ & Ht & Hw) Hb Hfail.
  set (w0 := set_process (Some p) (new_session (Some p) g)).
  destruct (initialize_fails w0 p eq_refl Hb Hfail) as (msg & w1 & Hi).
  assert (Hrun : stopped_times 0 w1).
  { pose proof (initialize_running 0 w0) as H. rewrite Hi in H. apply H.
    exists p. auto. }
  exists w1. split; [| exact Hrun].
  assert (Hc : client_start (new_session (Some p) g) = (Raise (Exception msg), w1))
    by exact Hi.
  unfold main, try_except, start.
  rewrite (bind_Raise _ _ _ _ _ (bind_Raise _ _ _ _ _ Hc)). reflexivity.
Qed.

(** ** Calls that come back *)









































Lemma process_message_running n u : preserves (stopped_times n) (process_message u).
Proof.
  apply process_message_preserves.
  - apply call_tool_running.
  - intros m. unfold append_history. frame_modify stopped_times_frame.
  - intros h t. unfold chat_completion. pres. frame_modify stopped_times_frame.
  - intros more. frame_modify stopped_times_frame.
Qed.



(** In interactive mode the end of the input is no way out: the loop never
    returns and [stop] is not reached. *)
Lemma interactive_end_of_input_never_returns w :
  truthy (available_tools w) = false -> run_interactive [] w = (Hang, w).
Proof.
  intros H. unfold run_interactive, bind, gets, try_finally. rewrite H. reflexivity.
Qed.



(** * Further properties of the protocol client *)

Lemma read_response_message_id w : message_id (snd (read_response w)) = message_id w.
Proof.
  apply (read_response_preserves (fun w' => message_id w' = message_id w)); auto.
Qed.

Lemma send_request_message_id message w p :
  process w = Some p -> message_id (snd (send_request message w)) = message_id w + 1.
Proof.
  intros Hp. destruct (stdin_budget p) as [[| b] |] eqn:Hb.
  - rewrite (send_request_broken_pipe message w p Hp Hb). reflexivity.
  - rewrite (send_request_eq message w p Hp) by congruence.
    apply read_response_message_id.
  - rewrite (send_request_eq message w p Hp) by congruence.
    apply read_response_message_id.
Qed.

Lemma send_notification_message_id message w :
  message_id (snd (send_notification message w)) = message_id w.
Proof.
  apply (send_notification_preserves (fun w' => message_id w' = message_id w)); auto.
Qed.

(** X1: on a client whose server has been started, every [send_request]
    advances the message counter by exactly one, whatever becomes of the
    request (the write fails, no answer comes, the answer is unusable), and
    so do [list_tools] and [call_tool]; a notification leaves the counter
    alone. *)
Theorem message_id_counts_requests w p :
  process w = Some p ->
  (forall message, message_id (snd (send_request message w)) = message_id w + 1) /\
  (forall message, message_id (snd (send_notification message w)) = message_id w) /\
  message_id (snd (list_tools w)) = message_id w + 1 /\
  (forall name args, message_id (snd (call_tool name args w)) = message_id w + 1).
Proof.
  intros Hp. split; [| split; [| split]].
  - intros message. exact (send_request_message_id message w p Hp).
  - intros message. apply send_notification_message_id.
  - unfold list_tools.
    apply (within_bind (fun w' => w' = w)
             (fun w' => message_id w' = message_id w + 1)
             (fun w' => message_id w' = message_id w + 1)); auto.
    + intros w' ->. exact (send_request_message_id _ w p Hp).
    + intros r.
      change (preserves (fun w' => message_id w' = message_id w + 1)
                (match r with
                 | Some r =>
                     if negb (truthy (error r)) then
                       tools <- (if truthy (result r)
                                 then lift (py_get_default (result r) "tools" (JArr []))
                                 else ret (JArr [])) ;;
                       if py_has_len tools then ret tools else raise TypeError
                     else ret (JArr [])
                 | None => ret (JArr [])
                 end)).
      pres.
  - intros name args. unfold call_tool.
    apply (within_bind (fun w' => w' = w)
             (fun w' => message_id w' = message_id w + 1)
             (fun w' => message_id w' = message_id w + 1)); auto.
    + intros w' ->. exact (send_request_message_id _ w p Hp).
    + intros r.
      change (preserves (fun w' => message_id w' = message_id w + 1)
                (match r with
                 | Some r =>
                     if negb (truthy (error r)) then ret (result r)
                     else ret (JObj [("error", JStr (py_str (error r)))])
                 | None => ret (JObj [("error", JStr (py_str (JStr "No response")))])
                 end)).
      pres.
Qed.

(** X2: before the server has been started, every operation of the client
    that talks to it raises [Exception("MCP server not started")] and
    changes nothing, not even the message counter; [stop] does nothing. *)
Theorem client_not_started w :
  process w = None ->
  (forall message,
     send_request message w = (Raise (Exception "MCP server not started"), w)) /\
  (forall message,
     send_notification message w = (Raise (Exception "MCP server not started"), w)) /\
  initialize w = (Raise (Exception "MCP server not started"), w) /\
  list_tools w = (Raise (Exception "MCP server not started"), w) /\
  (forall name args,
     call_tool name args w = (Raise (Exception "MCP server not started"), w)) /\
  stop w = (Return tt, w).
Proof.
  intros Hp.
  assert (Hs : forall message,
             send_request message w = (Raise (Exception "MCP server not started"), w)).
  { intros message. unfold send_request, bind, gets. rewrite Hp. reflexivity. }
  split; [exact Hs |]. split; [| split; [| split; [| split]]].
  - intros message. unfold send_notification, bind, gets. rewrite Hp. reflexivity.
  - rewrite initialize_eq. apply bind_Raise, Hs.
  - unfold list_tools. apply bind_Raise, Hs.
  - intros name args. unfold call_tool. apply bind_Raise, Hs.
  - unfold stop, client_stop, bind, gets. rewrite Hp. reflexivity.
Qed.

Lemma read_response_late w p delay line rest :
  process w = Some p -> stdout_lines p = (delay, line) :: rest ->
  (READ_TIMEOUT_MS < delay)%N ->
  read_response w =
  (Return None,
   set_process
     (Some (set_stdout_lines (((delay - READ_TIMEOUT_MS)%N, line) :: rest) p)) w).
Proof.
  intros Hp Hl Hd. unfold read_response, try_except, bind, readline_within.
  rewrite Hp, Hl. apply N.leb_gt in Hd. rewrite Hd. reflexivity.
Qed.

Lemma strip_blank_is_text line : strip line = "" -> is_text line = true.
Proof.
  unfold strip, is_text. destruct (code_points line) eqn:E; [reflexivity |].
  intros ->. discriminate.
Qed.

(** A line that is there in time and whose text is the object [d]. *)
Lemma read_response_object w p delay line rest d :
  process w = Some p -> stdout_lines p = (delay, line) :: rest ->
  (delay <= READ_TIMEOUT_MS)%N -> line <> "" -> strip line <> "" ->
  json_loads (strip line) = Some (JObj d) ->
  read_response w =
  (handed line (Some (parsed d)), set_process (Some (set_stdout_lines rest p)) w).
Proof.
  intros Hp Hl Hd Hn Hs Hj.
  unfold read_response, try_except, bind, readline_within, lift, decode, handed.
  rewrite Hp, Hl. apply N.leb_le in Hd. rewrite Hd.
  destruct (overruns line); [reflexivity |].
  apply String.eqb_neq in Hn, Hs. rewrite Hn. cbn [negb].
  destruct (is_text line); [| reflexivity].
  rewrite Hs. cbn [negb]. rewrite Hj. reflexivity.
Qed.

(** A line that is there in time and is blank. *)
Lemma read_response_blank w p delay line rest :
  process w = Some p -> stdout_lines p = (delay, line) :: rest ->
  (delay <= READ_TIMEOUT_MS)%N -> strip line = "" ->
  read_response w =
  (handed line None, set_process (Some (set_stdout_lines rest p)) w).
Proof.
  intros Hp Hl Hd Hs.
  unfold read_response, try_except, bind, readline_within, lift, decode, handed.
  rewrite Hp, Hl. apply N.leb_le in Hd. rewrite Hd.
  pose proof (strip_blank_is_text line Hs) as Ht.
  destruct (overruns line); [reflexivity |].
  destruct (String.eqb line ""); cbn [negb]; rewrite Ht; [reflexivity |].
  rewrite Hs. reflexivity.
Qed.

(** X3: the client does not compare the id of what it reads with the id of
    what it sent.  An answer that arrives after the deadline of its request
    stays in the pipe and is handed, whatever its id, to the next request as
    its response (provided the line can be read and decoded at all: a line
    over the limit of the reader or one that is not UTF-8 makes that request
    raise). *)
Theorem late_response_answers_next_request w p delay line rest d first next :
  process w = Some p ->
  stdin_budget p <> Some 0 -> stdin_budget p <> Some 1 ->
  stdout_lines p = (delay, line) :: rest ->
  (READ_TIMEOUT_MS < delay)%N -> (delay <= 2 * READ_TIMEOUT_MS)%N ->
  line <> "" -> strip line <> "" -> json_loads (strip line) = Some (JObj d) ->
  exists w1 w2,
    send_request first w = (Return None, w1) /\
    send_request next w1 = (handed line (Some (parsed d)), w2).
Proof.
  intros Hp Hb0 Hb1 Hl Hd1 Hd2 Hn Hs Hj.
  pose proof (read_response_late (after_send first p w) _ delay line rest
                eq_refl Hl Hd1) as H1.
  rewrite <- (send_request_eq first w p Hp Hb0) in H1.
  eexists. eexists. split; [exact H1 |].
  erewrite send_request_eq; [| reflexivity |].
  - eapply read_response_object; try reflexivity; try assumption.
    unfold READ_TIMEOUT_MS in *. lia.
  - simpl. destruct (stdin_budget p) as [[| [| b]] |]; simpl; congruence.
Qed.

Lemma send_request_answered message w p d :
  process w = Some p -> stdin_budget p <> Some 0 -> answers p (JObj d) ->
  exists w1, send_request message w = (Return (Some (parsed d)), w1).
Proof.
  intros Hp Hb (delay & line & rest & Hl & Hd & Hn & Hs & Hj & Hrd).
  pose proof (read_response_answer (after_send message p w)
                _ delay line rest d eq_refl Hl Hd Hn Hs Hj Hrd) as Hr.
  rewrite <- (send_request_eq _ w p Hp Hb) in Hr. eauto.
Qed.

Lemma send_request_not_an_object message w p v :
  process w = Some p -> stdin_budget p <> Some 0 -> answers p v ->
  (forall d, v <> JObj d) ->
  exists w1, send_request message w = (Raise AttributeError, w1).
Proof.
  intros Hp Hb (delay & line & rest & Hl & Hd & Hn & Hs & Hj & Ho & Ht) Hv.
  rewrite (send_request_eq message w p Hp Hb).
  unfold read_response, try_except, bind, readline_within, lift, decode.
  change (process (after_send message p w))
    with (Some (push_stdin (wire_line (message_dict (stamped message (message_id w + 1)))) p)).
  cbn [stdout_lines push_stdin]. rewrite Hl.
  apply N.leb_le in Hd. rewrite Hd, Ho.
  apply String.eqb_neq in Hn, Hs. rewrite Hn. cbn [negb]. rewrite Ht, Hs. cbn [negb].
  rewrite Hj.
  destruct v as [| b | n | s | l | d]; try (eexists; reflexivity).
  exfalso. exact (Hv d eq_refl).
Qed.

Lemma send_request_end_of_file message w p :
  process w = Some p -> stdin_budget p <> Some 0 ->
  stdout_lines p = [] -> stdout_eof p = true ->
  exists w1, send_request message w = (Return None, w1).
Proof.
  intros Hp Hb Hl He. rewrite (send_request_eq message w p Hp Hb).
  unfold read_response, try_except, bind, readline_within.
  change (process (after_send message p w))
    with (Some (push_stdin (wire_line (message_dict (stamped message (message_id w + 1)))) p)).
  cbn [stdout_lines stdout_eof push_stdin].
  rewrite Hl, He. cbn. eexists. reflexivity.
Qed.

Lemma send_request_blank_line message w p delay line rest :
  process w = Some p -> stdin_budget p <> Some 0 ->
  stdout_lines p = (delay, line) :: rest -> (delay <= READ_TIMEOUT_MS)%N ->
  strip line = "" ->
  exists w1, send_request message w = (handed line None, w1).
Proof.
  intros Hp Hb Hl Hd Hs. rewrite (send_request_eq message w p Hp Hb).
  erewrite read_response_blank; [eexists; reflexivity | reflexivity | | |];
    eassumption.
Qed.

(** X4: what [send_request] makes of an unusable reply.  At end of file it
    returns [None] at once, and so it does on a line that is blank (unless
    the blank line overruns the limit of the reader, which raises
    [ValueError]).  A line that is JSON but not an object is not caught by
    its handlers: [.get] raises [AttributeError], which leaves
    [send_request] and with it [call_tool] and [list_tools]. *)
Theorem send_request_unusable_replies w p :
  process w = Some p -> stdin_budget p <> Some 0 ->
  (stdout_lines p = [] -> stdout_eof p = true ->
   forall message, exists w1, send_request message w = (Return None, w1)) /\
  (forall delay line rest,
     stdout_lines p = (delay, line) :: rest -> (delay <= READ_TIMEOUT_MS)%N ->
     strip line = "" ->
     forall message, exists w1, send_request message w = (handed line None, w1)) /\
  (forall v,
     answers p v -> (forall d, v <> JObj d) ->
     (forall message, exists w1, send_request message w = (Raise AttributeError, w1)) /\
     (forall name args, exists w1, call_tool name args w = (Raise AttributeError, w1)) /\
     (exists w1, list_tools w = (Raise AttributeError, w1))).
Proof.
  intros Hp Hb. split; [| split].
  - intros Hl He message. exact (send_request_end_of_file message w p Hp Hb Hl He).
  - intros delay line rest Hl Hd Hs message.
    exact (send_request_blank_line message w p delay line rest Hp Hb Hl Hd Hs).
  - intros v Ha Hv.
    assert (Hs : forall message,
               exists w1, send_request message w = (Raise AttributeError, w1)).
    { intros message. exact (send_request_not_an_object message w p v Hp Hb Ha Hv). }
    split; [exact Hs |]. split.
    + intros name args. unfold call_tool.
      destruct (Hs (new_message "tools/call" (JObj [("name", name); ("arguments", args)])))
        as [w1 H].
      exists w1. apply bind_Raise, H.
    + unfold list_tools. destruct (Hs (new_message "tools/list" (JObj []))) as [w1 H].
      exists w1. apply bind_Raise, H.
Qed.

Lemma list_tools_answered w p d :
  process w = Some p -> stdin_budget p <> Some 0 -> answers p (JObj d) ->
  exists w1,
    list_tools w =
    ((if negb (truthy (error (parsed d))) then
        obind (if truthy (result (parsed d))
               then py_get_default (result (parsed d)) "tools" (JArr [])
               else Return (JArr []))
          (fun tools => if py_has_len tools then Return tools else Raise TypeError)
      else Return (JArr [])), w1).
Proof.
  intros Hp Hb Ha.
  destruct (send_request_answered (new_message "tools/list" (JObj [])) w p d Hp Hb Ha)
    as [w1 H].
  exists w1. unfold list_tools. rewrite (bind_Return _ _ _ _ _ H). cbv beta iota.
  destruct (negb (truthy (error (parsed d)))); [| reflexivity].
  destruct (truthy (result (parsed d))).
  - unfold bind, lift.
    destruct (py_get_default (result (parsed d)) "tools" (JArr [])) as [t | e |];
      try reflexivity.
    simpl. destruct (py_has_len t); reflexivity.
  - reflexivity.
Qed.

Lemma send_request_overrun message w p delay line rest :
  process w = Some p -> stdin_budget p <> Some 0 ->
  stdout_lines p = (delay, line) :: rest -> (delay <= READ_TIMEOUT_MS)%N ->
  overruns line = true ->
  exists w1, send_request message w = (Raise ValueError, w1).
Proof.
  intros Hp Hb Hl Hd Ho. rewrite (send_request_eq message w p Hp Hb).
  unfold read_response, try_except, bind, readline_within.
  change (process (after_send message p w))
    with (Some (push_stdin (wire_line (message_dict (stamped message (message_id w + 1)))) p)).
  cbn [stdout_lines push_stdin]. rewrite Hl.
  apply N.leb_le in Hd. rewrite Hd, Ho. eexists. reflexivity.
Qed.

(** X5: what [list_tools] returns for an answer of the server.  When the
    line can be read and decoded and is a JSON object: a populated [error]
    gives the empty list; a [result] with a list under [tools] gives that
    list as it is; a [result] that is missing, empty or without [tools] gives
    the empty list; [tools] being null raises [TypeError] (from [len]), and a
    [result] that is not a dict raises [AttributeError].  When the line
    overruns the limit of the stream reader (a long list of tools does),
    [list_tools] raises [ValueError], whatever the line holds. *)
Theorem list_tools_outcomes w p :
  process w = Some p -> stdin_budget p <> Some 0 ->
  (forall d,
     answers p (JObj d) ->
     (forall e, dict_get "error" d = Some e -> truthy e = true ->
        exists w1, list_tools w = (Return (JArr []), w1)) /\
     (truthy (match dict_get "error" d with Some e => e | None => JNull end) = false ->
      (forall r ts,
         dict_get "result" d = Some (JObj r) -> r <> [] ->
         dict_get "tools" r = Some (JArr ts) ->
         exists w1, list_tools w = (Return (JArr ts), w1)) /\
      (forall r,
         dict_get "result" d = Some (JObj r) -> dict_get "tools" r = None ->
         exists w1, list_tools w = (Return (JArr []), w1)) /\
      (truthy (match dict_get "result" d with Some r => r | None => JNull end) = false ->
         exists w1, list_tools w = (Return (JArr []), w1)) /\
      (forall r,
         dict_get "result" d = Some (JObj r) -> dict_get "tools" r = Some JNull ->
         exists w1, list_tools w = (Raise TypeError, w1)) /\
      (forall r,
         dict_get "result" d = Some r -> truthy r = true -> (forall f, r <> JObj f) ->
         exists w1, list_tools w = (Raise AttributeError, w1)))) /\
  (forall delay line rest,
     stdout_lines p = (delay, line) :: rest -> (delay <= READ_TIMEOUT_MS)%N ->
     overruns line = true ->
     exists w1, list_tools w = (Raise ValueError, w1)).
Proof.
  intros Hp Hb. split.
  2: { intros delay line rest Hl Hd Ho.
       destruct (send_request_overrun (new_message "tools/list" (JObj [])) w p
                   delay line rest Hp Hb Hl Hd Ho) as [w1 H].
       exists w1. unfold list_tools. apply bind_Raise, H. }
  intros d Ha. destruct (list_tools_answered w p d Hp Hb Ha) as [w1 H].
  assert (He : error (parsed d) =
               match dict_get "error" d with Some e => e | None => JNull end)
    by reflexivity.
  assert (Hr : result (parsed d) =
               match dict_get "result" d with Some r => r | None => JNull end)
    by reflexivity.
  rewrite He, Hr in H. split.
  - intros e Hde Ht. rewrite Hde, Ht in H. eauto.
  - intros Hf. rewrite Hf in H. cbn [negb] in H.
    split; [| split; [| split; [| split]]].
    + intros r ts Hdr Hne Hts. rewrite Hdr in H.
      destruct r as [| kv r']; [congruence |].
      cbn [truthy] in H. unfold py_get_default in H. rewrite Hts in H. eauto.
    + intros r Hdr Hts. rewrite Hdr in H.
      destruct r as [| kv r'].
      * eauto.
      * cbn [truthy] in H. unfold py_get_default in H. rewrite Hts in H. eauto.
    + intros Hfr. rewrite Hfr in H. eauto.
    + intros r Hdr Hts. rewrite Hdr in H.
      destruct r as [| kv r']; [discriminate |].
      cbn [truthy] in H. unfold py_get_default in H. rewrite Hts in H. eauto.
    + intros r Hdr Htr Hno. rewrite Hdr, Htr in H.
      destruct r as [| b | n | s | l | f]; try (simpl in H; eauto).
      exfalso. exact (Hno f eq_refl).
Qed.

(** * Further properties of the orchestrator *)

Lemma chat_completion_eq h t w :
  chat_completion h t w =
  (Return (gateway_answer
             (gateway w (gateway_log w ++
                         [mkPayload h (match t with
                                       | Some [] | None => None
                                       | Some l => Some l
                                       end)]))),
   set_gateway (gateway w)
     (gateway_log w ++
      [mkPayload h (match t with Some [] | None => None | Some l => Some l end)]) w).
Proof.
  unfold chat_completion.
  unfold bind at 1. unfold gets at 1.
  unfold bind at 1. unfold gets at 1.
  unfold bind at 1. unfold modify at 1.
  match goal with |- context [gateway w ?l] => destruct (gateway w l) end; reflexivity.
Qed.

(** [process_message] up to the answer to its first request. *)
Lemma process_message_first_answer u w otools :
  convert_tools_for_openai (available_tools w) = Return otools ->
  process_message u w =
  (let response :=
     gateway_answer (gateway w (gateway_log w ++ [first_request u otools w])) in
   failed <- lift (py_contains "error" response) ;;
   if failed : bool then
     e <- lift (py_item response "error") ;;
     ret (JStr ("Error: " ++ py_str e)%string)
   else
     assistant_message <- lift (first_message response) ;;
     requested <- lift (py_get assistant_message "tool_calls") ;;
     if truthy requested then tool_round assistant_message
     else
       append_history assistant_message ;;;
       lift (py_item assistant_message "content")) (asked u otools w).
Proof.
  intros Hc. unfold process_message.
  unfold bind at 1. unfold append_history at 1. unfold modify at 1.
  unfold bind at 1. unfold gets at 1.
  cbn [available_tools set_conversation_history].
  unfold bind at 1. unfold lift at 1. rewrite Hc.
  unfold bind at 1. unfold gets at 1.
  cbn [conversation_history set_conversation_history].
  erewrite bind_Return by apply chat_completion_eq.
  cbn [gateway gateway_log set_conversation_history].
  replace (match match otools with [] => None | _ :: _ => Some otools end with
           | Some [] | None => None
           | Some l => Some l
           end)
    with (match otools with [] => None | _ :: _ => Some otools end)
    by (destruct otools; reflexivity).
  reflexivity.
Qed.

(** X6: an error of the completion endpoint ends the turn at once.  When the
    POST fails, or answers with another status than 200, or with a body that
    has an [error] field, [process_message] returns the text ["Error: ..."];
    the user turn stays in the conversation, nothing else is appended, no
    second request is made and nothing is sent to the tool server. *)
Theorem gateway_error_ends_the_turn u w otools :
  convert_tools_for_openai (available_tools w) = Return otools ->
  (forall status,
     gateway w (gateway_log w ++ [first_request u otools w]) = HttpStatus status ->
     process_message u w =
     (Return (JStr ("Error: API error: " ++ str_of_nat status)%string),
      asked u otools w)) /\
  (forall reason,
     gateway w (gateway_log w ++ [first_request u otools w]) = HttpFailure reason ->
     process_message u w =
     (Return (JStr ("Error: Connection failed: " ++ reason)%string), asked u otools w)) /\
  (forall body e,
     gateway w (gateway_log w ++ [first_request u otools w]) = Http200 (JObj body) ->
     dict_get "error" body = Some e ->
     process_message u w = (Return (JStr ("Error: " ++ py_str e)%string), asked u otools w)) /\
  conversation_history (asked u otools w) = conversation_history w ++ [user_turn u] /\
  gateway_log (asked u otools w) = gateway_log w ++ [first_request u otools w] /\
  process (asked u otools w) = process w /\
  tools_used_in_conversation (asked u otools w) = tools_used_in_conversation w.
Proof.
  intros Hc. pose proof (process_message_first_answer u w otools Hc) as H.
  split; [| split; [| split]]; [| | | repeat split].
  - intros status Hg. rewrite H, Hg. reflexivity.
  - intros reason Hg. rewrite H, Hg. reflexivity.
  - intros body e Hg He. rewrite H, Hg. cbn [gateway_answer]. cbv zeta.
    unfold bind at 1. unfold lift at 1. unfold py_contains, dict_has. rewrite He.
    unfold bind, lift, py_item. rewrite He. reflexivity.
Qed.

(** X7: a turn in which the assistant asks for no tool.  The content of the
    answer is returned, the conversation has grown by the user turn and the
    assistant message, and the tool server and the tools-used record are
    untouched.  An answer without [content] raises [KeyError], after the
    assistant message has been appended. *)
Theorem turn_without_tools u w otools response msg requested :
  convert_tools_for_openai (available_tools w) = Return otools ->
  gateway w (gateway_log w ++ [first_request u otools w]) = Http200 response ->
  py_contains "error" response = Return false ->
  first_message response = Return msg ->
  py_get msg "tool_calls" = Return requested -> truthy requested = false ->
  process_message u w =
    (match py_item msg "content" with
     | Return content => Return content
     | _ => Raise KeyError
     end, appended msg (asked u otools w)) /\
  conversation_history (appended msg (asked u otools w)) =
    conversation_history w ++ [user_turn u; msg] /\
  gateway_log (appended msg (asked u otools w)) =
    gateway_log w ++ [first_request u otools w] /\
  process (appended msg (asked u otools w)) = process w /\
  message_id (appended msg (asked u otools w)) = message_id w /\
  tools_used_in_conversation (appended msg (asked u otools w)) =
    tools_used_in_conversation w.
Proof.
  intros Hc Hg He Hm Ht Hf.
  split; [| split; [| repeat split]].
  - rewrite (process_message_first_answer u w otools Hc), Hg.
    cbn [gateway_answer]. cbv zeta.
    unfold bind at 1. unfold lift at 1. rewrite He.
    unfold bind at 1. unfold lift at 1. rewrite Hm.
    unfold bind at 1. unfold lift at 1. rewrite Ht. rewrite Hf.
    unfold bind, append_history, modify, lift.
    destruct msg as [| | | | | d]; try discriminate.
    unfold py_item. destruct (dict_get "content" d); reflexivity.
  - unfold appended, asked. cbn [conversation_history set_conversation_history set_gateway].
    rewrite <- app_assoc. reflexivity.
Qed.

Lemma tool_round_follow_up_fails msg tc calls w used results w2 body e :
  py_get msg "tool_calls" = Return tc -> truthy tc = true ->
  py_iter tc = Return calls ->
  for_tool_calls calls [] [] w = (Return (used, results), w2) ->
  gateway_answer (gateway w2 (gateway_log w2 ++ [follow_up_request msg results w2])) =
    JObj body ->
  dict_get "error" body = Some e ->
  tool_round msg w =
    (Return (JStr ("Error in final response: " ++ py_str e)%string),
     followed_up w2 msg results).
Proof.
  intros Ht Htr Hi Hf Hg He.
  unfold tool_round.
  unfold bind at 1. unfold lift at 1. rewrite (tool_calls_item _ _ Ht Htr).
  unfold bind at 1. unfold lift at 1. rewrite Hi.
  rewrite (bind_Return _ _ _ _ _ Hf). cbn [fst snd].
  unfold bind at 1. unfold append_history at 1. unfold modify at 1.
  unfold bind at 1. unfold append_history at 1. unfold modify at 1.
  unfold bind at 1. unfold gets at 1.
  cbn [conversation_history set_conversation_history].
  erewrite bind_Return by apply chat_completion_eq.
  cbn [gateway gateway_log set_conversation_history].
  assert (Hg' : gateway_answer
                  (gateway w2
                     (gateway_log w2 ++
                      [mkPayload ((conversation_history w2 ++ [msg]) ++
                                  [tool_results_turn results]) None])) = JObj body)
    by (rewrite <- app_assoc; exact Hg).
  unfold tool_results_turn in Hg'. rewrite Hg'.
  unfold bind at 1. unfold lift at 1. unfold py_contains, dict_has. rewrite He.
  unfold bind, lift, py_item, ret. rewrite He. f_equal.
  unfold followed_up.
  cbn [gateway gateway_log conversation_history set_conversation_history set_gateway].
  rewrite <- !app_assoc. reflexivity.
Qed.

(** X8: when the follow-up request after the tool calls fails (the POST
    fails, the status is not 200, or the body has an [error] field),
    [process_message] returns the text ["Error in final response: ..."].  The
    assistant message and the tool results stay in the conversation, but the
    tools that were called in the turn are not added to the tools-used
    record. *)
Theorem follow_up_error_forgets_the_tools
    u w otools msg calls used results w2 body e :
  requests_tools u w otools msg calls ->
  for_tool_calls calls [] [] (asked u otools w) = (Return (used, results), w2) ->
  gateway_answer (gateway w2 (gateway_log w2 ++ [follow_up_request msg results w2])) =
    JObj body ->
  dict_get "error" body = Some e ->
  process_message u w =
    (Return (JStr ("Error in final response: " ++ py_str e)%string),
     followed_up w2 msg results) /\
  tools_used_in_conversation (followed_up w2 msg results) =
    tools_used_in_conversation w /\
  conversation_history (followed_up w2 msg results) =
    conversation_history w ++ [user_turn u; msg; tool_results_turn results] /\
  gateway_log (followed_up w2 msg results) =
    gateway_log w ++ [first_request u otools w; follow_up_request msg results w2] /\
  process (followed_up w2 msg results) = process w2.
Proof.
  intros Hreq Hcalls Hg He.
  pose proof Hreq as (_ & resp & tc & _ & _ & _ & Ht & Htr & Hi).
  pose proof (for_tool_calls_frame _ _ _ _ _ _ Hcalls) as Ho.
  unfold orchestrator_state in Ho.
  assert (Hu : tools_used_in_conversation w2 = tools_used_in_conversation (asked u otools w))
    by congruence.
  assert (Hh : conversation_history w2 = conversation_history (asked u otools w))
    by congruence.
  assert (Hl : gateway_log w2 = gateway_log (asked u otools w)) by congruence.
  split; [| split; [| split; [| split]]].
  - rewrite (process_message_asks _ _ _ _ _ Hreq).
    eapply tool_round_follow_up_fails; eauto.
  - unfold followed_up.
    cbn [tools_used_in_conversation set_gateway set_conversation_history].
    rewrite Hu. reflexivity.
  - unfold followed_up.
    cbn [conversation_history set_gateway set_conversation_history].
    rewrite Hh, asked_history, <- app_assoc. reflexivity.
  - unfold followed_up. cbn [gateway_log set_gateway set_conversation_history].
    rewrite Hl. unfold asked. cbn [gateway_log set_gateway].
    rewrite <- app_assoc. reflexivity.
  - reflexivity.
Qed.

(** ** The conversation only grows *)

Lemma history_grown_frame k h0 u w w' :
  conversation_history w' = conversation_history w ->
  history_grown k h0 u w -> history_grown k h0 u w'.
Proof. intros E (extra & H & Hk). exists extra. rewrite E. auto. Qed.

Lemma history_grown_mono k k' h0 u w :
  k <= k' -> history_grown k h0 u w -> history_grown k' h0 u w.
Proof. intros Hle (extra & H & Hk). exists extra. split; [exact H | lia]. Qed.

Lemma append_history_grows k h0 u m w :
  history_grown k h0 u w -> history_grown (S k) h0 u (snd (append_history m w)).
Proof.
  intros (extra & H & Hk). exists (extra ++ [m]). simpl. rewrite H, <- app_assoc.
  split; [reflexivity |]. rewrite length_app. simpl. lia.
Qed.

Lemma chat_completion_history k h0 u h t :
  preserves (history_grown k h0 u) (chat_completion h t).
Proof.
  intros w H. eapply history_grown_frame; [| exact H].
  rewrite chat_completion_eq. reflexivity.
Qed.

Lemma for_tool_calls_history k h0 u calls used results :
  preserves (history_grown k h0 u) (for_tool_calls calls used results).
Proof.
  intros w H. eapply history_grown_frame; [| exact H].
  pose proof (for_tool_calls_orchestrator calls used results w) as Ho.
  unfold orchestrator_state in Ho. congruence.
Qed.

Lemma tool_round_history h0 u msg w :
  history_grown 0 h0 u w -> history_grown 3 h0 u (snd (tool_round msg w)).
Proof.
  revert w. unfold tool_round.
  apply within_bind with (Q := history_grown 0 h0 u);
    [apply preserves_lift | intros w; apply history_grown_mono; lia | intros tc].
  apply within_bind with (Q := history_grown 0 h0 u);
    [apply preserves_lift | intros w; apply history_grown_mono; lia | intros calls].
  apply within_bind with (Q := history_grown 0 h0 u);
    [apply for_tool_calls_history | intros w; apply history_grown_mono; lia | intros r].
  apply within_bind with (Q := history_grown 1 h0 u);
    [intros w; apply append_history_grows | intros w; apply history_grown_mono; lia
    | intros _].
  apply within_bind with (Q := history_grown 2 h0 u);
    [intros w; apply append_history_grows | intros w; apply history_grown_mono; lia
    | intros _].
  apply within_bind with (Q := history_grown 2 h0 u);
    [apply preserves_gets | intros w; apply history_grown_mono; lia | intros h].
  apply within_bind with (Q := history_grown 2 h0 u);
    [apply chat_completion_history | intros w; apply history_grown_mono; lia
    | intros resp].
  apply within_bind with (Q := history_grown 2 h0 u);
    [apply preserves_lift | intros w; apply history_grown_mono; lia | intros failed].
  destruct failed.
  - intros w H. apply history_grown_mono with (k := 2); [lia |]. revert w H.
    change (preserves (history_grown 2 h0 u)
              (e <- lift (py_item resp "error") ;;
               ret (JStr ("Error in final response: " ++ py_str e)%string))).
    pres.
  - apply within_bind with (Q := history_grown 2 h0 u);
      [apply preserves_lift | intros w; apply history_grown_mono; lia | intros fm].
    apply within_bind with (Q := history_grown 3 h0 u);
      [intros w; apply append_history_grows | auto | intros _].
    change (preserves (history_grown 3 h0 u)
              (modify (fun w => set_tools_used_in_conversation
                                  (tools_used_in_conversation w ++ fst r) w) ;;;
               lift (py_item fm "content"))).
    pres. apply preserves_modify. intros w H.
    eapply history_grown_frame; [| exact H]. reflexivity.
Qed.

(** X9: a turn only appends to the conversation.  Whatever happens in
    [process_message] (a value, an exception), the conversation afterwards is
    the one before, followed by the user turn and at most three more entries;
    nothing recorded earlier is changed or removed, also when the turn
    fails. *)
Theorem turn_only_appends u w :
  exists extra,
    conversation_history (snd (process_message u w)) =
      conversation_history w ++ user_turn u :: extra /\
    List.length extra <= 3.
Proof.
  change (history_grown 3 (conversation_history w) u (snd (process_message u w))).
  assert (H0 : conversation_history w = conversation_history w) by reflexivity.
  revert H0. generalize (conversation_history w) at 2 3. intros h0. revert w.
  unfold process_message.
  apply within_bind with (Q := history_grown 0 h0 u).
  { intros w H. exists []. simpl. rewrite H. split; [reflexivity | simpl; lia]. }
  { intros w; apply history_grown_mono; lia. }
  intros _.
  apply within_bind with (Q := history_grown 0 h0 u);
    [apply preserves_gets | intros w; apply history_grown_mono; lia | intros av].
  apply within_bind with (Q := history_grown 0 h0 u);
    [apply preserves_lift | intros w; apply history_grown_mono; lia | intros ot].
  apply within_bind with (Q := history_grown 0 h0 u);
    [apply preserves_gets | intros w; apply history_grown_mono; lia | intros h].
  apply within_bind with (Q := history_grown 0 h0 u);
    [apply chat_completion_history | intros w; apply history_grown_mono; lia
    | intros resp].
  apply within_bind with (Q := history_grown 0 h0 u);
    [apply preserves_lift | intros w; apply history_grown_mono; lia | intros failed].
  destruct failed.
  - intros w H. apply history_grown_mono with (k := 0); [lia |]. revert w H.
    change (preserves (history_grown 0 h0 u)
              (e <- lift (py_item resp "error") ;; ret (JStr ("Error: " ++ py_str e)%string))).
    pres.
  - apply within_bind with (Q := history_grown 0 h0 u);
      [apply preserves_lift | intros w; apply history_grown_mono; lia | intros msg].
    apply within_bind with (Q := history_grown 0 h0 u);
      [apply preserves_lift | intros w; apply history_grown_mono; lia | intros requested].
    destruct (truthy requested).
    + intros w H. apply tool_round_history, H.
    + apply within_bind with (Q := history_grown 1 h0 u);
        [intros w; apply append_history_grows | intros w; apply history_grown_mono; lia
        | intros _].
      intros w H. apply history_grown_mono with (k := 1); [lia |].
      apply (preserves_lift (history_grown 1 h0 u)). exact H.
Qed.

(** * Further properties of the tool bridge and of the tool calls *)

Lemma convert_tools_follow_names items names :
  omap (fun tool => py_item tool "name") items = Return names ->
  exists out,
    omap convert_tool items = Return out /\
    Forall2 bridges items out /\
    omap schema_name out = Return names.
Proof.
  revert names. induction items as [| tool items IH]; intros names H.
  - simpl in H. injection H as <-. exists []. repeat split. constructor.
  - cbn [omap] in H.
    destruct (py_item tool "name") as [name | |] eqn:Hn; simpl in H; try discriminate.
    destruct (omap (fun tool => py_item tool "name") items) as [rest | |] eqn:Hr;
      simpl in H; try discriminate.
    injection H as <-.
    destruct (IH rest eq_refl) as (out & Ho & Hb & Hs).
    destruct tool as [| | | | | d]; simpl in Hn; try discriminate.
    destruct (dict_get "name" d) as [name' |] eqn:Hd; try discriminate.
    injection Hn as ->.
    destruct (dict_get "inputSchema" d) as [schema |] eqn:Hi.
    + eexists. cbn [omap].
      rewrite (convert_tool_with_schema d name schema Hd Hi), Ho. simpl.
      split; [reflexivity |]. split.
      * constructor; [| exact Hb].
        eexists; eexists. split; [reflexivity |]. split; [reflexivity |].
        rewrite Hd, Hi. repeat split.
      * cbn [omap]. rewrite Hs. reflexivity.
    + eexists. cbn [omap].
      rewrite (convert_tool_without_schema d name Hd Hi), Ho. simpl.
      split; [reflexivity |]. split.
      * constructor; [| exact Hb].
        eexists; eexists. split; [reflexivity |]. split; [reflexivity |].
        rewrite Hd, Hi. repeat split.
      * cbn [omap]. rewrite Hs. reflexivity.
Qed.

(** X10: the tool bridge succeeds on every tool list whose names can be
    read (the list comprehension that [start] evaluates for its log).  It
    then yields one schema per tool, in order; each schema carries the tool's
    name, its description (the empty string when there is none) and, as
    [parameters], exactly the tool's [inputSchema], present or absent; the
    names read back off the schemas are the names of the tools. *)
Theorem tool_bridge_follows_the_tools ts names :
  tool_names ts = Return names ->
  exists items out,
    py_iter ts = Return items /\
    convert_tools_for_openai ts = Return out /\
    Forall2 bridges items out /\
    omap schema_name out = Return names.
Proof.
  unfold tool_names, convert_tools_for_openai. intros H.
  destruct (py_iter ts) as [items | |]; simpl in H; try discriminate.
  destruct (convert_tools_follow_names items names H) as (out & Ho & Hb & Hs).
  exists items, out. simpl. auto.
Qed.

Lemma read_response_written w p :
  process w = Some p ->
  exists p', process (snd (read_response w)) = Some p' /\
             stdin_written p' = stdin_written p.
Proof.
  intros Hp.
  apply (read_response_preserves
           (fun w' => exists p', process w' = Some p' /\
                                 stdin_written p' = stdin_written p)).
  - intros l w0 p0 Hp0 (p' & Hp' & Hw). eexists. split; [reflexivity |].
    simpl. congruence.
  - eauto.
Qed.

(** A call of a tool that comes back has written one line. *)
Lemma call_tool_writes name args w p result w' :
  process w = Some p ->
  call_tool name args w = (Return result, w') ->
  exists p',
    process w' = Some p' /\
    stdin_written p' =
      stdin_written p ++
      [wire_line (message_dict (stamped (call_request name args) (message_id w + 1)))] /\
    message_id w' = message_id w + 1.
Proof.
  intros Hp Hc.
  pose proof (send_request_message_id (call_request name args) w p Hp) as Hid.
  unfold call_tool in Hc. fold (call_request name args) in Hc.
  destruct (stdin_budget p) as [[| b] |] eqn:Hb.
  1: { rewrite (bind_Raise _ _ _ _ _
                  (send_request_broken_pipe (call_request name args) w p Hp Hb)) in Hc.
       discriminate. }
  all: assert (Hb' : stdin_budget p <> Some 0) by congruence;
    rewrite (send_request_eq _ w p Hp Hb') in Hid;
    unfold bind in Hc; rewrite (send_request_eq _ w p Hp Hb') in Hc;
    destruct (read_response_written (after_send (call_request name args) p w) _ eq_refl)
      as (p' & Hp' & Hw);
    destruct (read_response (after_send (call_request name args) p w))
      as [[[r |] | e |] w1]; try discriminate;
    simpl in Hp', Hid;
    (destruct (negb (truthy (error r))) in Hc || idtac);
    injection Hc as _ <-;
    exists p'; (split; [exact Hp' |]); (split; [| exact Hid]);
    rewrite Hw; reflexivity.
Qed.

Lemma for_tool_calls_in_order calls : forall used results w p used' results' w',
  process w = Some p ->
  for_tool_calls calls used results w = (Return (used', results'), w') ->
  exists requested p',
    Forall2 asks_for calls requested /\
    used' = used ++ map fst requested /\
    process w' = Some p' /\
    stdin_written p' = stdin_written p ++ call_lines (message_id w) requested /\
    message_id w' = message_id w + List.length calls /\
    List.length results' = List.length results + List.length calls.
Proof.
  induction calls as [| c calls IH]; intros used results w p used' results' w' Hp H.
  - simpl in H. injection H as <- <- <-. exists [], p. simpl.
    rewrite !app_nil_r, !Nat.add_0_r. repeat split; auto.
  - cbn [for_tool_calls] in H. unfold bind at 1 in H. unfold lift at 1 in H.
    destruct (py_item c "function") as [f | e |] eqn:Hf; try discriminate.
    unfold bind at 1 in H. unfold lift at 1 in H.
    destruct (py_item f "name") as [n | e |] eqn:Hn; try discriminate.
    unfold bind at 1 in H. unfold lift at 1 in H.
    destruct (py_item f "arguments") as [a | e |] eqn:Ha; try discriminate.
    unfold bind at 1 in H. unfold lift at 1 in H.
    destruct (loads a) as [args | e |] eqn:Hl; try discriminate.
    unfold bind at 1 in H.
    destruct (call_tool n args w) as [[r | e |] w1] eqn:Hc; try discriminate.
    destruct (call_tool_writes _ _ _ _ _ _ Hp Hc) as (p1 & Hp1 & Hw1 & Hid1).
    destruct (IH _ _ _ _ _ _ _ Hp1 H) as (requested & p' & Hr & Hu & Hp' & Hw & Hid & Hlen).
    exists ((n, args) :: requested), p'.
    split; [| split; [| split; [| split; [| split]]]].
    + constructor; [| exact Hr]. exists a. split; [| exact Hl]. exists f. auto.
    + rewrite Hu, <- app_assoc. reflexivity.
    + exact Hp'.
    + rewrite Hw, Hw1, Hid1, <- app_assoc. reflexivity.
    + rewrite Hid, Hid1. simpl. lia.
    + rewrite Hlen, length_app. simpl. lia.
Qed.

(** X12: the tool calls of an assistant message are run in the order it
    lists them.  When the loop over them comes back, every call has put
    exactly one [tools/call] request on the wire, with the name and the parsed
    arguments of the call and the next id in sequence; the tools used in the
    turn are the names of the calls in that order, and one result line has
    been collected per call. *)
Theorem tool_calls_run_in_order calls used results w p used' results' w' :
  process w = Some p ->
  for_tool_calls calls used results w = (Return (used', results'), w') ->
  exists requested p',
    Forall2 asks_for calls requested /\
    used' = used ++ map fst requested /\
    process w' = Some p' /\
    stdin_written p' = stdin_written p ++ call_lines (message_id w) requested /\
    message_id w' = message_id w + List.length calls /\
    List.length results' = List.length results + List.length calls.
Proof. apply for_tool_calls_in_order. Qed.

(** * Further properties of the run loops and of [main] *)

(** ** Exceptions that [except Exception] catches *)







































(** ** The session after a successful start *)

Lemma client_orchestrator w0 :
  (forall n w, orchestrator_state w = orchestrator_state w0 ->
               orchestrator_state (set_message_id n w) = orchestrator_state w0) /\
  (forall data w p, process w = Some p -> orchestrator_state w = orchestrator_state w0 ->
     orchestrator_state (set_process (Some (push_stdin data p)) w) = orchestrator_state w0) /\
  (forall l w p, process w = Some p -> orchestrator_state w = orchestrator_state w0 ->
     orchestrator_state (set_process (Some (set_stdout_lines l p)) w) = orchestrator_state w0).
Proof. repeat split; intros; assumption. Qed.

Lemma start_succeeded w0 w1 :
  start w0 = (Return tt, w1) ->
  exists names sm,
    tool_names (available_tools w1) = Return names /\
    create_system_message (available_tools w1) = Return sm /\
    conversation_history w1 = conversation_history w0 ++ [sm].
Proof.
  intros H. unfold start in H.
  destruct (client_orchestrator w0) as (C1 & C2 & C3).
  assert (Ha : orchestrator_state (snd (client_start w0)) = orchestrator_state w0).
  { unfold client_start, bind, gets, modify, raise.
    destruct (os_spawn w0) as [p |]; [| reflexivity].
    apply (initialize_preserves _ C1 C2 C3). reflexivity. }
  unfold bind at 1 in H.
  destruct (client_start w0) as [[[] | e |] wa]; try discriminate. simpl in Ha.
  pose proof (list_tools_preserves _ C1 C2 C3 wa Ha) as Hb.
  unfold bind at 1 in H.
  destruct (list_tools wa) as [[ts | e |] wb]; try discriminate. simpl in Hb.
  unfold bind at 1 in H. unfold modify at 1 in H.
  unfold bind at 1 in H. unfold lift at 1 in H.
  destruct (tool_names ts) as [names | e |] eqn:Hn; try discriminate.
  unfold bind at 1 in H. unfold lift at 1 in H.
  destruct (create_system_message ts) as [sm | e |] eqn:Hsm; try discriminate.
  unfold modify in H. cbv beta in H. injection H as <-.
  exists names, sm. cbn [available_tools conversation_history
                          set_conversation_history set_available_tools].
  split; [exact Hn |]. split; [exact Hsm |].
  unfold orchestrator_state in Hb. injection Hb as _ Hh _ _ _ _ _ _.
  rewrite Hh. reflexivity.
Qed.

Lemma opens_with_frame sm ts w w' :
  available_tools w' = available_tools w ->
  (exists more, conversation_history w' = conversation_history w ++ more) ->
  opens_with sm ts w -> opens_with sm ts w'.
Proof.
  intros Ha (more & Hh) (Ht & extra & He). split; [congruence |].
  exists (extra ++ more). rewrite Hh, He. reflexivity.
Qed.

Ltac opens_frame :=
  apply preserves_modify; intros ? ?; eapply opens_with_frame;
  [.. | eassumption]; [reflexivity | first [exists []; symmetry; apply app_nil_r
                                          | eexists; reflexivity]].

Lemma process_message_opens sm ts u : preserves (opens_with sm ts) (process_message u).
Proof.
  apply process_message_preserves.
  - intros name args w H. pose proof (call_tool_orchestrator name args w) as Ho.
    unfold orchestrator_state in Ho. injection Ho as Ha Hh _ _ _ _ _ _.
    eapply opens_with_frame; [exact Ha | | exact H].
    exists []. rewrite Hh. symmetry. apply app_nil_r.
  - intros m. unfold append_history. opens_frame.
  - intros h t. unfold chat_completion. pres. opens_frame.
  - intros more. opens_frame.
Qed.

Lemma stop_opens sm ts : preserves (opens_with sm ts) stop.
Proof.
  intros w H. unfold stop, client_stop, bind, gets, modify, ret, raise.
  destruct (process w) as [p |]; simpl; [| exact H].
  destruct (exited p); simpl;
    (eapply opens_with_frame; [| | exact H];
     [reflexivity | exists []; symmetry; apply app_nil_r]).
Qed.

Lemma run_opens sm ts mode inputs :
  preserves (opens_with sm ts)
    (match mode with
     | interactive => run_interactive inputs
     | stdio => run_stdio inputs
     end).
Proof.
  destruct mode.
  - apply run_interactive_preserves; auto using process_message_opens, stop_opens.
  - apply run_stdio_preserves; auto using stop_opens.
    + intros u. unfold stdio_turn, print. pres;
        try apply process_message_opens; opens_frame.
    + intros e. unfold stdio_turn_failed, print. pres. opens_frame.
Qed.

(** X11: when [start] succeeds on a chatbot whose conversation is still
    empty, the conversation consists of the system message built from the
    tools the server listed.  For the rest of the session, in either mode and
    however it ends, that message stays the first entry of the conversation
    and the list of available tools is never replaced. *)
Theorem system_message_stays_first mode inputs w0 w1 :
  conversation_history w0 = [] ->
  start w0 = (Return tt, w1) ->
  exists sm,
    create_system_message (available_tools w1) = Return sm /\
    conversation_history w1 = [sm] /\
    opens_with sm (available_tools w1) (snd (main mode inputs w0)).
Proof.
  intros H0 Hs.
  destruct (start_succeeded w0 w1 Hs) as (names & sm & _ & Hsm & Hh).
  rewrite H0 in Hh. simpl in Hh.
  exists sm. split; [exact Hsm |]. split; [exact Hh |].
  assert (H1 : opens_with sm (available_tools w1) w1).
  { split; [reflexivity |]. exists []. exact Hh. }
  pose proof (run_opens sm (available_tools w1) mode inputs w1 H1) as Hr.
  unfold main, try_except. rewrite (bind_Return _ _ _ _ _ Hs).
  destruct (match mode with
            | interactive => run_interactive inputs
            | stdio => run_stdio inputs
            end w1) as [[[] | e |] w2]; simpl in *; try exact Hr.
  destruct e; simpl; exact Hr.
Qed.

(** ** How the loops end *)



Lemma child_gone_frame b w w' :
  option_map exited (process w') = option_map exited (process w) ->
  child_gone w = b -> child_gone w' = b.
Proof.
  unfold child_gone. intros He <-.
  destruct (process w), (process w'); simpl in He; congruence.
Qed.








Lemma start_child_gone w0 :
  child_gone (snd (start w0)) =
  match os_spawn w0 with
  | Some p => exited p
  | None => child_gone w0
  end.
Proof.
  assert (Hclient : forall b,
            (forall k w, child_gone w = b -> child_gone (set_message_id k w) = b) /\
            (forall data w p, process w = Some p -> child_gone w = b ->
               child_gone (set_process (Some (push_stdin data p)) w) = b) /\
            (forall l w p, process w = Some p -> child_gone w = b ->
               child_gone (set_process (Some (set_stdout_lines l p)) w) = b)).
  { intros b. repeat split; intros; (eapply child_gone_frame; [| eassumption]);
      simpl; rewrite ?H; reflexivity. }
  unfold start, client_start.
  unfold bind at 1. unfold bind at 1. unfold gets at 1.
  destruct (os_spawn w0) as [p |]; [| reflexivity].
  unfold bind at 1. unfold modify at 1.
  set (w1 := set_process (Some p) w0).
  destruct (Hclient (exited p)) as (C1 & C2 & C3).
  pose proof (initialize_preserves _ C1 C2 C3 w1 eq_refl) as Hi.
  destruct (initialize w1) as [[[] | e |] wa]; simpl in Hi |- *; try exact Hi.
  revert wa Hi.
  change (preserves (fun w => child_gone w = exited p)
            (ts <- list_tools ;;
             modify (set_available_tools ts) ;;;
             _ <- lift (tool_names ts) ;;
             system_message <- lift (create_system_message ts) ;;
             modify (fun w => set_conversation_history
                                (conversation_history w ++ [system_message]) w))).
  pres; try (frame_modify child_gone_frame).
  apply list_tools_preserves; assumption.
Qed.





(** ** What the completion endpoint is sent *)

Lemma endpoint_inv_frame w w' :
  gateway_log w' = gateway_log w ->
  (exists more, conversation_history w' = conversation_history w ++ more) ->
  endpoint_inv w -> endpoint_inv w'.
Proof.
  intros Hl (more & Hh) (Hs & Hf). unfold endpoint_inv. rewrite Hl.
  split; [exact Hs |].
  eapply Forall_impl; [| exact Hf]. intros p (m & Hm).
  exists (m ++ more). rewrite Hh, Hm, app_assoc. reflexivity.
Qed.

Ltac endpoint_frame :=
  apply preserves_modify; intros ? ?; eapply endpoint_inv_frame;
  [.. | eassumption]; [reflexivity | first [exists []; symmetry; apply app_nil_r
                                          | eexists; reflexivity]].

Lemma StronglySorted_snoc_rel {A} (R : A -> A -> Prop) l x :
  StronglySorted R l -> Forall (fun y => R y x) l -> StronglySorted R (l ++ [x]).
Proof.
  induction 1 as [| a l Hl IH Ha]; intros Hx; simpl.
  - repeat constructor.
  - inversion Hx; subst. constructor; [apply IH; assumption |].
    apply Forall_app. split; [assumption | constructor; [assumption | constructor]].
Qed.

(** A request that carries the conversation as it stands. *)
Lemma chat_with_history {A} t (k : json -> M A) :
  (forall r, preserves endpoint_inv (k r)) ->
  preserves endpoint_inv
    (history <- gets conversation_history ;;
     response <- chat_completion history t ;;
     k response).
Proof.
  intros Hk w (Hs & Hf). unfold bind at 1. unfold gets at 1.
  rewrite (bind_Return _ _ _ _ _ (chat_completion_eq (conversation_history w) t w)).
  apply Hk. split; cbn [gateway_log conversation_history set_gateway].
  - apply StronglySorted_snoc_rel; [exact Hs |].
    eapply Forall_impl; [| exact Hf]. intros p Hp. exact Hp.
  - apply Forall_app. split; [exact Hf |].
    constructor; [| constructor]. exists []. symmetry. apply app_nil_r.
Qed.

Lemma call_tool_endpoint name args : preserves endpoint_inv (call_tool name args).
Proof.
  intros w H. pose proof (call_tool_orchestrator name args w) as Ho.
  unfold orchestrator_state in Ho. injection Ho as _ Hh _ _ _ _ Hl _.
  eapply endpoint_inv_frame; [exact Hl | | exact H].
  exists []. rewrite Hh. symmetry. apply app_nil_r.
Qed.

Lemma append_history_endpoint m : preserves endpoint_inv (append_history m).
Proof. unfold append_history. endpoint_frame. Qed.

Lemma tool_round_endpoint msg : preserves endpoint_inv (tool_round msg).
Proof.
  unfold tool_round.
  apply preserves_bind; [apply preserves_lift | intros tc].
  apply preserves_bind; [apply preserves_lift | intros calls].
  apply preserves_bind;
    [apply for_tool_calls_preserves, call_tool_endpoint | intros r].
  apply preserves_bind; [apply append_history_endpoint | intros _].
  apply preserves_bind; [apply append_history_endpoint | intros _].
  apply chat_with_history. intros resp.
  pres; try apply append_history_endpoint. endpoint_frame.
Qed.

Lemma process_message_endpoint u : preserves endpoint_inv (process_message u).
Proof.
  unfold process_message.
  apply preserves_bind; [apply append_history_endpoint | intros _].
  apply preserves_bind; [apply preserves_gets | intros av].
  apply preserves_bind; [apply preserves_lift | intros ot].
  apply chat_with_history. intros resp.
  pres; try apply append_history_endpoint. apply tool_round_endpoint.
Qed.

Lemma main_endpoint mode inputs : preserves endpoint_inv (main mode inputs).
Proof.
  assert (Hstop : preserves endpoint_inv stop).
  { intros w H. unfold stop, client_stop, bind, gets, modify, ret, raise.
    destruct (process w) as [p |]; simpl; [| exact H].
    destruct (exited p); simpl;
      (eapply endpoint_inv_frame; [| | exact H];
       [reflexivity | exists []; symmetry; apply app_nil_r]). }
  assert (Hclient :
            (forall n w, endpoint_inv w -> endpoint_inv (set_message_id n w)) /\
            (forall data w p, process w = Some p -> endpoint_inv w ->
               endpoint_inv (set_process (Some (push_stdin data p)) w)) /\
            (forall l w p, process w = Some p -> endpoint_inv w ->
               endpoint_inv (set_process (Some (set_stdout_lines l p)) w))).
  { repeat split; intros; (eapply endpoint_inv_frame; [| | eassumption];
      [reflexivity | exists []; symmetry; apply app_nil_r]). }
  destruct Hclient as (C1 & C2 & C3).
  unfold main. apply preserves_try_except.
  - apply preserves_bind.
    + unfold start, client_start. pres; try endpoint_frame.
      * apply initialize_preserves; assumption.
      * apply list_tools_preserves; assumption.
    + intros _. destruct mode.
      * apply run_interactive_preserves; auto using process_message_endpoint.
      * apply run_stdio_preserves; auto.
        -- intros u. unfold stdio_turn, print. pres;
             try apply process_message_endpoint; endpoint_frame.
        -- intros e. unfold stdio_turn_failed, print. pres. endpoint_frame.
  - intros e k Hk. destruct e; simpl in Hk; try discriminate; injection Hk as <-;
      try apply preserves_ret; apply preserves_raise.
Qed.

(** X16: the completion endpoint is always sent the whole conversation, and
    nothing it has been sent is taken back.  Over a whole session, in either
    mode and however it ends, every request to the endpoint carries the
    messages of every earlier request as they were, followed by the newer
    ones, and the conversation at the end still begins with the messages of
    each request. *)
Theorem endpoint_sees_the_whole_conversation mode inputs spawn g :
  let w := snd (main mode inputs (new_session spawn g)) in
  StronglySorted extends (gateway_log w) /\
  Forall (fun p => exists more, conversation_history w = messages p ++ more)
    (gateway_log w).
Proof.
  apply (main_endpoint mode inputs (new_session spawn g)).
  split; constructor.
Qed.

(** ** The system message *)

Lemma describe_tool_returns tool :
  (exists line, describe_tool tool = Return line) <-> describable tool = true.
Proof.
  unfold describe_tool, describable.
  destruct tool as [| | | | | d]; simpl;
    try (split; [intros [line H]; discriminate | discriminate]).
  unfold dict_has.
  destruct (dict_get "name" d) as [name |]; simpl;
    [| split; [intros [line H]; discriminate | discriminate]].
  destruct (dict_get "inputSchema" d) as [schema |]; simpl;
    [| split; eauto].
  destruct schema as [| | | | | s]; simpl;
    try (split; [intros [line H]; discriminate | discriminate]).
  destruct (dict_get "properties" s) as [ps |]; simpl; [| split; eauto].
  destruct (truthy ps) eqn:Ht; simpl; [| split; eauto].
  destruct ps; simpl;
    try (split; [intros [line H]; discriminate | discriminate]).
  split; eauto.
Qed.

Lemma omap_describe_tool items :
  (exists lines, omap describe_tool items = Return lines) <->
  forallb describable items = true.
Proof.
  induction items as [| tool items IH]; simpl.
  - split; eauto.
  - rewrite andb_true_iff, <- IH, <- describe_tool_returns. split.
    + intros [lines H].
      destruct (describe_tool tool) as [line | |]; simpl in H; try discriminate.
      destruct (omap describe_tool items) as [rest | |]; simpl in H; try discriminate.
      eauto.
    + intros [[line Hl] [rest Hr]]. rewrite Hl, Hr. simpl. eauto.
Qed.

(** X17: [create_system_message], and with it [start], depends on more than
    the tool bridge does.  It returns exactly when every tool is a dict with a
    [name] whose [inputSchema], if present, is a dict whose [properties], if
    non-empty, form a dict; otherwise it raises.  When it returns, the result
    is a message of role [system] whose text lists one line per tool, in
    order, or says that no tools are available. *)
Theorem system_message_needs_describable_tools items :
  ((exists sm, create_system_message (JArr items) = Return sm) <->
   forallb describable items = true) /\
  (forall sm, create_system_message (JArr items) = Return sm ->
     exists lines,
       omap describe_tool items = Return lines /\
       List.length lines = List.length items /\
       sm = JObj [("role", JStr "system");
                  ("content",
                   JStr (system_prompt
                           (match items with
                            | [] => "No tools available"
                            | _ => join newline lines
                            end)))]).
Proof.
  unfold create_system_message. simpl. split.
  - rewrite <- omap_describe_tool. split.
    + intros [sm H].
      destruct (omap describe_tool items) as [lines | |]; simpl in H; try discriminate.
      eauto.
    + intros [lines ->]. simpl. eauto.
  - intros sm H.
    destruct (omap describe_tool items) as [lines | |] eqn:Ho; simpl in H;
      try discriminate.
    exists lines. split; [reflexivity |].
    pose proof (omap_length _ _ _ Ho) as Hlen. split; [exact Hlen |].
    injection H as <-. destruct items, lines; simpl in Hlen; try discriminate; reflexivity.
Qed.


End Runtime.

(** * Closed examples *)

(** The next line of a sample server is read as the document a statement
    names. *)
Ltac answered :=
  do 3 eexists; split; [reflexivity |];
  split; [discriminate |]; split; [discriminate |];
  split; [let H := fresh in intro H; vm_compute in H; discriminate H |];
  split; [vm_compute; reflexivity |]; split; vm_compute; reflexivity.

(** C1 fails as stated: the descriptor [{"name": "echo", "description":
    "Echoes input"}] has no [inputSchema], and the schema produced for it has
    no [parameters] field, where the claim wants an empty parameter object. *)
Lemma convert_tools_omits_parameters :
  let tool := JObj [("name", JStr "echo"); ("description", JStr "Echoes input")] in
  py_contains "inputSchema" tool = Return false /\
  exists f,
    convert_tools_for_openai (JArr [tool]) =
      Return [JObj [("type", JStr "function"); ("function", JObj f)]] /\
    dict_get "parameters" f = None /\
    dict_get "parameters" f <> Some (JObj []).
Proof.
  simpl. split; [reflexivity |].
  eexists. split; [reflexivity |]. split; [reflexivity | discriminate].
Qed.

(** The bridge on [echo] and on a tool [ping] that has only a name. *)
Lemma convert_tools_without_inputSchema_witness :
  exists out,
    convert_tools_for_openai
      (JArr [echo_tool; JObj [("name", JStr "ping")]]) = Return out /\
    List.length out = 2 /\
    nth_error out 1 =
      Some (JObj [("type", JStr "function");
                  ("function", JObj [("name", JStr "ping"); ("description", JStr "")])]).
Proof.
  destruct (convert_tools_without_inputSchema
              [echo_tool; JObj [("name", JStr "ping")]] eq_refl)
    as [out [H1 [H2 H3]]].
  exists out. split; [exact H1 |]. split; [exact H2 |].
  destruct (H3 1 [("name", JStr "ping")] eq_refl eq_refl) as [name [f [Hn [Hf [_ Hnth]]]]].
  injection Hn as <-. subst f. exact Hnth.
Defined.


(** The lines written in the sample session. *)
Lemma requests_omit_absent_fields_witness :
  (exists ds,
     written sample_dumps
       (snd (main sample_loads sample_dumps sample_repr sample_order stdio sample_inputs
               (new_session (Some sample_server) sample_gateway))) ds /\
     Forall well_formed_line ds) /\
  (forall m k v,
     In (k, v) (message_dict m) <-> In (k, v) (message_items m) /\ v <> JNull).
Proof.
  apply requests_omit_absent_fields.
  intros p E. injection E as <-. reflexivity.
Defined.


(** [initialize] against a silent server, against one that refuses, and
    against one that accepts and then closes its input. *)
Lemma initialize_outcome_witness :
  (exists w1,
     initialize sample_loads sample_dumps sample_repr (spawned silent_server sample_gateway) =
     (Raise (Exception "Failed to initialize MCP server: No response"), w1)) /\
  (exists w1,
     initialize sample_loads sample_dumps sample_repr (spawned refusing_server sample_gateway) =
     (Raise (Exception
               "Failed to initialize MCP server: {'code': -32600, 'message': 'unsupported protocol version'}"),
      w1)) /\
  (exists w1,
     initialize sample_loads sample_dumps sample_repr (spawned closing_server sample_gateway) =
     (Return tt, w1) /\
     send_notification sample_dumps
       (new_message "notifications/initialized" (JObj [])) w1 =
     (Raise BrokenPipeError, w1)).
Proof.
  split; [| split].
  - destruct (initialize_outcome sample_loads sample_dumps sample_repr
                (spawned silent_server sample_gateway) silent_server eq_refl)
      as (Hnone & Hsilent & _); [discriminate |].
    destruct (Hsilent eq_refl) as [w1 H1]. exists w1. apply Hnone. exact H1.
  - destruct (initialize_outcome sample_loads sample_dumps sample_repr
                (spawned refusing_server sample_gateway) refusing_server eq_refl)
      as (_ & _ & Herr & _); [discriminate |].
    destruct (Herr [("jsonrpc", JStr "2.0"); ("id", JStr "0");
                    ("error", JObj [("code", JNum (-32600));
                                    ("message", JStr "unsupported protocol version")])]
                (JObj [("code", JNum (-32600));
                       ("message", JStr "unsupported protocol version")]))
      as [w1 H1]; [| | | exists w1; exact H1].
    + answered.
    + reflexivity.
    + reflexivity.
  - destruct (initialize_outcome sample_loads sample_dumps sample_repr
                (spawned closing_server sample_gateway) closing_server eq_refl)
      as (_ & _ & _ & Hok); [discriminate |].
    destruct (Hok [("jsonrpc", JStr "2.0"); ("id", JStr "0"); ("result", JObj [])])
      as (w1 & w' & _ & Hi & Hn).
    + answered.
    + reflexivity.
    + destruct (Hn eq_refl) as [Hraise ->]. exists w1. split; assumption.
Defined.

(** A session whose server refuses [initialize]. *)
Lemma startup_error_leaves_child_running_witness :
  exists w',
    main sample_loads sample_dumps sample_repr sample_order stdio []
      (new_session (Some refusing_server) sample_gateway) = (Raise (SystemExit 1), w') /\
    stopped_times 0 w'.
Proof.
  apply startup_error_leaves_child_running.
  - repeat split.
  - discriminate.
  - right. exists [("jsonrpc", JStr "2.0"); ("id", JStr "0");
                   ("error", JObj [("code", JNum (-32600));
                                   ("message", JStr "unsupported protocol version")])].
    eexists. split; [| split; reflexivity].
    answered.
Defined.

(** C10 fails as stated.  In the first session [echo] is called in both
    turns (the requests with the ids 3 and 4); the follow-up request of the
    first turn fails, so that turn records nothing, and the second turn
    reports [echo] although it had been used before.  In the second session
    the first turn calls [echo] and fails after recording it; the second turn
    calls no tool (one call only has been written) and reports [echo]. *)
Lemma tools_used_reports_only_new_tools_counterexample :
  let args := JObj [("text", JStr "hi")] in
  (let w := snd (main sample_loads sample_dumps sample_repr sample_order stdio
                   sample_inputs (new_session (Some busy_server) retry_gateway)) in
   option_map (fun p => skipn 3 (stdin_written p)) (process w) =
     Some (call_lines sample_dumps 2 [(JStr "echo", args); (JStr "echo", args)]) /\
   stdout w =
     [StdioResponse (JStr "Error in final response: API error: 503") [JStr "echo"] [];
      StdioResponse (JStr "done") [JStr "echo"] [JStr "echo"]]) /\
  (let w := snd (main sample_loads sample_dumps sample_repr sample_order stdio
                   sample_inputs (new_session (Some busy_server) terse_gateway)) in
   option_map (fun p => skipn 3 (stdin_written p)) (process w) =
     Some (call_lines sample_dumps 2 [(JStr "echo", args)]) /\
   stdout w =
     [StdioError KeyError [JStr "echo"];
      StdioResponse (JStr "hello yourself") [JStr "echo"] [JStr "echo"]]).
Proof. vm_compute. repeat split. Qed.

(** Two turns that both call [echo] and record it: the second turn does not
    report it again, and neither does a whole session of these turns. *)
Lemma tools_used_reports_only_new_tools_witness :
  let args := JObj [("text", JStr "hi")] in
  let w := ready prompt_server eager_gateway in
  let w1 := snd (stdio_turn sample_loads sample_dumps sample_repr sample_order "hello" w) in
  let w2 := snd (stdio_turn sample_loads sample_dumps sample_repr sample_order "again" w1) in
  option_map stdin_written (process w2) =
    Some (call_lines sample_dumps 2 [(JStr "echo", args); (JStr "echo", args)]) /\
  tools_used_in_conversation w2 = [JStr "echo"; JStr "echo"] /\
  reported (stdout w1) = [JStr "echo"] /\
  (exists response names used,
     stdout w2 = stdout w1 ++ [StdioResponse response names used] /\
     py_in (JStr "echo") used = false) /\
  (let w' := snd (main sample_loads sample_dumps sample_repr sample_order stdio
                    sample_inputs (new_session (Some busy_server) eager_gateway)) in
   py_distinct (reported (stdout w')) = true /\
   py_incl (reported (stdout w')) (tools_used_in_conversation w')).
Proof.
  intros args w w1 w2.
  destruct (tools_used_reports_only_new_tools sample_loads sample_dumps sample_repr
              sample_order (fun l => Permutation_refl l)) as (Hturn & _ & Hsession).
  split; [vm_compute; reflexivity |]. split; [vm_compute; reflexivity |].
  split; [vm_compute; reflexivity |]. split.
  - assert (Ht : stdio_turn sample_loads sample_dumps sample_repr sample_order "again" w1 =
                 (Return tt, w2)) by (vm_compute; reflexivity).
    destruct (Hturn "again" w1 w2 Ht) as (response & names & used & Hout & _ & Hiff & _).
    exists response, names, used. split; [exact Hout |].
    destruct (py_in (JStr "echo") used) eqn:E; [| reflexivity].
    apply Hiff in E. destruct E as [_ E]. vm_compute in E. discriminate E.
  - exact (Hsession sample_inputs (Some busy_server) eager_gateway).
Defined.

(** C2 fails as stated: the endpoint asks for [echo] with the argument text
    "not json"; [process_message] raises [JSONDecodeError] instead of
    returning, the conversation holds no tool-result turn, no second request
    goes to the endpoint, and stdio mode prints an error record for the
    turn. *)
Lemma unparsable_arguments_abort_the_turn_counterexample :
  let w0 := snd (start sample_loads sample_dumps sample_repr
                   (new_session (Some sample_server) garbling_gateway)) in
  let r := process_message sample_loads sample_dumps sample_repr "hello" w0 in
  fst r = Raise JSONDecodeError /\
  conversation_history (snd r) = conversation_history w0 ++ [user_turn "hello"] /\
  List.length (gateway_log (snd r)) = 1 /\
  stdout (snd (main sample_loads sample_dumps sample_repr sample_order stdio
                 [Line ("hello" ++ newline)%string]
                 (new_session (Some sample_server) garbling_gateway))) =
    [StdioError JSONDecodeError [JStr "echo"]].
Proof. vm_compute. repeat split. Qed.

(** The same turn, from a session that is ready. *)
Lemma unparsable_arguments_abort_the_turn_witness :
  let w := ready echo_server garbling_gateway in
  process_message sample_loads sample_dumps sample_repr "hello" w =
    (Raise JSONDecodeError, asked "hello" [echo_schema] w) /\
  conversation_history (asked "hello" [echo_schema] w) =
    conversation_history w ++ [user_turn "hello"] /\
  gateway_log (asked "hello" [echo_schema] w) =
    gateway_log w ++ [first_request "hello" [echo_schema] w].
Proof.
  intros w.
  destruct (unparsable_arguments_abort_the_turn sample_loads sample_dumps sample_repr sample_order
              "hello" w [echo_schema] (assistant JNull [tool_call "echo" "not json"])
              [] (tool_call "echo" "not json") [] (JStr "echo") "not json" [] []
              (asked "hello" [echo_schema] w))
    as (H1 & H2 & H3 & _).
  - split; [reflexivity |]. do 2 eexists. repeat split; reflexivity.
  - reflexivity.
  - eexists. repeat split; reflexivity.
  - reflexivity.
  - auto.
Defined.

(** C8 fails as stated.  In both turns the first answer of the endpoint asks
    for [echo].  In the first one the argument text is not JSON: the turn
    raises and no further request goes to the endpoint.  In the second one
    the further request is made, without tools, and fails: what the turn
    returns is an error text, not the content of an answer. *)
Lemma one_tool_round_per_turn_counterexample :
  (let w := ready echo_server garbling_gateway in
   let r := process_message sample_loads sample_dumps sample_repr "hello" w in
   garbling_gateway [first_request "hello" [echo_schema] w] =
     completion (assistant JNull [tool_call "echo" "not json"]) /\
   fst r = Raise JSONDecodeError /\
   gateway_log (snd r) = [first_request "hello" [echo_schema] w]) /\
  (let w := ready echo_server flaky_gateway in
   let r := process_message sample_loads sample_dumps sample_repr "hello" w in
   flaky_gateway [first_request "hello" [echo_schema] w] =
     completion (assistant JNull
                   [tool_call "echo" (sample_show (JObj [("text", JStr "hi")]))]) /\
   fst r = Return (JStr "Error in final response: API error: 503") /\
   map tools (gateway_log (snd r)) = [Some [echo_schema]; None]).
Proof. vm_compute. repeat split. Qed.

(** A turn whose follow-up answer asks for [echo] once more: the second
    request goes out without tools, its content is returned, and one line
    only has been written to the server. *)
Lemma one_tool_round_per_turn_witness :
  let w := ready echo_server sample_gateway in
  exists w',
    process_message sample_loads sample_dumps sample_repr "hello" w =
      (Return (JStr "done"), w') /\
    List.length (gateway_log w') = 2 /\
    map tools (gateway_log w') = [Some [echo_schema]; None] /\
    option_map (fun p => List.length (stdin_written p)) (process w') = Some 1.
Proof.
  intros w.
  set (msg := assistant JNull [tool_call "echo" (sample_show (JObj [("text", JStr "hi")]))]).
  set (fm := assistant (JStr "done")
               [tool_call "echo" (sample_show (JObj [("text", JStr "hi")]))]).
  set (r := for_tool_calls sample_loads sample_dumps sample_repr
              [tool_call "echo" (sample_show (JObj [("text", JStr "hi")]))] [] []
              (asked "hello" [echo_schema] w)).
  destruct (one_tool_round_per_turn sample_loads sample_dumps sample_repr
              "hello" w [echo_schema] msg
              [tool_call "echo" (sample_show (JObj [("text", JStr "hi")]))]
              (fst (match fst r with Return x => x | _ => ([], []) end))
              (snd (match fst r with Return x => x | _ => ([], []) end))
              (snd r) fm (JStr "done"))
    as (H1 & H2 & H3 & H4 & _).
  - split; [reflexivity |]. do 2 eexists. repeat split; reflexivity.
  - vm_compute. reflexivity.
  - eexists. repeat split; vm_compute; reflexivity.
  - eexists. split; [exact H1 |]. vm_compute. repeat split.
Defined.



(** * Closed examples for the further properties *)

(** The counter of a freshly spawned client after one request of each kind. *)
Lemma message_id_counts_requests_witness :
  let w := spawned silent_server sample_gateway in
  (forall message,
     message_id (snd (send_request sample_loads sample_dumps message w)) = 0 + 1) /\
  (forall message,
     message_id (snd (send_notification sample_dumps message w)) = 0) /\
  message_id (snd (list_tools sample_loads sample_dumps w)) = 0 + 1 /\
  (forall name args,
     message_id (snd (call_tool sample_loads sample_dumps sample_repr name args w)) = 0 + 1).
Proof.
  exact (message_id_counts_requests sample_loads sample_dumps sample_repr
           (spawned silent_server sample_gateway) silent_server eq_refl).
Defined.

(** A chatbot that has not been started. *)
Lemma client_not_started_witness :
  let w := new_session (Some sample_server) sample_gateway in
  list_tools sample_loads sample_dumps w =
    (Raise (Exception "MCP server not started"), w) /\
  stop w = (Return tt, w).
Proof.
  intros w.
  destruct (client_not_started sample_loads sample_dumps sample_repr w eq_refl)
    as (_ & _ & _ & H & _ & Hs).
  split; assumption.
Defined.

(** Two requests to a server that answers the first one after twenty
    seconds: the first request gets nothing, the second one is handed the
    answer to the first. *)
Lemma late_response_answers_next_request_witness :
  let w := ready late_server sample_gateway in
  exists w1 w2,
    send_request sample_loads sample_dumps (new_message "tools/list" (JObj [])) w =
      (Return None, w1) /\
    send_request sample_loads sample_dumps (new_message "tools/list" (JObj [])) w1 =
      (Return (Some (parsed [("jsonrpc", JStr "2.0"); ("id", JStr "3");
                             ("result", JObj [("content", JStr "hi")])])), w2).
Proof.
  intros w.
  apply (late_response_answers_next_request sample_loads sample_dumps w late_server
           20000%N (line_of (result_response "3" (JObj [("content", JStr "hi")]))) []).
  - reflexivity.
  - discriminate.
  - discriminate.
  - reflexivity.
  - reflexivity.
  - discriminate.
  - discriminate.
  - discriminate.
  - reflexivity.
Defined.

(** A request to a server that has exited, a request to a server that
    prints a blank line, and requests to a server that answers with a
    number. *)
Lemma send_request_unusable_replies_witness :
  (exists w1,
     send_request sample_loads sample_dumps (new_message "tools/list" (JObj []))
       (spawned exited_server sample_gateway) = (Return None, w1)) /\
  (exists w1,
     send_request sample_loads sample_dumps (new_message "tools/list" (JObj []))
       (spawned blank_server sample_gateway) = (Return None, w1)) /\
  (exists w1,
     call_tool number_loads sample_dumps sample_repr (JStr "echo") (JObj [])
       (spawned number_server sample_gateway) = (Raise AttributeError, w1)) /\
  (exists w1,
     list_tools number_loads sample_dumps (spawned number_server sample_gateway) =
       (Raise AttributeError, w1)).
Proof.
  split; [| split].
  - destruct (send_request_unusable_replies sample_loads sample_dumps sample_repr
                (spawned exited_server sample_gateway) exited_server eq_refl)
      as (H & _); [discriminate |].
    apply H; reflexivity.
  - destruct (send_request_unusable_replies sample_loads sample_dumps sample_repr
                (spawned blank_server sample_gateway) blank_server eq_refl)
      as (_ & H & _); [discriminate |].
    destruct (H 5%N blank_line [] eq_refl) with (message := new_message "tools/list" (JObj []))
      as [w1 Hw]; [discriminate | vm_compute; reflexivity |].
    exists w1. exact Hw.
  - destruct (send_request_unusable_replies number_loads sample_dumps sample_repr
                (spawned number_server sample_gateway) number_server eq_refl)
      as (_ & _ & H); [discriminate |].
    destruct (H (JNum 42)) as (_ & Hc & Hl).
    + answered.
    + discriminate.
    + split; [apply Hc | exact Hl].
Defined.

(** [list_tools] against a server that lists [echo], against one that
    answers with an error, and against one whose answer is too long a line. *)
Lemma list_tools_outcomes_witness :
  (exists w1,
     list_tools sample_loads sample_dumps (spawned listing_server sample_gateway) =
       (Return (JArr [echo_tool]), w1)) /\
  (exists w1,
     list_tools sample_loads sample_dumps (spawned refusing_server sample_gateway) =
       (Return (JArr []), w1)) /\
  (exists w1,
     list_tools sample_loads sample_dumps (spawned overlong_server sample_gateway) =
       (Raise ValueError, w1)).
Proof.
  split; [| split].
  - destruct (list_tools_outcomes sample_loads sample_dumps
                (spawned listing_server sample_gateway) listing_server eq_refl)
      as (H & _); [discriminate |].
    destruct (H [("jsonrpc", JStr "2.0"); ("id", JStr "2");
                 ("result", JObj [("tools", JArr [echo_tool])])])
      as (_ & H1).
    + answered.
    + destruct (H1 eq_refl) as (Hl & _).
      apply (Hl [("tools", JArr [echo_tool])] [echo_tool]);
        [reflexivity | discriminate | reflexivity].
  - destruct (list_tools_outcomes sample_loads sample_dumps
                (spawned refusing_server sample_gateway) refusing_server eq_refl)
      as (H & _); [discriminate |].
    destruct (H [("jsonrpc", JStr "2.0"); ("id", JStr "0");
                 ("error", JObj [("code", JNum (-32600));
                                 ("message", JStr "unsupported protocol version")])])
      as (H1 & _).
    + answered.
    + eapply H1; reflexivity.
  - destruct (list_tools_outcomes sample_loads sample_dumps
                (spawned overlong_server sample_gateway) overlong_server eq_refl)
      as (_ & H); [discriminate |].
    apply (H 5%N overlong_line []); [reflexivity | discriminate | vm_compute; reflexivity].
Defined.

(** A turn against an endpoint that cannot be reached. *)
Lemma gateway_error_ends_the_turn_witness :
  let w := ready echo_server unreachable_gateway in
  process_message sample_loads sample_dumps sample_repr "hello" w =
    (Return (JStr "Error: Connection failed: connection refused"),
     asked "hello" [echo_schema] w) /\
  option_map stdin_written (process (asked "hello" [echo_schema] w)) = Some [].
Proof.
  intros w.
  destruct (gateway_error_ends_the_turn sample_loads sample_dumps sample_repr
              "hello" w [echo_schema] eq_refl) as (_ & H & _ & _ & _ & Hp & _).
  split; [apply H; reflexivity | rewrite Hp; reflexivity].
Defined.

(** A turn against an endpoint that answers in plain text. *)
Lemma turn_without_tools_witness :
  let w := ready echo_server plain_gateway in
  let msg := assistant (JStr "hello yourself") [] in
  process_message sample_loads sample_dumps sample_repr "hello" w =
    (Return (JStr "hello yourself"), appended msg (asked "hello" [echo_schema] w)) /\
  conversation_history (appended msg (asked "hello" [echo_schema] w)) =
    conversation_history w ++ [user_turn "hello"; msg].
Proof.
  intros w msg.
  destruct (turn_without_tools sample_loads sample_dumps sample_repr
              "hello" w [echo_schema]
              (JObj [("choices", JArr [JObj [("message", msg)]])]) msg (JArr []))
    as (H1 & H2 & _); try reflexivity.
  split; [exact H1 | exact H2].
Defined.

(** A turn whose tool call succeeds and whose follow-up request meets an
    overloaded endpoint: [echo] has been called, and is not recorded. *)
Lemma follow_up_error_forgets_the_tools_witness :
  let w := ready echo_server flaky_gateway in
  exists w',
    process_message sample_loads sample_dumps sample_repr "hello" w =
      (Return (JStr "Error in final response: API error: 503"), w') /\
    tools_used_in_conversation w' = [] /\
    option_map (fun p => List.length (stdin_written p)) (process w') = Some 1.
Proof.
  intros w.
  set (call := tool_call "echo" (sample_show (JObj [("text", JStr "hi")]))).
  set (msg := assistant JNull [call]).
  set (r := for_tool_calls sample_loads sample_dumps sample_repr [call] [] []
              (asked "hello" [echo_schema] w)).
  destruct (follow_up_error_forgets_the_tools sample_loads sample_dumps sample_repr
              "hello" w [echo_schema] msg [call]
              (fst (match fst r with Return x => x | _ => ([], []) end))
              (snd (match fst r with Return x => x | _ => ([], []) end))
              (snd r) [("error", JStr "API error: 503")] (JStr "API error: 503"))
    as (H1 & H2 & _ & _ & H5).
  - split; [reflexivity |]. do 2 eexists. repeat split; reflexivity.
  - vm_compute. reflexivity.
  - vm_compute. reflexivity.
  - reflexivity.
  - eexists. split; [exact H1 |]. split; [exact H2 |]. rewrite H5.
    vm_compute. reflexivity.
Defined.

(** The bridge on [echo] and on a tool [ping] that has only a name. *)
Lemma tool_bridge_follows_the_tools_witness :
  exists out,
    convert_tools_for_openai (JArr [echo_tool; JObj [("name", JStr "ping")]]) =
      Return out /\
    Forall2 bridges [echo_tool; JObj [("name", JStr "ping")]] out /\
    omap schema_name out = Return [JStr "echo"; JStr "ping"].
Proof.
  destruct (tool_bridge_follows_the_tools
              (JArr [echo_tool; JObj [("name", JStr "ping")]])
              [JStr "echo"; JStr "ping"] eq_refl)
    as (items & out & Hi & Ho & Hb & Hn).
  injection Hi as <-. exists out. auto.
Defined.

(** The conversation of the sample session. *)
Lemma system_message_stays_first_witness :
  let w0 := new_session (Some sample_server) sample_gateway in
  exists sm,
    create_system_message sample_repr (JArr [echo_tool]) = Return sm /\
    opens_with sm (JArr [echo_tool])
      (snd (main sample_loads sample_dumps sample_repr sample_order stdio sample_inputs w0)).
Proof.
  intros w0.
  destruct (system_message_stays_first sample_loads sample_dumps sample_repr sample_order
              stdio sample_inputs w0
              (snd (start sample_loads sample_dumps sample_repr w0)) eq_refl)
    as (sm & H1 & _ & H3).
  - vm_compute. reflexivity.
  - exists sm. split; [exact H1 | exact H3].
Defined.

(** The loop over two calls of [echo], from a session that is ready: the
    requests carry the ids 3 and 4, in this order. *)
Lemma tool_calls_run_in_order_witness :
  let w := ready prompt_server sample_gateway in
  let args := JObj [("text", JStr "hi")] in
  let call := tool_call "echo" (sample_show args) in
  let r := for_tool_calls sample_loads sample_dumps sample_repr [call; call] [] [] w in
  exists p',
    process (snd r) = Some p' /\
    stdin_written p' =
      [wire_line sample_dumps
         (message_dict (stamped (call_request (JStr "echo") args) 3));
       wire_line sample_dumps
         (message_dict (stamped (call_request (JStr "echo") args) 4))] /\
    message_id (snd r) = 4 /\
    fst r = Return ([JStr "echo"; JStr "echo"],
                    [tool_result_line sample_dumps sample_repr (JStr "echo")
                       (JObj [("content", JStr "hi")]);
                     tool_result_line sample_dumps sample_repr (JStr "echo")
                       (JObj [("content", JStr "hi")])]).
Proof.
  intros w args call r.
  destruct (tool_calls_run_in_order sample_loads sample_dumps sample_repr
              [call; call] [] [] w prompt_server
              (fst (match fst r with Return x => x | _ => ([], []) end))
              (snd (match fst r with Return x => x | _ => ([], []) end))
              (snd r) eq_refl)
    as (requested & p' & H1 & _ & H3 & H4 & H5 & _).
  - vm_compute. reflexivity.
  - exists p'. split; [exact H3 |]. split; [| split; [exact H5 |]].
    + rewrite H4.
      inversion H1 as [| c1 [n1 a1] cs rs (x1 & (f1 & F1 & N1 & A1) & L1) H1' ]; subst.
      inversion H1' as [| c2 [n2 a2] cs2 rs2 (x2 & (f2 & F2 & N2 & A2) & L2) H1'' ]; subst.
      inversion H1''; subst.
      vm_compute in F1, F2. injection F1 as <-. injection F2 as <-.
      vm_compute in N1, N2, A1, A2. injection N1 as <-. injection N2 as <-.
      injection A1 as <-. injection A2 as <-.
      vm_compute in L1, L2. injection L1 as <-. injection L2 as <-.
      reflexivity.
    + vm_compute. reflexivity.
Defined.




(** The system message for [echo] exists; there is none for a tool whose
    [inputSchema] is a string, though the tool bridge accepts that tool. *)
Lemma system_message_needs_describable_tools_witness :
  let odd := JObj [("name", JStr "odd"); ("inputSchema", JStr "any")] in
  (exists sm, create_system_message sample_repr (JArr [echo_tool]) = Return sm) /\
  ~ (exists sm, create_system_message sample_repr (JArr [odd]) = Return sm) /\
  (exists out, convert_tools_for_openai (JArr [odd]) = Return out).
Proof.
  intros odd. split; [| split].
  - destruct (system_message_needs_describable_tools sample_repr [echo_tool]) as (H & _).
    apply H. reflexivity.
  - destruct (system_message_needs_describable_tools sample_repr [odd]) as (H & _).
    intros Hsm. apply H in Hsm. discriminate.
  - eexists. reflexivity.
Defined.

